(** * SecureIDUploader: the upload / retrieve / delete lifecycle

    A shallow embedding of the file service (Express handlers over a
    Mongoose model and a GridFS bucket) and the properties of its
    lifecycle.  The development follows the layout of the server:

    - [config/db.js]        connection handling ([connectDB], [ensureConnection]);
    - [config/gridfs.js]    the blob store adapter ([uploadToGridFS], ...);
    - [models/File.js]      the metadata schema and its validation;
    - [middleware/upload.js] the multipart filter ([fileFilter]);
    - [controllers/fileController.js] the request handlers;
    - [server.js]           the error-handling middleware.

    Handlers are computations in a state-and-exception monad over a
    [World] holding both stores, the module-level connection variables
    and the outcomes the environment will give to the driver calls.

    Conventions of the embedding:
    - an [await]ed driver call is one [io] step: the head of [faults]
      says whether it goes through or rejects with an error; a rejected
      call has no effect on the stores;
    - [console.log] output is not modelled;
    - a string stands for the JavaScript string with the same code
      units: one character of the model is one UTF-16 code unit below
      256 (the range of the latin-1 file names busboy hands over), so
      that [length] is the JavaScript [length]; text outside that range
      is not represented;
    - the connection is either closed or open when a request arrives:
      [readyState] 0 and 1; what Mongoose does while a connect or a
      disconnect is in flight (2, 3) is not part of the embedding, and
      the properties that depend on connecting say so;
    - ObjectIds are integers drawn from a counter; both the [File]
      collection and the bucket refuse a second document with the same
      [_id];
    - the libraries the server calls (Mongoose validation and queries,
      the GridFS bucket of the MongoDB driver, the multer middleware)
      are modelled by what they do for the calls and options the server
      uses; each such definition names the call it stands for;
    - every change of a store appends a [StoreEvent] to the trace
      [events], which no handler reads. *)

From Stdlib Require Import ZArith Lia Ascii String Strings.Byte DecimalString.
From stdpp Require Import base option list gmap strings sorting.

Set Warnings "-register-all".
Local Open Scope string_scope.
Local Open Scope list_scope.
Local Open Scope Z_scope.

(** ** JavaScript values and strings *)

Abbreviation ObjectId := Z.

(** Values handed to [res.json]: object literals keep their keys in
    source order. *)
Inductive jsval : Type :=
| JUndefined
| JNull
| JBool (b : bool)
| JNum (n : Z)
| JStr (s : string)
| JOid (o : ObjectId)
| JDate (t : Z)
| JArr (l : list jsval)
| JObj (kv : list (string * jsval)).

Definition is_undefined (v : jsval) : bool :=
  match v with JUndefined => true | _ => false end.

(** Property lookup [o.k] on an object value. *)
Fixpoint assoc {A} (k : string) (kv : list (string * A)) : option A :=
  match kv with
  | [] => None
  | (k', v) :: rest => if String.eqb k k' then Some v else assoc k rest
  end.

Definition prop (k : string) (v : jsval) : option jsval :=
  match v with JObj kv => assoc k kv | _ => None end.

Definition has_key (k : string) (v : jsval) : bool :=
  match prop k v with Some _ => true | None => false end.

(** [JSON.stringify] leaves out the properties whose value is
    [undefined]; the objects of this program hold it at top level only. *)
Definition drop_undefined (kv : list (string * jsval)) : list (string * jsval) :=
  List.filter (fun p => negb (is_undefined (snd p))) kv.

(** Truthiness of a string that may be [undefined]. *)
Definition truthy (s : option string) : bool :=
  match s with
  | None => false
  | Some s => negb (String.eqb s EmptyString)
  end.

(** [a || d] on such strings. *)
Definition or_default (a : option string) (d : string) : string :=
  match a with
  | Some s => if String.eqb s EmptyString then d else s
  | None => d
  end.

(** [String.prototype.includes]. *)
Fixpoint includes (s sub : string) : bool :=
  String.prefix sub s ||
  match s with
  | EmptyString => false
  | String _ rest => includes rest sub
  end.

(** [String.prototype.trim].  The white space and line terminators of
    JavaScript below 256: U+0009 to U+000D, U+0020 and U+00A0. *)
Definition is_space (c : ascii) : bool :=
  let n := Z.of_nat (nat_of_ascii c) in
  ((9 <=? n) && (n <=? 13)) || (n =? 32) || (n =? 160).

Fixpoint trim_start (s : string) : string :=
  match s with
  | String c rest => if is_space c then trim_start rest else s
  | EmptyString => EmptyString
  end.

Definition reverse_string (s : string) : string :=
  string_of_list_ascii (List.rev (list_ascii_of_string s)).

Definition trim (s : string) : string :=
  reverse_string (trim_start (reverse_string (trim_start s))).

Definition dquote : string := String (ascii_of_nat 34) EmptyString.

(** Decimal rendering of an integer, as string concatenation does. *)
Definition Z_to_string (z : Z) : string :=
  NilZero.string_of_int (Z.to_int z).

(** [encodeURIComponent]: an unreserved character stays, any other is
    written as the percent-escaped bytes of its UTF-8 encoding, one byte
    below U+0080 and two from U+0080 to U+00FF. *)
Definition unreserved (c : ascii) : bool :=
  let n := Z.of_nat (nat_of_ascii c) in
  ((48 <=? n) && (n <=? 57)) || ((65 <=? n) && (n <=? 90)) ||
  ((97 <=? n) && (n <=? 122)) ||
  existsb (Z.eqb n) [45; 95; 46; 33; 126; 42; 39; 40; 41].

Definition hex_digit (n : Z) : ascii :=
  ascii_of_nat (Z.to_nat (if n <? 10 then 48 + n else 55 + n)).

Definition percent_byte (b : Z) : string :=
  String "%" (String (hex_digit (b / 16)) (String (hex_digit (b mod 16)) EmptyString)).

Fixpoint percent_bytes (bs : list Z) : string :=
  match bs with
  | [] => EmptyString
  | b :: rest => percent_byte b +:+ percent_bytes rest
  end.

(** The UTF-8 encoding of a code point below 256. *)
Definition utf8 (n : Z) : list Z :=
  if n <? 128 then [n] else [192 + n / 64; 128 + n mod 64].

Fixpoint encodeURIComponent (s : string) : string :=
  match s with
  | EmptyString => EmptyString
  | String c rest =>
      if unreserved c then String c (encodeURIComponent rest)
      else
        let n := Z.of_nat (nat_of_ascii c) in
        percent_bytes (utf8 n) +:+ encodeURIComponent rest
  end.

(** ** Errors, results and the handler monad *)

Record Err : Type := mkErr {
  err_name : string;
  err_code : option string;
  err_message : string
}.

(** [new Error(msg)]. *)
Definition Error (msg : string) : Err := mkErr "Error" None msg.

Inductive Result (A : Type) : Type :=
| Ok (a : A)
| Throw (e : Err).
Arguments Ok {A} a.
Arguments Throw {A} e.

(** ** The stores *)

(** A file of the [uploads] bucket: the [uploads.files] document
    together with its [uploads.chunks]. *)
Record GridFile : Type := mkGridFile {
  gf_filename : string;
  gf_contentType : string;
  gf_metadata : list (string * option string);
  gf_length : Z;
  gf_chunkSize : Z;
  gf_chunks : list (list byte)
}.

(** A document of the [File] model ([models/File.js]).  Documents read
    back from the collection may lack [gridfsId] ([deleteFile] tests for
    it); the time stamps exist once the document is saved. *)
Record FileDoc : Type := mkFileDoc {
  _id : ObjectId;
  originalName : string;
  mimeType : string;
  size : Z;
  category : string;
  description : string;
  gridfsId : option ObjectId;
  isGridFS : bool;
  uploadDate : Z;
  createdAt : option Z;
  updatedAt : option Z
}.

(** The schema paths of a [File] document, as Mongoose stores them
    (the version key aside). *)
Definition schema_paths : list string :=
  ["_id"; "originalName"; "mimeType"; "size"; "category"; "description";
   "gridfsId"; "isGridFS"; "uploadDate"; "createdAt"; "updatedAt"].

(** Store operations that took effect, in order (ghost trace). *)
Inductive StoreEvent : Type :=
| BlobWritten (id : ObjectId)
| BlobDeleted (id : ObjectId)
| RecordCreated (id : ObjectId)
| RecordDeleted (id : ObjectId).

Record Env : Type := mkEnv {
  MONGODB_URI : option string;
  NODE_ENV : option string;
  MAX_FILE_SIZE : option Z
}.

Record World : Type := mkWorld {
  env : Env;                          (* process.env *)
  readyState : Z;                     (* mongoose.connection.readyState *)
  cachedConnection : bool;            (* db.js: cachedConnection !== null *)
  isConnected : bool;                 (* db.js: connectionStatus.isConnected *)
  gridFSBucket : bool;                (* gridfs.js: gridFSBucket !== null *)
  File_coll : list FileDoc;           (* the File collection, natural order *)
  uploads : gmap Z GridFile;          (* the 'uploads' bucket *)
  next_oid : ObjectId;                (* ObjectId generator *)
  clock : Z;                          (* Date.now() *)
  faults : list (option Err);         (* outcomes of the coming driver calls *)
  events : list StoreEvent
}.

Definition M (A : Type) : Type := World -> Result A * World.

Definition ret {A} (a : A) : M A := fun w => (Ok a, w).

Definition throw {A} (e : Err) : M A := fun w => (Throw e, w).

Definition bind {A B} (m : M A) (k : A -> M B) : M B :=
  fun w =>
    match m w with
    | (Ok a, w') => k a w'
    | (Throw e, w') => (Throw e, w')
    end.

(** [try { m } catch (e) { h e }]. *)
Definition try_catch {A} (m : M A) (h : Err -> M A) : M A :=
  fun w =>
    match m w with
    | (Ok a, w') => (Ok a, w')
    | (Throw e, w') => h e w'
    end.

Notation "'let*' x := m 'in' k" := (bind m (fun x => k))
  (at level 10, x name, m at level 100, k at level 200).
Notation "m ;;; k" := (bind m (fun _ => k))
  (at level 100, k at level 200, right associativity).

Definition gets {A} (f : World -> A) : M A := fun w => (Ok (f w), w).

Definition modify (f : World -> World) : M unit := fun w => (Ok tt, f w).

(** Field updates of the world. *)
Definition set_connection (rs : Z) (cached connected : bool) (w : World) : World :=
  mkWorld (env w) rs cached connected (gridFSBucket w) (File_coll w)
          (uploads w) (next_oid w) (clock w) (faults w) (events w).

Definition set_isConnected (b : bool) (w : World) : World :=
  mkWorld (env w) (readyState w) (cachedConnection w) b (gridFSBucket w)
          (File_coll w) (uploads w) (next_oid w) (clock w) (faults w) (events w).

Definition set_gridFSBucket (b : bool) (w : World) : World :=
  mkWorld (env w) (readyState w) (cachedConnection w) (isConnected w) b
          (File_coll w) (uploads w) (next_oid w) (clock w) (faults w) (events w).

Definition set_File_coll (c : list FileDoc) (ev : StoreEvent) (w : World) : World :=
  mkWorld (env w) (readyState w) (cachedConnection w) (isConnected w)
          (gridFSBucket w) c (uploads w) (next_oid w) (clock w) (faults w)
          (events w ++ [ev]).

Definition set_uploads (u : gmap Z GridFile) (ev : StoreEvent) (w : World) : World :=
  mkWorld (env w) (readyState w) (cachedConnection w) (isConnected w)
          (gridFSBucket w) (File_coll w) u (next_oid w) (clock w) (faults w)
          (events w ++ [ev]).

Definition set_next_oid (n : ObjectId) (w : World) : World :=
  mkWorld (env w) (readyState w) (cachedConnection w) (isConnected w)
          (gridFSBucket w) (File_coll w) (uploads w) n (clock w) (faults w)
          (events w).

Definition set_faults (f : list (option Err)) (w : World) : World :=
  mkWorld (env w) (readyState w) (cachedConnection w) (isConnected w)
          (gridFSBucket w) (File_coll w) (uploads w) (next_oid w) (clock w) f
          (events w).

(** One round trip to the database: the environment decides whether the
    driver call goes through or rejects. *)
Definition io : M unit :=
  fun w =>
    match faults w with
    | Some e :: rest => (Throw e, set_faults rest w)
    | None :: rest => (Ok tt, set_faults rest w)
    | [] => (Ok tt, w)
    end.

(** [new ObjectId()]. *)
Definition new_ObjectId : M ObjectId :=
  fun w => (Ok (next_oid w), set_next_oid (next_oid w + 1) w).

(** [Date.now()]. *)
Definition Date_now : M Z := gets clock.

(** ** config/db.js *)

(** [connectDB]: reuse the cached connection, else connect with
    [MONGODB_URI]; a failed [mongoose.connect] is rethrown.  The call is
    made from a closed connection, where [mongoose.connect] resolves
    once the connection is open; called while another connect is in
    flight Mongoose returns at once, which is outside the states
    modelled. *)
Definition connectDB : M unit :=
  fun w =>
    if cachedConnection w && (readyState w =? 1) then (Ok tt, w)
    else if negb (truthy (MONGODB_URI (env w)))
    then (Throw (Error "MONGODB_URI is not defined"), w)
    else
      match io w with
      | (Ok _, w') => (Ok tt, set_connection 1 true true w')
      | (Throw e, w') => (Throw e, set_isConnected false w')
      end.

Definition ensureConnection : M unit :=
  let* rs := gets readyState in
  if negb (rs =? 1) then connectDB else ret tt.

(** ** config/gridfs.js *)

Definition bucketName : string := "uploads".
Definition chunkSizeBytes : Z := 255 * 1024.

(** [initGridFS(mongoose.connection)]: [connection.db] exists once the
    connection is open; without it the function returns null. *)
Definition initGridFS : M bool :=
  fun w =>
    if negb (readyState w =? 1) then (Ok false, w)
    else (Ok true, set_gridFSBucket true w).

(** [getGridFSBucket]: the bucket is created on first use once the
    connection is ready. *)
Definition getGridFSBucket : M bool :=
  fun w =>
    if negb (gridFSBucket w) && (readyState w =? 1)
    then match initGridFS w with
         | (_, w') => (Ok (gridFSBucket w'), w')
         end
    else (Ok (gridFSBucket w), w).

(** The upload stream cuts the buffer into chunks of [n] bytes. *)
Fixpoint chunks_of (fuel : nat) (n : nat) (b : list byte) : list (list byte) :=
  match fuel, b with
  | _, [] => []
  | O, _ => [b]
  | S fuel', _ => firstn n b :: chunks_of fuel' n (skipn n b)
  end.

Definition split_chunks (n : Z) (b : list byte) : list (list byte) :=
  chunks_of (length b) (Z.to_nat n) b.

(** [Buffer.concat]. *)
Definition Buffer_concat (chunks : list (list byte)) : list byte :=
  List.concat chunks.

Record UploadOptions : Type := mkUploadOptions {
  contentType : option string;
  metadata : option (list (string * option string))
}.

Record GridFSResult : Type := mkGridFSResult {
  fileId : ObjectId;
  filename : string;
  length_ : Z
}.

(** [uploadToGridFS]: the stream gets its id when it is opened; an
    ['error'] of the stream rejects and leaves no file behind; the file
    ids of the bucket are unique. *)
Definition uploadToGridFS (fileBuffer : list byte) (name : string)
    (options : UploadOptions) : M GridFSResult :=
  let* bucket := getGridFSBucket in
  if negb bucket then throw (Error "GridFS bucket not initialized")
  else
    let* id := new_ObjectId in                    (* uploadStream.id *)
    io ;;;                                        (* 'error' rejects *)
    let* files := gets uploads in
    match files !! id with
    | Some _ =>
        throw (mkErr "MongoServerError" (Some "11000")
                 ("E11000 duplicate key error collection: uploads.files _id: "
                  +:+ Z_to_string id))
    | None =>
        let f := mkGridFile name (or_default (contentType options) "application/octet-stream")
                   (default [] (metadata options))
                   (Z.of_nat (length fileBuffer)) chunkSizeBytes
                   (split_chunks chunkSizeBytes fileBuffer) in
        modify (set_uploads (<[id := f]> files) (BlobWritten id)) ;;;
        ret (mkGridFSResult id name (Z.of_nat (length fileBuffer)))
    end.

(** [new mongoose.Types.ObjectId(fileId)]: the id itself, or a new one
    when the argument is undefined. *)
Definition ObjectId_from (fileId : option ObjectId) : M ObjectId :=
  match fileId with
  | Some id => ret id
  | None => new_ObjectId
  end.

Definition downloadFromGridFS (fileId : option ObjectId) : M (list byte) :=
  let* bucket := getGridFSBucket in
  if negb bucket then throw (Error "GridFS bucket not initialized")
  else
    let* id := ObjectId_from fileId in
    io ;;;
    let* files := gets uploads in
    match files !! id with
    | None =>
        throw (mkErr "MongoRuntimeError" None
                 ("FileNotFound: file " +:+ Z_to_string id +:+ " was not found"))
    | Some f => ret (Buffer_concat (gf_chunks f))
    end.

(** [bucket.delete] rejects when no file has the id. *)
Definition deleteFromGridFS (fileId : ObjectId) : M unit :=
  let* bucket := getGridFSBucket in
  if negb bucket then throw (Error "GridFS bucket not initialized")
  else
    let* id := ObjectId_from (Some fileId) in
    io ;;;
    let* files := gets uploads in
    match files !! id with
    | None =>
        throw (mkErr "MongoRuntimeError" None
                 ("File not found for id " +:+ Z_to_string id))
    | Some _ => modify (set_uploads (delete id files) (BlobDeleted id))
    end.

Definition fileExistsInGridFS (fileId : ObjectId) : M bool :=
  let* bucket := getGridFSBucket in
  if negb bucket then ret false
  else
    io ;;;
    let* files := gets uploads in
    ret (bool_decide (is_Some (files !! fileId))).

(** ** models/File.js *)

Definition category_enum : list string :=
  ["id_front"; "id_back"; "passport"; "drivers_license"; "utility_bill";
   "bank_statement"; "other"].

Definition in_enum (c : string) : bool := existsb (String.eqb c) category_enum.

(** [new File({...})]: the setters trim [originalName] and
    [description], the defaults give [_id] and [uploadDate]. *)
Definition new_File (name mime : string) (sz : Z) (cat desc : string)
    (gid : option ObjectId) (gfs : bool) : M FileDoc :=
  let* id := new_ObjectId in
  let* now := Date_now in
  ret (mkFileDoc id (trim name) mime sz cat (trim desc) gid gfs now None None).

(** The validators of the schema, in path order: each failing path with
    its message.  [maxlength] compares the [length] of the string, its
    number of code units. *)
Definition validate (d : FileDoc) : list (string * string) :=
  (if String.eqb (originalName d) EmptyString then [("originalName", "File name is required")]
   else [])
  ++ (if 500 <? Z.of_nat (String.length (originalName d))
      then [("originalName", "File name cannot exceed 500 characters")] else [])
  ++ (if String.eqb (mimeType d) EmptyString then [("mimeType", "MIME type is required")]
      else [])
  ++ (if in_enum (category d) then []
      else [("category", "`" +:+ category d
                         +:+ "` is not a valid enum value for path `category`.")])
  ++ (if 1000 <? Z.of_nat (String.length (description d))
      then [("description", "Description cannot exceed 1000 characters")] else [])
  ++ (match gridfsId d with
      | None => [("gridfsId", "Path `gridfsId` is required.")]
      | Some _ => []
      end).

Fixpoint join_errors (errs : list (string * string)) : string :=
  match errs with
  | [] => EmptyString
  | [(p, m)] => p +:+ ": " +:+ m
  | (p, m) :: rest => p +:+ ": " +:+ m +:+ ", " +:+ join_errors rest
  end.

Definition ValidationError (errs : list (string * string)) : Err :=
  mkErr "ValidationError" None ("File validation failed: " +:+ join_errors errs).

Definition with_timestamps (now : Z) (d : FileDoc) : FileDoc :=
  mkFileDoc (_id d) (originalName d) (mimeType d) (size d) (category d)
            (description d) (gridfsId d) (isGridFS d) (uploadDate d)
            (Some now) (Some now).

(** The first document of the collection with the given [_id]. *)
Fixpoint find_doc (id : ObjectId) (c : list FileDoc) : option FileDoc :=
  match c with
  | [] => None
  | d :: rest => if _id d =? id then Some d else find_doc id rest
  end.

Fixpoint remove_doc (id : ObjectId) (c : list FileDoc) : list FileDoc :=
  match c with
  | [] => []
  | d :: rest => if _id d =? id then rest else d :: remove_doc id rest
  end.

(** [doc.save()]: validate, stamp, insert; the collection has its
    unique index on [_id]. *)
Definition save (d : FileDoc) : M FileDoc :=
  match validate d with
  | (_ :: _) as errs => throw (ValidationError errs)
  | [] =>
      let* now := Date_now in
      io ;;;
      let* c := gets File_coll in
      match find_doc (_id d) c with
      | Some _ =>
          throw (mkErr "MongoServerError" (Some "11000")
                   ("E11000 duplicate key error collection: files _id: "
                    +:+ Z_to_string (_id d)))
      | None =>
          modify (set_File_coll (c ++ [with_timestamps now d]) (RecordCreated (_id d))) ;;;
          ret (with_timestamps now d)
      end
  end.

(** The [:id] route parameter: a string Mongoose casts to an ObjectId, or
    fails to.  The message of the cast error quotes the value as it is,
    which is how Mongoose prints a value without quote, backslash or
    control character. *)
Inductive IdParam : Type :=
| ValidId (id : ObjectId)
| InvalidId (s : string).

Definition cast_ObjectId (p : IdParam) : M ObjectId :=
  match p with
  | ValidId id => ret id
  | InvalidId s =>
      throw (mkErr "CastError" None
               ("Cast to ObjectId failed for value " +:+ dquote +:+ s +:+ dquote
                +:+ " (type string) at path " +:+ dquote +:+ "_id" +:+ dquote
                +:+ " for model " +:+ dquote +:+ "File" +:+ dquote))
  end.

Definition findById (p : IdParam) : M (option FileDoc) :=
  let* id := cast_ObjectId p in
  io ;;;
  let* c := gets File_coll in
  ret (find_doc id c).

Definition findByIdAndDelete (p : IdParam) : M (option FileDoc) :=
  let* id := cast_ObjectId p in
  io ;;;
  let* c := gets File_coll in
  match find_doc id c with
  | None => ret None
  | Some d =>
      modify (set_File_coll (remove_doc id c) (RecordDeleted id)) ;;;
      ret (Some d)
  end.

(** [.select('-gridfsId')]. *)
Definition select_minus_gridfsId (d : FileDoc) : FileDoc :=
  mkFileDoc (_id d) (originalName d) (mimeType d) (size d) (category d)
            (description d) None (isGridFS d) (uploadDate d)
            (createdAt d) (updatedAt d).

(** [.sort({ uploadDate: -1 })]. *)
Definition newer_first (a b : FileDoc) : Prop := uploadDate b <= uploadDate a.

#[global] Instance newer_first_dec : RelDecision newer_first.
Proof. intros a b. unfold newer_first. apply _. Defined.

Definition sort_uploadDate_desc (c : list FileDoc) : list FileDoc :=
  merge_sort newer_first c.

(** The query filter: [{}] or [{ category }]. *)
Definition matches (q : option string) (d : FileDoc) : bool :=
  match q with
  | None => true
  | Some c => String.eqb (category d) c
  end.

(** [File.find(q).select('-gridfsId').sort({ uploadDate: -1 }).lean()]. *)
Definition File_find (q : option string) : M (list FileDoc) :=
  io ;;;
  let* c := gets File_coll in
  ret (map select_minus_gridfsId (sort_uploadDate_desc (List.filter (matches q) c))).

Definition findById_select (p : IdParam) : M (option FileDoc) :=
  let* r := findById p in
  ret (option_map select_minus_gridfsId r).

(** ** middleware/upload.js *)

(** A file part of the multipart request as busboy announces it to
    multer (field name, file name after [basename], declared type, and
    the bytes that follow), and the file multer hands to the route once
    the memory storage has buffered it. *)
Record Part : Type := mkPart {
  part_fieldname : string;
  part_filename : string;
  part_mimetype : string;
  part_data : list byte
}.

Record MulterFile : Type := mkMulterFile {
  fieldname : string;
  originalname : string;
  mimetype : string;
  file_size : Z;
  buffer : list byte
}.

Definition allowedTypes : list string :=
  ["image/jpeg";
   "image/jpg";
   "image/png";
   "image/gif";
   "image/webp";
   "application/pdf";
   "application/msword";
   "application/vnd.openxmlformats-officedocument.wordprocessingml.document";
   "application/vnd.ms-excel";
   "application/vnd.openxmlformats-officedocument.spreadsheetml.sheet";
   "text/plain";
   "text/csv"].

(** [fileFilter(req, file, cb)]: [cb(null, true)] or [cb(new Error(..), false)]. *)
Definition fileFilter (file : Part) : Result bool :=
  if existsb (String.eqb (part_mimetype file)) allowedTypes
  then Ok true
  else Throw (Error ("Invalid file type: " +:+ part_mimetype file
                     +:+ ". Allowed: images, PDF, Word, Excel, text files.")).

(** [limits.fileSize]: [parseInt(process.env.MAX_FILE_SIZE) || 100 * 1024 * 1024]. *)
Definition fileSize_limit (e : Env) : Z :=
  match MAX_FILE_SIZE e with
  | Some n => if n =? 0 then 100 * 1024 * 1024 else n
  | None => 100 * 1024 * 1024
  end.

(** [limits.files]. *)
Definition files_limit : nat := 10%nat.

Definition MulterError (code msg : string) : Err :=
  mkErr "MulterError" (Some code) msg.

Definition memoryStorage (p : Part) : MulterFile :=
  mkMulterFile (part_fieldname p) (part_filename p) (part_mimetype p)
               (Z.of_nat (length (part_data p))) (part_data p).

(** multer leaves out a file part that has no file name (the part a
    browser sends for an empty file input): it is counted by busboy and
    then drained, before the field, the filter and the storage see
    it. *)
Definition named (p : Part) : bool :=
  negb (String.eqb (part_filename p) EmptyString).

(** [limits.fileSize] in busboy: the bytes of a part are handed on up to
    the limit, and the part is refused once as many bytes as the limit
    have arrived; below zero no byte is handed on and none refused. *)
Definition over_limit (limit : Z) (data : list byte) : bool :=
  (0 <=? limit) && (limit <=? Z.of_nat (length data))
  && (0 <? Z.of_nat (length data)).

Definition handed_on (limit : Z) (p : Part) : Part :=
  mkPart (part_fieldname p) (part_filename p) (part_mimetype p)
         (if limit <? 0 then [] else part_data p).

(** The multer middleware on the file parts of a request, in arrival
    order: [seen] files have arrived, [left] more are expected in
    [field].  The first error aborts the request. *)
Fixpoint multer_parts (limit : Z) (field : string) (seen left : nat)
    (parts : list Part) : Result (list MulterFile) :=
  match parts with
  | [] => Ok []
  | p :: rest =>
      if (files_limit <=? seen)%nat
      then Throw (MulterError "LIMIT_FILE_COUNT" "Too many files")
      else if negb (named p) then multer_parts limit field (S seen) left rest
      else if negb (String.eqb (part_fieldname p) field) || (left =? 0)%nat
      then Throw (MulterError "LIMIT_UNEXPECTED_FILE" "Unexpected field")
      else
        match fileFilter p with
        | Throw e => Throw e
        | Ok include =>
            if negb include then multer_parts limit field (S seen) (left - 1) rest
            else if over_limit limit (part_data p)
            then Throw (MulterError "LIMIT_FILE_SIZE" "File too large")
            else
              match multer_parts limit field (S seen) (left - 1) rest with
              | Throw e => Throw e
              | Ok fs => Ok (memoryStorage (handed_on limit p) :: fs)
              end
        end
  end.

(** [upload.single(field)] and [upload.array(field, maxCount)]. *)
Definition upload_single (e : Env) (field : string) (parts : list Part)
  : Result (option MulterFile) :=
  match multer_parts (fileSize_limit e) field 0 1 parts with
  | Throw err => Throw err
  | Ok fs => Ok (head fs)
  end.

Definition upload_array (e : Env) (field : string) (maxCount : nat)
    (parts : list Part) : Result (list MulterFile) :=
  multer_parts (fileSize_limit e) field 0 maxCount parts.

(** ** Requests and responses *)

(** [req.body]: the two text fields the handlers read, as the strings
    the parser decoded, absent when the form does not send them. *)
Record Body : Type := mkBody {
  body_category : option string;
  body_description : option string
}.

Record Req : Type := mkReq {
  req_file : option MulterFile;
  req_files : option (list MulterFile);
  req_body : Body;
  params_id : IdParam;
  params_category : string
}.

Inductive Payload : Type :=
| SentJson (v : jsval)
| SentBuffer (b : list byte).

Record Response : Type := mkResponse {
  status : Z;
  headers : list (string * string);
  payload : Payload
}.

(** [res.set('Content-Type', value)] of Express 4: a value without a
    charset parameter ([/;\s*charset\s*=/]) whose type, the text before
    the first [;], matches [/^text\/|^application\/(javascript|json)/]
    gets ['; charset=utf-8'] appended. *)
Fixpoint drop_prefix (p s : string) : option string :=
  match p, s with
  | EmptyString, _ => Some s
  | String a p', String b s' => if Ascii.eqb a b then drop_prefix p' s' else None
  | String _ _, EmptyString => None
  end.

Definition charset_here (s : string) : bool :=
  match drop_prefix ";" s with
  | Some rest =>
      match drop_prefix "charset" (trim_start rest) with
      | Some rest' => String.prefix "=" (trim_start rest')
      | None => false
      end
  | None => false
  end.

Fixpoint has_charset (s : string) : bool :=
  charset_here s ||
  match s with
  | EmptyString => false
  | String _ rest => has_charset rest
  end.

Fixpoint before_semicolon (s : string) : string :=
  match s with
  | EmptyString => EmptyString
  | String c rest =>
      if Ascii.eqb c ";" then EmptyString else String c (before_semicolon rest)
  end.

Definition charsets_lookup (type : string) : bool :=
  String.prefix "text/" type || String.prefix "application/javascript" type
  || String.prefix "application/json" type.

Definition set_content_type (value : string) : string :=
  if negb (has_charset value) && charsets_lookup (before_semicolon value)
  then value +:+ "; charset=utf-8"
  else value.

(** [res.status(st).json({...})]. *)
Definition res_json (st : Z) (kv : list (string * jsval)) : M Response :=
  ret (mkResponse st [] (SentJson (JObj (drop_undefined kv)))).

(** [res.set({...}); res.send(buffer)]: the headers are those the handler
    sets, as [res.set] stores them. *)
Definition res_send (hs : list (string * string)) (b : list byte) : M Response :=
  ret (mkResponse 200 hs (SentBuffer b)).

(** ** controllers/fileController.js *)

(** [formatFileSize].  [unit_index] is
    [Math.floor(Math.log(bytes) / Math.log(1024))] in exact arithmetic;
    [bytes / Math.pow(k, i)] divides by a power of two and is exact, so
    [toFixed(2)] rounds the exact quotient to hundredths, half up, and
    [parseFloat] followed by string concatenation prints the shortest
    decimal of the result. *)
Definition sizes : list string := ["Bytes"; "KB"; "MB"; "GB"].

Definition unit_index (bytes : Z) : Z := Z.log2 bytes / Z.log2 1024.

Definition toFixed2 (num den : Z) : Z := (2 * 100 * num + den) / (2 * den).

Definition show_hundredths (n : Z) : string :=
  let q := n / 100 in
  let r := n mod 100 in
  if r =? 0 then Z_to_string q
  else if r mod 10 =? 0 then Z_to_string q +:+ "." +:+ Z_to_string (r / 10)
  else Z_to_string q +:+ "." +:+ Z_to_string (r / 10) +:+ Z_to_string (r mod 10).

Definition formatFileSize (bytes : Z) : string :=
  if bytes =? 0 then "0 Bytes"
  else if bytes <? 0 then "NaN undefined"
  else
    let k := 1024 in
    let i := unit_index bytes in
    show_hundredths (toFixed2 bytes (k ^ i)) +:+ " "
      +:+ default "undefined" (sizes !! Z.to_nat i).

(** The object sent for a stored file by the single upload. *)
Definition uploaded_view (file : FileDoc) : jsval :=
  JObj [("id", JOid (_id file));
        ("originalName", JStr (originalName file));
        ("mimeType", JStr (mimeType file));
        ("size", JNum (size file));
        ("category", JStr (category file));
        ("description", JStr (description file));
        ("uploadDate", JDate (uploadDate file))].

(** The object pushed on [uploadedFiles] by the multiple upload. *)
Definition pushed_view (fileDoc : FileDoc) : jsval :=
  JObj [("id", JOid (_id fileDoc));
        ("originalName", JStr (originalName fileDoc));
        ("mimeType", JStr (mimeType fileDoc));
        ("size", JNum (size fileDoc));
        ("category", JStr (category fileDoc));
        ("uploadDate", JDate (uploadDate fileDoc))].

(** The object sent for a file by the read operations. *)
Definition listed_view (file : FileDoc) : jsval :=
  JObj [("id", JOid (_id file));
        ("originalName", JStr (originalName file));
        ("mimeType", JStr (mimeType file));
        ("size", JNum (size file));
        ("sizeFormatted", JStr (formatFileSize (size file)));
        ("category", JStr (category file));
        ("description", JStr (description file));
        ("uploadDate", JDate (uploadDate file))].

Definition failure (label : string) (error : Err) : M Response :=
  res_json 500 [("success", JBool false);
                ("message", JStr label);
                ("error", JStr (err_message error))].

Definition not_found : M Response :=
  res_json 404 [("success", JBool false); ("message", JStr "File not found")].

(** POST /api/files/upload *)
Definition uploadFile (req : Req) : M Response :=
  try_catch
    (ensureConnection ;;;
     match req_file req with
     | None =>
         res_json 400 [("success", JBool false); ("message", JStr "No file uploaded")]
     | Some f =>
         let category := body_category (req_body req) in
         let description := body_description (req_body req) in
         let* gridfsResult :=
           uploadToGridFS (buffer f) (originalname f)
             (mkUploadOptions (Some (mimetype f))
                (Some [("category", category); ("description", description)])) in
         let* file :=
           new_File (originalname f) (mimetype f) (file_size f)
                    (or_default category "other") (or_default description EmptyString)
                    (Some (fileId gridfsResult)) true in
         let* file := save file in
         res_json 201 [("success", JBool true);
                       ("message", JStr "File uploaded successfully");
                       ("file", uploaded_view file)]
     end)
    (failure "Error uploading file").

(** The body of the [for] loop of [uploadMultipleFiles], inside its
    [try]. *)
Definition uploadOne (body : Body) (file : MulterFile) : M jsval :=
  let* gridfsResult :=
    uploadToGridFS (buffer file) (originalname file)
      (mkUploadOptions (Some (mimetype file))
         (Some [("category", body_category body)])) in
  let* fileDoc :=
    new_File (originalname file) (mimetype file) (file_size file)
             (or_default (body_category body) "other")
             (or_default (body_description body) EmptyString)
             (Some (fileId gridfsResult)) true in
  let* fileDoc := save fileDoc in
  ret (pushed_view fileDoc).

Definition error_entry (file : MulterFile) (fileError : Err) : jsval :=
  JObj [("filename", JStr (originalname file));
        ("error", JStr (err_message fileError))].

(** [for (const file of req.files) { try {...} catch (fileError) {...} }],
    with the two arrays the loop pushes on. *)
Fixpoint upload_loop (body : Body) (files : list MulterFile)
    (uploadedFiles errors : list jsval) : M (list jsval * list jsval) :=
  match files with
  | [] => ret (uploadedFiles, errors)
  | file :: rest =>
      fun w =>
        match uploadOne body file w with
        | (Ok v, w') => upload_loop body rest (uploadedFiles ++ [v]) errors w'
        | (Throw fileError, w') =>
            upload_loop body rest uploadedFiles
                        (errors ++ [error_entry file fileError]) w'
        end
  end.

(** POST /api/files/upload-multiple *)
Definition uploadMultipleFiles (req : Req) : M Response :=
  try_catch
    (ensureConnection ;;;
     match req_files req with
     | None | Some [] =>
         res_json 400 [("success", JBool false); ("message", JStr "No files uploaded")]
     | Some files =>
         let* r := upload_loop (req_body req) files [] [] in
         let uploadedFiles := fst r in
         let errors := snd r in
         res_json 201
           [("success", JBool true);
            ("message", JStr (Z_to_string (Z.of_nat (length uploadedFiles))
                              +:+ " file(s) uploaded successfully"));
            ("files", JArr uploadedFiles);
            ("errors", if (0 <? Z.of_nat (length errors)) then JArr errors
                       else JUndefined)]
     end)
    (failure "Error uploading files").

(** GET /api/files *)
Definition getAllFiles (req : Req) : M Response :=
  try_catch
    (ensureConnection ;;;
     let* files := File_find None in
     res_json 200 [("success", JBool true);
                   ("count", JNum (Z.of_nat (length files)));
                   ("files", JArr (map listed_view files))])
    (failure "Error fetching files").

(** GET /api/files/:id *)
Definition getFileById (req : Req) : M Response :=
  try_catch
    (ensureConnection ;;;
     let* file := findById_select (params_id req) in
     match file with
     | None => not_found
     | Some file =>
         res_json 200 [("success", JBool true); ("file", listed_view file)]
     end)
    (failure "Error fetching file").

Definition content_headers (disposition : string) (file : FileDoc)
    (fileBuffer : list byte) : list (string * string) :=
  [("Content-Type", set_content_type (mimeType file));
   ("Content-Disposition",
    disposition +:+ "; filename=" +:+ dquote
      +:+ encodeURIComponent (originalName file) +:+ dquote);
   ("Content-Length", Z_to_string (Z.of_nat (length fileBuffer)))].

(** GET /api/files/:id/download *)
Definition downloadFile (req : Req) : M Response :=
  try_catch
    (ensureConnection ;;;
     let* file := findById (params_id req) in
     match file with
     | None => not_found
     | Some file =>
         let* fileBuffer := downloadFromGridFS (gridfsId file) in
         res_send (content_headers "attachment" file fileBuffer) fileBuffer
     end)
    (failure "Error downloading file").

(** GET /api/files/:id/view *)
Definition viewFile (req : Req) : M Response :=
  try_catch
    (ensureConnection ;;;
     let* file := findById (params_id req) in
     match file with
     | None => not_found
     | Some file =>
         let* fileBuffer := downloadFromGridFS (gridfsId file) in
         res_send (content_headers "inline" file fileBuffer) fileBuffer
     end)
    (failure "Error viewing file").

(** DELETE /api/files/:id *)
Definition deleteFile (req : Req) : M Response :=
  try_catch
    (ensureConnection ;;;
     let* file := findById (params_id req) in
     match file with
     | None => not_found
     | Some file =>
         match gridfsId file with
         | Some g => deleteFromGridFS g
         | None => ret tt
         end ;;;
         findByIdAndDelete (params_id req) ;;;
         res_json 200 [("success", JBool true);
                       ("message", JStr "File deleted successfully")]
     end)
    (failure "Error deleting file").

(** GET /api/files/category/:category *)
Definition getFilesByCategory (req : Req) : M Response :=
  try_catch
    (ensureConnection ;;;
     let category := params_category req in
     let* files := File_find (Some category) in
     res_json 200 [("success", JBool true);
                   ("category", JStr category);
                   ("count", JNum (Z.of_nat (length files)));
                   ("files", JArr (map listed_view files))])
    (failure "Error fetching files").

(** ** server.js and routes/fileRoutes.js *)

(** The error-handling middleware. *)
Definition errorHandler (e : Env) (err : Err) : Response :=
  let answer st kv := mkResponse st [] (SentJson (JObj (drop_undefined kv))) in
  if bool_decide (err_code err = Some "LIMIT_FILE_SIZE")
  then answer 400 [("success", JBool false);
                   ("message", JStr "File too large. Maximum size is 100MB")]
  else if truthy (Some (err_message err))
          && includes (err_message err) "Invalid file type"
  then answer 400 [("success", JBool false); ("message", JStr (err_message err))]
  else if String.eqb (err_name err) "MongooseError"
          && includes (err_message err) "buffering timed out"
  then answer 503 [("success", JBool false);
                   ("message", JStr "Database connection timeout. Please try again.")]
  else answer 500 [("success", JBool false);
                   ("message",
                    JStr (if bool_decide (NODE_ENV e = Some "production")
                          then "Internal server error" else err_message err))].

(** A multipart request to one of the upload routes, as busboy sorts
    its parts: [parts] are the parts it announces as files, in arrival
    order (those with a file name, and those without one of type
    application/octet-stream); [fields] is [req.body], built from the
    others. *)
Record Multipart : Type := mkMultipart {
  parts : list Part;
  fields : Body
}.

(** A handler run to its response; an error it lets escape goes to the
    error handler. *)
Definition respond (m : M Response) (w : World) : Response * World :=
  match m w with
  | (Ok r, w') => (r, w')
  | (Throw e, w') => (errorHandler (env w') e, w')
  end.

Definition no_params : IdParam := InvalidId EmptyString.

(** [router.post('/upload', upload.single('file'), uploadFile)] *)
Definition POST_upload (rq : Multipart) (w : World) : Response * World :=
  match upload_single (env w) "file" (parts rq) with
  | Throw err => (errorHandler (env w) err, w)
  | Ok f => respond (uploadFile (mkReq f None (fields rq) no_params EmptyString)) w
  end.

(** [router.post('/upload-multiple', upload.array('files', 10), uploadMultipleFiles)] *)
Definition POST_upload_multiple (rq : Multipart) (w : World) : Response * World :=
  match upload_array (env w) "files" 10 (parts rq) with
  | Throw err => (errorHandler (env w) err, w)
  | Ok fs =>
      respond (uploadMultipleFiles (mkReq None (Some fs) (fields rq) no_params EmptyString)) w
  end.

(** Requests that carry only route parameters. *)
Definition id_request (p : IdParam) : Req :=
  mkReq None None (mkBody None None) p EmptyString.

Definition category_request (c : string) : Req :=
  mkReq None None (mkBody None None) no_params c.

Definition GET_files (w : World) := respond (getAllFiles (id_request no_params)) w.
Definition GET_category (c : string) (w : World) :=
  respond (getFilesByCategory (category_request c)) w.
Definition GET_file (p : IdParam) (w : World) := respond (getFileById (id_request p)) w.
Definition GET_download (p : IdParam) (w : World) := respond (downloadFile (id_request p)) w.
Definition GET_view (p : IdParam) (w : World) := respond (viewFile (id_request p)) w.
Definition DELETE_file (p : IdParam) (w : World) := respond (deleteFile (id_request p)) w.

(** [initializeDB], run on cold start: the flag [isConnected] of
    server.js is passed in and returned; a failed connection is logged
    and swallowed. *)
Definition initializeDB (isConnected : bool) : M bool :=
  if negb isConnected
  then try_catch (connectDB ;;; initGridFS ;;; ret true)
                 (fun _ => ret isConnected)
  else ret isConnected.

(** ** Sample worlds *)

Definition dev_env : Env := mkEnv (Some "mongodb://localhost/secureid") None None.

(** A fresh process with an empty database. *)
Definition cold_world : World :=
  mkWorld dev_env 0 false false false [] ∅ 1 1000 [] [].

Definition passport_part : Part :=
  mkPart "file" "passport.png" "image/png" [x89; x50; x4e; x47].

Definition bill_part : Part :=
  mkPart "files" "bill.pdf" "application/pdf" [x25; x50; x44; x46; x2d].


(** * Vocabulary of the properties *)

(** ** The environment and the frame of an operation *)

(** No driver call of the coming ones is made to fail. *)
Definition quiet (w : World) : bool :=
  forallb (fun o => match o with None => true | Some _ => false end) (faults w).

(** Both stores and the trace are as before. *)
Definition stores_kept (w w' : World) : Prop :=
  File_coll w' = File_coll w /\ uploads w' = uploads w /\ events w' = events w.

(** The process variables other than the stores agree. *)
Definition same_process (w w' : World) : Prop :=
  env w' = env w /\ readyState w' = readyState w /\
  gridFSBucket w' = gridFSBucket w /\ clock w' = clock w.

(** ** Answers and runs of the single upload *)

Definition failure_response (label : string) (error : Err) : Response :=
  mkResponse 500 []
    (SentJson (JObj [("success", JBool false);
                     ("message", JStr label);
                     ("error", JStr (err_message error))])).

Definition created_response (file : FileDoc) : Response :=
  mkResponse 201 []
    (SentJson (JObj [("success", JBool true);
                     ("message", JStr "File uploaded successfully");
                     ("file", uploaded_view file)])).

(** The document the single upload builds for file [f] once its blob
    has id [g]. *)
Definition upload_doc (body : Body) (f : MulterFile) (g : ObjectId) (w : World) : FileDoc :=
  mkFileDoc (next_oid w) (trim (originalname f)) (mimetype f) (file_size f)
            (or_default (body_category body) "other")
            (trim (or_default (body_description body) EmptyString))
            (Some g) true (clock w) None None.

Definition upload_options (body : Body) (f : MulterFile) : UploadOptions :=
  mkUploadOptions (Some (mimetype f))
    (Some [("category", body_category body);
           ("description", body_description body)]).

(** The runs of [uploadFile] on a request that carries a file. *)
Inductive upload_run (req : Req) (f : MulterFile) (w : World)
  : Response -> World -> Prop :=
| upload_no_connection e w1 :
    ensureConnection w = (Throw e, w1) ->
    upload_run req f w (failure_response "Error uploading file" e) w1
| upload_blob_failed w1 e w2 :
    ensureConnection w = (Ok tt, w1) ->
    uploadToGridFS (buffer f) (originalname f) (upload_options (req_body req) f) w1
      = (Throw e, w2) ->
    upload_run req f w (failure_response "Error uploading file" e) w2
| upload_save_failed w1 g w2 e w3 :
    ensureConnection w = (Ok tt, w1) ->
    uploadToGridFS (buffer f) (originalname f) (upload_options (req_body req) f) w1
      = (Ok g, w2) ->
    save (upload_doc (req_body req) f (fileId g) w2)
         (set_next_oid (next_oid w2 + 1) w2) = (Throw e, w3) ->
    upload_run req f w (failure_response "Error uploading file" e) w3
| upload_created w1 g w2 d w3 :
    ensureConnection w = (Ok tt, w1) ->
    uploadToGridFS (buffer f) (originalname f) (upload_options (req_body req) f) w1
      = (Ok g, w2) ->
    save (upload_doc (req_body req) f (fileId g) w2)
         (set_next_oid (next_oid w2 + 1) w2) = (Ok d, w3) ->
    upload_run req f w (created_response d) w3.

(** ** Sample requests *)

Definition png_file : MulterFile := memoryStorage passport_part.

Definition upload_request (f : MulterFile) (body : Body) : Req :=
  mkReq (Some f) None body no_params EmptyString.

Definition stream_error : Err := mkErr "MongoNetworkError" None "connection closed".

(** The connection comes up, then the upload stream emits an error. *)
Definition failing_bucket_world : World :=
  set_faults [None; Some stream_error] cold_world.

(** ** Stored category *)

(** The upload of [f] with the form fields [body] creates a record whose
    category is ['other']. *)
Definition stored_as_other (body : Body) (f : MulterFile) (w : World) : Prop :=
  exists resp w' d,
    uploadFile (upload_request f body) w = (Ok resp, w') /\
    status resp = 201 /\
    File_coll w' = File_coll w ++ [d] /\
    category d = "other".

(** ** Deletion *)

(** The delete of [id] removes the record and reports success. *)
Definition delete_proceeds (id : ObjectId) (w : World) : Prop :=
  exists resp w',
    deleteFile (id_request (ValidId id)) w = (Ok resp, w') /\
    status resp = 200 /\
    find_doc id (File_coll w') = None.

(** A connected database holding one record whose blob is missing. *)
Definition orphan_record : FileDoc :=
  mkFileDoc 2 "passport.png" "image/png" 4 "passport" EmptyString (Some 1) true
            1000 (Some 1000) (Some 1000).

Definition orphan_world : World :=
  mkWorld dev_env 1 true true true [orphan_record] ∅ 3 2000 [] [].

(** ** Listing *)

(** The database can be reached and none of the coming calls fails. *)
Definition reachable (w : World) : bool :=
  ((readyState w =? 1) || truthy (MONGODB_URI (env w))) && quiet w.

Definition category_response (c : string) (found : list FileDoc) : Response :=
  mkResponse 200 []
    (SentJson (JObj [("success", JBool true);
                     ("category", JStr c);
                     ("count", JNum (Z.of_nat (length found)));
                     ("files", JArr (map listed_view found))])).

(** ** Retrieval *)

(** The world stores [bytes] under the record id [id]. *)
Definition holds_file (id : ObjectId) (bytes : list byte) (w : World) : Prop :=
  exists d b blob,
    find_doc id (File_coll w) = Some d /\
    gridfsId d = Some b /\
    uploads w !! b = Some blob /\
    Buffer_concat (gf_chunks blob) = bytes.

(** A download and an inline view of [id] send [bytes] whenever they
    answer 200, and they do answer 200 when the connection is ready and
    no driver call is made to fail. *)
Definition round_trips (id : ObjectId) (bytes : list byte) (w : World) : Prop :=
  (forall resp w2,
      downloadFile (id_request (ValidId id)) w = (Ok resp, w2) ->
      status resp = 200 -> payload resp = SentBuffer bytes) /\
  (forall resp w2,
      viewFile (id_request (ValidId id)) w = (Ok resp, w2) ->
      status resp = 200 -> payload resp = SentBuffer bytes) /\
  (readyState w = 1 -> quiet w = true ->
   (exists resp w2,
       downloadFile (id_request (ValidId id)) w = (Ok resp, w2) /\
       status resp = 200 /\ payload resp = SentBuffer bytes) /\
   (exists resp w2,
       viewFile (id_request (ValidId id)) w = (Ok resp, w2) /\
       status resp = 200 /\ payload resp = SentBuffer bytes)).

(** The answer of a download or of an inline view that sends [bytes]
    for the record [d]. *)
Definition sent_response (disposition : string) (d : FileDoc) (bytes : list byte)
  : Response :=
  mkResponse 200 (content_headers disposition d bytes) (SentBuffer bytes).

(** The two retrieval handlers differ in the disposition only. *)
Definition retrieve (disposition label : string) (req : Req) : M Response :=
  try_catch
    (ensureConnection ;;;
     let* file := findById (params_id req) in
     match file with
     | None => not_found
     | Some file =>
         let* fileBuffer := downloadFromGridFS (gridfsId file) in
         res_send (content_headers disposition file fileBuffer) fileBuffer
     end)
    (failure label).

(** A connected database with three records. *)
Definition old_passport : FileDoc :=
  mkFileDoc 2 "passport.png" "image/png" 4 "passport" EmptyString (Some 1) true
            1000 (Some 1000) (Some 1000).

Definition power_bill : FileDoc :=
  mkFileDoc 4 "bill.pdf" "application/pdf" 1536 "utility_bill" "March" (Some 3)
            true 3000 (Some 3000) (Some 3000).

Definition new_passport : FileDoc :=
  mkFileDoc 6 "passport2.png" "image/png" 1048576 "passport" EmptyString (Some 5)
            true 2000 (Some 2000) (Some 2000).

Definition library_world : World :=
  mkWorld dev_env 1 true true true [old_passport; power_bill; new_passport] ∅
          7 4000 [] [].

(** ** The multipart layer *)

Definition allowed (p : Part) : bool :=
  existsb (String.eqb (part_mimetype p)) allowedTypes.



Inductive UploadRoute : Type := SingleUpload | MultipleUpload.

Definition route_field (r : UploadRoute) : string :=
  match r with SingleUpload => "file" | MultipleUpload => "files" end.

Definition route_max (r : UploadRoute) : nat :=
  match r with SingleUpload => 1%nat | MultipleUpload => 10%nat end.

Definition POST (r : UploadRoute) (rq : Multipart) (w : World) : Response * World :=
  match r with
  | SingleUpload => POST_upload rq w
  | MultipleUpload => POST_upload_multiple rq w
  end.

(** ** The upload loop and the upload protocol *)

(** The payloads of a multiple upload are run one after the other, each
    in the world the previous one left, whatever its result was. *)
Inductive items_run (body : Body)
  : World -> list MulterFile -> list (Result jsval) -> World -> Prop :=
| items_done w : items_run body w [] [] w
| items_next w file r w1 rest rs w2 :
    uploadOne body file w = (r, w1) ->
    items_run body w1 rest rs w2 ->
    items_run body w (file :: rest) (r :: rs) w2.

(** The views of the payloads that succeeded, in order. *)
Fixpoint successes (rs : list (Result jsval)) : list jsval :=
  match rs with
  | [] => []
  | Ok v :: rest => v :: successes rest
  | Throw _ :: rest => successes rest
  end.

(** The entries of the payloads that failed, in order. *)
Fixpoint failures (files : list MulterFile) (rs : list (Result jsval)) : list jsval :=
  match files, rs with
  | file :: files', Throw e :: rest => error_entry file e :: failures files' rest
  | _ :: files', Ok _ :: rest => failures files' rest
  | _, _ => []
  end.

Definition is_throw {A} (r : Result A) : bool :=
  match r with Throw _ => true | Ok _ => false end.

Definition multi_response (uploadedFiles errors : list jsval) : Response :=
  mkResponse 201 []
    (SentJson
       (JObj ([("success", JBool true);
               ("message", JStr (Z_to_string (Z.of_nat (length uploadedFiles))
                                 +:+ " file(s) uploaded successfully"));
               ("files", JArr uploadedFiles)]
              ++ match errors with
                 | [] => []
                 | _ :: _ => [("errors", JArr errors)]
                 end))).

Definition no_files_response : Response :=
  mkResponse 400 []
    (SentJson (JObj [("success", JBool false); ("message", JStr "No files uploaded")])).

(** Steps 2 and 3 of the upload protocol: write the blob, then create
    the record that references it.  Both upload handlers run it, with
    their own side-car metadata for the blob. *)
Definition store_file (options : UploadOptions) (body : Body) (f : MulterFile)
  : M FileDoc :=
  let* gridfsResult := uploadToGridFS (buffer f) (originalname f) options in
  let* file :=
    new_File (originalname f) (mimetype f) (file_size f)
             (or_default (body_category body) "other")
             (or_default (body_description body) EmptyString)
             (Some (fileId gridfsResult)) true in
  save file.

Definition item_options (body : Body) (f : MulterFile) : UploadOptions :=
  mkUploadOptions (Some (mimetype f)) (Some [("category", body_category body)]).

(** A connected, empty database. *)
Definition ready_world : World :=
  mkWorld dev_env 1 true true true [] ∅ 1 1000 [] [].

Definition pdf_file : MulterFile := memoryStorage bill_part.

(** A payload whose name is blank once trimmed. *)
Definition nameless_file : MulterFile :=
  mkMulterFile "files" "   " "text/plain" 2 [x68; x69].

Definition files_request (files : list MulterFile) (body : Body) : Req :=
  mkReq None (Some files) body no_params EmptyString.

(** The JSON value of an answer. *)
Definition sent_json (resp : Response) : jsval :=
  match payload resp with
  | SentJson v => v
  | SentBuffer _ => JUndefined
  end.

(** ** Record views *)

(** The record views an answer carries: its [file], or the elements of
    its [files]. *)
Definition returned_views (resp : Response) : list jsval :=
  match prop "file" (sent_json resp) with
  | Some v => [v]
  | None =>
      match prop "files" (sent_json resp) with
      | Some (JArr l) => l
      | _ => []
      end
  end.

(** The name under which a schema path appears in a view. *)
Definition public_key (path : string) : string :=
  if String.eqb path "_id" then "id" else path.

(** The view leaves out the blob id and carries every other path of the
    schema. *)
Definition exposes_all_but_blob_id (v : jsval) : Prop :=
  has_key "gridfsId" v = false /\ has_key "blobId" v = false /\
  forall path, path ∈ schema_paths -> path <> "gridfsId" ->
               has_key (public_key path) v = true.

(** What the views do carry of record [d]. *)
Definition public_view (with_description : bool) (d : FileDoc) (v : jsval) : Prop :=
  prop "gridfsId" v = None /\ prop "blobId" v = None /\
  prop "id" v = Some (JOid (_id d)) /\
  prop "originalName" v = Some (JStr (originalName d)) /\
  prop "mimeType" v = Some (JStr (mimeType d)) /\
  prop "size" v = Some (JNum (size d)) /\
  prop "category" v = Some (JStr (category d)) /\
  prop "uploadDate" v = Some (JDate (uploadDate d)) /\
  (with_description = true ->
   prop "description" v = Some (JStr (description d))) /\
  prop "isGridFS" v = None /\ prop "createdAt" v = None /\
  prop "updatedAt" v = None.

(** The listing of the sample library. *)
Definition library_listing : Response :=
  match fst (getAllFiles (id_request no_params) library_world) with
  | Ok resp => resp
  | Throw _ => no_files_response
  end.

(** ** The handlers as one family *)

Inductive Handler : Type :=
| H_uploadFile
| H_uploadMultipleFiles
| H_getAllFiles
| H_getFileById
| H_downloadFile
| H_viewFile
| H_deleteFile
| H_getFilesByCategory.

Definition handler (h : Handler) : Req -> M Response :=
  match h with
  | H_uploadFile => uploadFile
  | H_uploadMultipleFiles => uploadMultipleFiles
  | H_getAllFiles => getAllFiles
  | H_getFileById => getFileById
  | H_downloadFile => downloadFile
  | H_viewFile => viewFile
  | H_deleteFile => deleteFile
  | H_getFilesByCategory => getFilesByCategory
  end.

(** The message of the handler's [catch]. *)
Definition handler_label (h : Handler) : string :=
  match h with
  | H_uploadFile => "Error uploading file"
  | H_uploadMultipleFiles => "Error uploading files"
  | H_getAllFiles => "Error fetching files"
  | H_getFileById => "Error fetching file"
  | H_downloadFile => "Error downloading file"
  | H_viewFile => "Error viewing file"
  | H_deleteFile => "Error deleting file"
  | H_getFilesByCategory => "Error fetching files"
  end.

(** The handlers of the GET routes. *)
Definition is_read (h : Handler) : bool :=
  match h with
  | H_getAllFiles | H_getFileById | H_downloadFile | H_viewFile
  | H_getFilesByCategory => true
  | _ => false
  end.

Definition not_found_response : Response :=
  mkResponse 404 []
    (SentJson (JObj [("success", JBool false); ("message", JStr "File not found")])).

Definition deleted_response : Response :=
  mkResponse 200 []
    (SentJson (JObj [("success", JBool true);
                     ("message", JStr "File deleted successfully")])).

Definition no_file_response : Response :=
  mkResponse 400 []
    (SentJson (JObj [("success", JBool false); ("message", JStr "No file uploaded")])).

Definition found_response (file : FileDoc) : Response :=
  mkResponse 200 []
    (SentJson (JObj [("success", JBool true); ("file", listed_view file)])).

Definition listing_response (found : list FileDoc) : Response :=
  mkResponse 200 []
    (SentJson (JObj [("success", JBool true);
                     ("count", JNum (Z.of_nat (length found)));
                     ("files", JArr (map listed_view found))])).

(** ** Invariants of the two stores *)

(** Every record of the collection passes the validators of the schema. *)
Definition schema_valid (w : World) : Prop :=
  Forall (fun d => validate d = []) (File_coll w).

(** The blob ids the records reference. *)
Definition blob_refs (c : list FileDoc) : list ObjectId := omap gridfsId c.

(** Referential integrity: record ids are unique, no two records share a
    blob, and every record references a blob of the bucket. *)
Definition consistent (w : World) : Prop :=
  NoDup (map _id (File_coll w)) /\
  NoDup (blob_refs (File_coll w)) /\
  Forall (fun d => exists g, gridfsId d = Some g /\ is_Some (uploads w !! g))
         (File_coll w).

(** The runs of [deleteFile] on a well-formed id. *)
Inductive delete_outcome (id : ObjectId) (w : World) (resp : Response) (w' : World)
  : Prop :=
| delete_failed e :
    resp = failure_response "Error deleting file" e ->
    stores_kept w w' ->
    delete_outcome id w resp w'
| delete_unknown :
    resp = not_found_response ->
    find_doc id (File_coll w) = None ->
    stores_kept w w' ->
    delete_outcome id w resp w'
| delete_half d g e :
    resp = failure_response "Error deleting file" e ->
    find_doc id (File_coll w) = Some d ->
    gridfsId d = Some g ->
    is_Some (uploads w !! g) ->
    File_coll w' = File_coll w ->
    uploads w' = delete g (uploads w) ->
    events w' = events w ++ [BlobDeleted g] ->
    delete_outcome id w resp w'
| delete_done d :
    resp = deleted_response ->
    find_doc id (File_coll w) = Some d ->
    File_coll w' = remove_doc id (File_coll w) ->
    match gridfsId d with
    | Some g => is_Some (uploads w !! g) /\
                uploads w' = delete g (uploads w) /\
                events w' = events w ++ [BlobDeleted g; RecordDeleted id]
    | None => uploads w' = uploads w /\
              events w' = events w ++ [RecordDeleted id]
    end ->
    delete_outcome id w resp w'.

(** The handlers of the routes with an [:id] parameter. *)
Definition by_id (h : Handler) : bool :=
  match h with
  | H_getFileById | H_downloadFile | H_viewFile | H_deleteFile => true
  | _ => false
  end.

(** The error of Mongoose for an [:id] that is no ObjectId. *)
Definition CastError (s : string) : Err :=
  mkErr "CastError" None
    ("Cast to ObjectId failed for value " +:+ dquote +:+ s +:+ dquote
     +:+ " (type string) at path " +:+ dquote +:+ "_id" +:+ dquote
     +:+ " for model " +:+ dquote +:+ "File" +:+ dquote).

(** A connected database holding two files, blobs included. *)
Definition png_blob : GridFile :=
  mkGridFile "passport.png" "image/png" [("category", Some "passport")] 4
             chunkSizeBytes [[x89; x50; x4e; x47]].

Definition pdf_blob : GridFile :=
  mkGridFile "bill.pdf" "application/pdf" [("category", Some "utility_bill")] 5
             chunkSizeBytes [[x25; x50; x44; x46; x2d]].

Definition stocked_world : World :=
  mkWorld dev_env 1 true true true [old_passport; power_bill]
          (<[1 := png_blob]> (<[3 := pdf_blob]> ∅)) 5 4000 [] [].

(** The runs of a retrieval ([downloadFile], [viewFile]). *)
Inductive retrieve_outcome (disposition label : string) (p : IdParam) (w : World)
    (resp : Response) (w' : World) : Prop :=
| retrieve_failed e :
    resp = failure_response label e ->
    retrieve_outcome disposition label p w resp w'
| retrieve_unknown id :
    p = ValidId id ->
    resp = not_found_response ->
    find_doc id (File_coll w) = None ->
    retrieve_outcome disposition label p w resp w'
| retrieve_sent id d b blob :
    p = ValidId id ->
    resp = sent_response disposition d (Buffer_concat (gf_chunks blob)) ->
    find_doc id (File_coll w) = Some d ->
    uploads w !! b = Some blob ->
    gridfsId d = Some b \/ gridfsId d = None /\ b = next_oid w ->
    retrieve_outcome disposition label p w resp w'.

(** The handlers other than the delete. *)
Definition is_delete (h : Handler) : bool :=
  match h with H_deleteFile => true | _ => false end.

(** Nothing was removed between [w] and [w']: the collection of [w] is
    the beginning of that of [w'], natural order kept, and every blob of
    [w] is a blob of [w']. *)
Definition extends (w w' : World) : Prop :=
  File_coll w `prefix_of` File_coll w' /\ uploads w ⊆ uploads w'.

(** What the validators of the schema guarantee of a record. *)
Definition well_formed (d : FileDoc) : Prop :=
  originalName d <> EmptyString /\
  (String.length (originalName d) <= 500)%nat /\
  mimeType d <> EmptyString /\
  category d ∈ category_enum /\
  (String.length (description d) <= 1000)%nat /\
  is_Some (gridfsId d).

(** A file part the multer configuration lets through in [field]: sent
    in that field, of an allowed type, and shorter than the size limit
    (or empty; a negative limit refuses nothing). *)
Definition acceptable (limit : Z) (field : string) (p : Part) : Prop :=
  part_fieldname p = field /\ allowed p = true /\
  (Z.of_nat (length (part_data p)) < limit \/ part_data p = [] \/ limit < 0).

(** The file parts that carry a file name, in arrival order. *)
Definition named_parts (ps : list Part) : list Part := List.filter named ps.

(** The part a browser sends for a file input left empty. *)
Definition empty_input_part : Part :=
  mkPart "file" EmptyString "application/octet-stream" [].


(** The form fields and the file of an upload pass the validators of the
    schema once the setters have trimmed the name and the description
    and the defaults are filled in. *)
Definition passes_validation (body : Body) (f : MulterFile) : Prop :=
  trim (originalname f) <> EmptyString /\
  (String.length (trim (originalname f)) <= 500)%nat /\
  mimetype f <> EmptyString /\
  or_default (body_category body) "other" ∈ category_enum /\
  (String.length (trim (or_default (body_description body) EmptyString)) <= 1000)%nat.

(** The [success] flag of a JSON answer agrees with its status class,
    and the [error] property is there exactly on a 500. *)
Definition well_flagged (resp : Response) : Prop :=
  match payload resp with
  | SentBuffer _ => status resp = 200
  | SentJson v =>
      status resp ∈ [200; 201; 400; 404; 500] /\
      prop "success" v = Some (JBool (status resp <? 400)) /\
      (status resp = 500 <-> exists msg, prop "error" v = Some (JStr msg))
  end.

(** The id generator is ahead of every id in use: no blob and no record
    has an id the generator is still to give out. *)
Definition generator_fresh (w : World) : Prop :=
  forall k, next_oid w <= k ->
            uploads w !! k = None /\ find_doc k (File_coll w) = None.

(** ** Answers pinned to the records *)

(** The answer lists the records [found], in this order: [count] is
    their number, [files] holds one view per record, with the formatted
    size. *)
Definition lists_records (found : list FileDoc) (resp : Response) : Prop :=
  status resp = 200 /\
  prop "success" (sent_json resp) = Some (JBool true) /\
  prop "count" (sent_json resp) = Some (JNum (Z.of_nat (length found))) /\
  exists views,
    prop "files" (sent_json resp) = Some (JArr views) /\
    Forall2 (fun d v => public_view true d v /\
                        prop "sizeFormatted" v
                        = Some (JStr (formatFileSize (size d))))
            found views.

(** The record the upload protocol creates for payload [f]: name and
    description trimmed, category defaulted, and valid for the schema. *)
Definition record_of (body : Body) (f : MulterFile) (d : FileDoc) : Prop :=
  originalName d = trim (originalname f) /\
  mimeType d = mimetype f /\
  size d = file_size f /\
  category d = or_default (body_category body) "other" /\
  description d = trim (or_default (body_description body) EmptyString) /\
  validate d = [].

(** The records among the outcomes of the payloads, in order. *)
Fixpoint records_of (os : list (Result FileDoc)) : list FileDoc :=
  match os with
  | [] => []
  | Ok d :: rest => d :: records_of rest
  | Throw _ :: rest => records_of rest
  end.

(** What a multiple upload that ends in world [w'] answers for its
    payloads: each payload has one outcome; a payload that succeeded has
    its record, held in [w'] with the bytes of the payload, and the next
    view; a payload that failed has the next entry, its file name with
    the message of the error. *)
Inductive batch_outcome (body : Body) (w' : World)
  : list MulterFile -> list (Result FileDoc) -> list jsval -> list jsval -> Prop :=
| batch_nil : batch_outcome body w' [] [] [] []
| batch_stored f fs d os v vs es :
    record_of body f d ->
    holds_file (_id d) (buffer f) w' ->
    public_view false d v ->
    batch_outcome body w' fs os vs es ->
    batch_outcome body w' (f :: fs) (Ok d :: os) (v :: vs) es
| batch_failed f fs e os vs es :
    batch_outcome body w' fs os vs es ->
    batch_outcome body w' (f :: fs) (Throw e :: os) vs
      (JObj [("filename", JStr (originalname f));
             ("error", JStr (err_message e))] :: es).

(** The answer of a multiple upload with these views and entries. *)
Definition batch_answer (views errs : list jsval) (resp : Response) : Prop :=
  status resp = 201 /\
  prop "success" (sent_json resp) = Some (JBool true) /\
  prop "message" (sent_json resp)
  = Some (JStr (Z_to_string (Z.of_nat (length views))
                +:+ " file(s) uploaded successfully")) /\
  prop "files" (sent_json resp) = Some (JArr views) /\
  prop "errors" (sent_json resp)
  = match errs with [] => None | _ :: _ => Some (JArr errs) end.

(** No connect is in flight: the connection is down or up. *)
Definition settled (w : World) : Prop := readyState w = 0 \/ readyState w = 1.

(** * Properties *)

(** ** The environment and what the primitives leave alone *)

Lemma stores_kept_trans w1 w2 w3 :
  stores_kept w1 w2 -> stores_kept w2 w3 -> stores_kept w1 w3.
Proof.
  intros (a & b & c) (a' & b' & c'). repeat split; congruence.
Qed.

Lemma io_kept w r w' : io w = (r, w') -> stores_kept w w' /\ same_process w w'.
Proof.
  unfold io. intros H.
  destruct (faults w) as [|[e|] rest]; inversion H; subst;
    by repeat split.
Qed.

Lemma io_next_oid w r w' : io w = (r, w') -> next_oid w' = next_oid w.
Proof.
  unfold io. intros H.
  destruct (faults w) as [|[e|] rest]; by inversion H.
Qed.

Lemma io_quiet w :
  quiet w = true -> exists w', io w = (Ok tt, w') /\ quiet w' = true /\
                               w' = set_faults (faults w') w.
Proof.
  unfold quiet, io. intros H.
  destruct w as [e rs cc ic gb fc up no ck fl ev]; simpl in *.
  destruct fl as [|[err|] rest]; simpl in *; try discriminate;
    eexists; (split; [reflexivity|]); by split.
Qed.

Lemma connectDB_kept w r w' :
  connectDB w = (r, w') ->
  stores_kept w w' /\ env w' = env w /\ clock w' = clock w /\
  next_oid w' = next_oid w /\ gridFSBucket w' = gridFSBucket w /\
  (r = Ok tt -> readyState w = 1 \/ readyState w' = 1).
Proof.
  unfold connectDB. intros H.
  destruct (cachedConnection w && (readyState w =? 1)) eqn:Hc.
  - inversion H; subst. apply andb_true_iff in Hc as [_ Hc].
    repeat split; auto. intros _. left. lia.
  - destruct (negb (truthy (MONGODB_URI (env w)))).
    + inversion H; subst. repeat split; auto. discriminate.
    + destruct (io w) as [[[]|e] w1] eqn:Hio;
        pose proof (io_kept _ _ _ Hio) as [(a & b & c) (d & e' & f & g)];
        pose proof (io_next_oid _ _ _ Hio) as n;
        inversion H; subst; simpl; repeat split; auto; discriminate.
Qed.

Lemma ensureConnection_kept w r w' :
  ensureConnection w = (r, w') ->
  stores_kept w w' /\ env w' = env w /\ clock w' = clock w /\
  next_oid w' = next_oid w /\ gridFSBucket w' = gridFSBucket w /\
  (r = Ok tt -> readyState w' = 1).
Proof.
  unfold ensureConnection, bind, gets. simpl.
  destruct (readyState w =? 1) eqn:Hrs; simpl.
  - intros H. inversion H; subst. repeat split; auto. intros _. lia.
  - intros H. apply connectDB_kept in H as (a & b & c & d & e & f).
    repeat split; try apply a; auto.
    intros Hr. destruct (f Hr); [lia | done].
Qed.

(** With the connection up, [ensureConnection] does nothing at all. *)
Lemma ensureConnection_ready w :
  readyState w = 1 -> ensureConnection w = (Ok tt, w).
Proof.
  intros H. unfold ensureConnection, bind, gets. simpl. by rewrite H.
Qed.

(** The primitives of the monad, unfolded. *)
Ltac unfold_prims :=
  unfold bind, ret, throw, gets, modify, new_ObjectId, Date_now,
    ObjectId_from, getGridFSBucket, initGridFS in *.

Lemma getGridFSBucket_spec w :
  exists b : bool,
    getGridFSBucket w = (Ok b, (if b then set_gridFSBucket true w else w)) /\
    (readyState w = 1 -> b = true) /\
    (b = false -> gridFSBucket w = false).
Proof.
  unfold getGridFSBucket, initGridFS.
  destruct w as [e rs cc ic gb fc up no ck fl ev]; simpl.
  destruct gb; simpl.
  - exists true. split; [reflexivity|]. split; [done|discriminate].
  - destruct (rs =? 1) eqn:Hr; simpl.
    + exists true. split; [reflexivity|]. split; [done|discriminate].
    + exists false. split; [reflexivity|]. split; [lia|done].
Qed.

(** The blob store adapter: a write either fails and leaves the stores
    alone, or adds one blob under an unused id. *)
Lemma uploadToGridFS_spec fileBuffer name options w r w' :
  uploadToGridFS fileBuffer name options w = (r, w') ->
  File_coll w' = File_coll w /\ env w' = env w /\ clock w' = clock w /\
  readyState w' = readyState w /\
  match r with
  | Throw e => uploads w' = uploads w /\ events w' = events w
  | Ok res =>
      exists f,
        uploads w !! fileId res = None /\
        uploads w' = <[fileId res := f]> (uploads w) /\
        events w' = events w ++ [BlobWritten (fileId res)] /\
        gf_chunks f = split_chunks chunkSizeBytes fileBuffer /\
        gridFSBucket w' = true
  end.
Proof.
  unfold uploadToGridFS. intros H.
  destruct (getGridFSBucket_spec w) as (b & Hb & _ & _).
  unfold bind at 1 in H. rewrite Hb in H. destruct b; simpl in H.
  - unfold_prims. simpl in H.
    destruct (io _) as [[[]|e] w1] eqn:Hio.
    + pose proof (io_kept _ _ _ Hio) as [(a1 & a2 & a3) (b1 & b2 & b3 & b4)].
      simpl in *.
      destruct (uploads w1 !! next_oid w) eqn:Hl; inversion H; subst; simpl.
      * repeat split; assumption.
      * do 4 (split; [assumption|]).
        eexists. rewrite <- a2, <- a3, Hl.
        repeat split; try reflexivity. exact b3.
    + pose proof (io_kept _ _ _ Hio) as [(a1 & a2 & a3) (b1 & b2 & b3 & b4)].
      simpl in *. inversion H; subst. repeat split; congruence.
  - unfold throw in H. inversion H; subst. by repeat split.
Qed.

Lemma new_File_spec name mime sz cat desc gid gfs w :
  new_File name mime sz cat desc gid gfs w =
  (Ok (mkFileDoc (next_oid w) (trim name) mime sz cat (trim desc) gid gfs
                 (clock w) None None),
   set_next_oid (next_oid w + 1) w).
Proof. reflexivity. Qed.

(** [save] either fails and leaves the stores alone, or appends the
    stamped document to the collection. *)
Lemma save_spec d w r w' :
  save d w = (r, w') ->
  uploads w' = uploads w /\ env w' = env w /\ clock w' = clock w /\
  readyState w' = readyState w /\ gridFSBucket w' = gridFSBucket w /\
  match r with
  | Throw e => File_coll w' = File_coll w /\ events w' = events w
  | Ok d' =>
      d' = with_timestamps (clock w) d /\
      validate d = [] /\
      find_doc (_id d) (File_coll w) = None /\
      File_coll w' = File_coll w ++ [d'] /\
      events w' = events w ++ [RecordCreated (_id d)]
  end.
Proof.
  unfold save. intros H.
  destruct (validate d) eqn:Hv.
  - unfold_prims. simpl in H.
    destruct (io w) as [[[]|e] w1] eqn:Hio;
      pose proof (io_kept _ _ _ Hio) as [(a1 & a2 & a3) (b1 & b2 & b3 & b4)].
    + destruct (find_doc (_id d) (File_coll w1)) eqn:Hf;
        inversion H; subst; simpl; repeat split; try congruence.
    + inversion H; subst. repeat split; congruence.
  - unfold throw in H. inversion H; subst. by repeat split.
Qed.

(** ** The handlers always answer *)

Lemma failure_eq label e w : failure label e w = (Ok (failure_response label e), w).
Proof. reflexivity. Qed.

Lemma try_catch_failure (m : M Response) label w :
  exists resp w', try_catch m (failure label) w = (Ok resp, w').
Proof.
  unfold try_catch. destruct (m w) as [[r|e] w1]; [by eauto|].
  rewrite failure_eq. eauto.
Qed.

(** No handler lets an error escape: each request gets an answer. *)
Lemma handlers_answer req w :
  (exists resp w', uploadFile req w = (Ok resp, w')) /\
  (exists resp w', uploadMultipleFiles req w = (Ok resp, w')) /\
  (exists resp w', getAllFiles req w = (Ok resp, w')) /\
  (exists resp w', getFileById req w = (Ok resp, w')) /\
  (exists resp w', downloadFile req w = (Ok resp, w')) /\
  (exists resp w', viewFile req w = (Ok resp, w')) /\
  (exists resp w', deleteFile req w = (Ok resp, w')) /\
  (exists resp w', getFilesByCategory req w = (Ok resp, w')).
Proof. repeat split; apply try_catch_failure. Qed.

Lemma uploadFile_run req f w r w' :
  req_file req = Some f ->
  uploadFile req w = (r, w') ->
  exists resp, r = Ok resp /\ upload_run req f w resp w'.
Proof.
  intros Hf. unfold uploadFile, try_catch. rewrite Hf.
  unfold bind at 1.
  destruct (ensureConnection w) as [[[]|e] w1] eqn:Hc.
  - unfold bind at 1. fold (upload_options (req_body req) f).
    destruct (uploadToGridFS _ _ _ w1) as [[g|e] w2] eqn:Hu.
    + unfold bind at 1. rewrite new_File_spec.
      fold (upload_doc (req_body req) f (fileId g) w2).
      unfold bind at 1.
      destruct (save _ _) as [[d|e] w3] eqn:Hs.
      * intros H. inversion H; subst. eexists; split; [reflexivity|].
        eapply upload_created; eauto.
      * rewrite failure_eq. intros H. inversion H; subst.
        eexists; split; [reflexivity|]. eapply upload_save_failed; eauto.
    + rewrite failure_eq. intros H. inversion H; subst.
      eexists; split; [reflexivity|]. eapply upload_blob_failed; eauto.
  - rewrite failure_eq. intros H. inversion H; subst.
    eexists; split; [reflexivity|]. by apply upload_no_connection.
Qed.

Lemma validate_nil_enum d : validate d = [] -> in_enum (category d) = true.
Proof.
  unfold validate. intros H.
  repeat (apply app_eq_nil in H as [? H]).
  destruct (in_enum (category d)); [done | discriminate].
Qed.

(** What a run of the single upload does to the stores. *)
Lemma upload_run_stores req f w resp w' :
  upload_run req f w resp w' ->
  (status resp = 500 /\ File_coll w' = File_coll w /\
   (events w' = events w /\ uploads w' = uploads w \/
    exists b blob, events w' = events w ++ [BlobWritten b] /\
                   uploads w !! b = None /\
                   uploads w' = <[b := blob]> (uploads w)))
  \/ (exists b blob d,
        resp = created_response d /\
        File_coll w' = File_coll w ++ [d] /\
        find_doc (_id d) (File_coll w) = None /\
        validate d = [] /\
        category d = or_default (body_category (req_body req)) "other" /\
        gridfsId d = Some b /\
        uploads w !! b = None /\
        uploads w' = <[b := blob]> (uploads w) /\
        gf_chunks blob = split_chunks chunkSizeBytes (buffer f) /\
        events w' = events w ++ [BlobWritten b; RecordCreated (_id d)] /\
        readyState w' = 1 /\ gridFSBucket w' = true).
Proof.
  intros Hrun. destruct Hrun as [e w1 Hc | w1 e w2 Hc Hu | w1 g w2 e w3 Hc Hu Hs
                                 | w1 g w2 d w3 Hc Hu Hs].
  - apply ensureConnection_kept in Hc as ((a & b & c) & _).
    left. repeat split; auto.
  - apply ensureConnection_kept in Hc as ((a & b & c) & _).
    apply uploadToGridFS_spec in Hu as (u1 & _ & _ & _ & u2 & u3).
    left. repeat split; [congruence|]. left. split; congruence.
  - apply ensureConnection_kept in Hc as ((a & b & c) & _).
    apply uploadToGridFS_spec in Hu as (u1 & _ & _ & _ & blob & u2 & u3 & u4 & _).
    apply save_spec in Hs as (s1 & _ & _ & _ & _ & s2 & s3). simpl in *.
    left. repeat split; [congruence|]. right. exists (fileId g), blob.
    rewrite <- b, <- c. repeat split; congruence.
  - apply ensureConnection_kept in Hc as ((a & b & c) & _ & _ & _ & _ & Hr).
    specialize (Hr eq_refl).
    apply uploadToGridFS_spec in Hu as (u1 & _ & _ & ur & blob & u2 & u3 & u4 & u5 & u6).
    apply save_spec in Hs as (s1 & _ & _ & sr & sb & s2 & s3 & s4 & s5 & s6).
    simpl in *. right. exists (fileId g), blob, d. subst d.
    rewrite <- b, <- c, <- a.
    repeat split; try congruence.
    + simpl. congruence.
    + exact s3.
    + simpl. rewrite s6, u4. by rewrite <- app_assoc.
Qed.

(** ** Single upload: blob first, record second (C3) *)

(** C3.  In every single upload the blob is written before any metadata
    record is created: the store operations of the request are none, or
    one blob write, or one blob write followed by one record creation,
    and a created record references the blob written by the request.
    When the blob write fails no record is created, both stores are as
    before, and the answer (status 500) carries the message of the
    blob-store error. *)
Theorem upload_blob_before_record req f w resp w' :
  req_file req = Some f ->
  uploadFile req w = (Ok resp, w') ->
  (exists evs,
      events w' = events w ++ evs /\
      (evs = [] \/
       exists b, evs = [BlobWritten b] \/
                 exists d, evs = [BlobWritten b; RecordCreated (_id d)] /\
                           File_coll w' = File_coll w ++ [d] /\
                           gridfsId d = Some b /\
                           is_Some (uploads w' !! b))) /\
  (forall w1 e w2,
      ensureConnection w = (Ok tt, w1) ->
      uploadToGridFS (buffer f) (originalname f)
                     (upload_options (req_body req) f) w1 = (Throw e, w2) ->
      resp = failure_response "Error uploading file" e /\
      status resp = 500 /\
      File_coll w' = File_coll w /\ uploads w' = uploads w /\
      events w' = events w).
Proof.
  intros Hf Hrun.
  destruct (uploadFile_run _ _ _ _ _ Hf Hrun) as (resp' & Heq & Hr).
  inversion Heq; subst resp'; clear Heq. split.
  - destruct (upload_run_stores _ _ _ _ _ Hr)
      as [(_ & _ & [[He _] | (b & blob & He & _)])
         | (b & blob & d & _ & Hc & _ & _ & _ & Hg & _ & Hu & _ & He & _)].
    + exists []. rewrite app_nil_r. auto.
    + exists [BlobWritten b]. split; [done|]. right. exists b. by left.
    + exists [BlobWritten b; RecordCreated (_id d)]. split; [done|].
      right. exists b. right. exists d. repeat split; auto.
      rewrite Hu, lookup_insert_eq. eauto.
  - intros w1 e w2 Hc Hu.
    destruct Hr as [e' w1' Hc' | w1' e' w2' Hc' Hu' | w1' g w2' e' w3 Hc' Hu' Hs
                   | w1' g w2' d w3 Hc' Hu' Hs];
      rewrite Hc in Hc'; inversion Hc'; subst;
      rewrite Hu in Hu'; inversion Hu'; subst.
    apply ensureConnection_kept in Hc as ((a & b & c) & _).
    apply uploadToGridFS_spec in Hu as (u1 & _ & _ & _ & u2 & u3).
    repeat split; congruence.
Qed.

Lemma upload_blob_before_record_witness :
  let w' := snd (uploadFile (upload_request png_file (mkBody None None))
                            failing_bucket_world) in
  File_coll w' = [] /\ uploads w' = ∅ /\ events w' = [].
Proof.
  pose proof (upload_blob_before_record
                (upload_request png_file (mkBody None None)) png_file
                failing_bucket_world
                (failure_response "Error uploading file" stream_error)
                (snd (uploadFile (upload_request png_file (mkBody None None))
                                 failing_bucket_world))
                eq_refl eq_refl) as [_ H].
  destruct (H (set_faults [Some stream_error]
                 (set_connection 1 true true failing_bucket_world))
              stream_error
              (set_faults []
                 (set_next_oid 2
                    (set_gridFSBucket true
                       (set_connection 1 true true failing_bucket_world))))
              eq_refl eq_refl) as (_ & _ & a & b & c).
  simpl. auto.
Defined.

(** ** The category of an uploaded file (C1) *)

(** An unrecognized category is not replaced by the default: the upload
    of a PNG with category ['selfie'] to an empty, reachable database
    fails validation, answers 500 and stores no record. *)
Lemma unrecognized_category_not_defaulted :
  in_enum "selfie" = false /\
  ~ stored_as_other (mkBody (Some "selfie") None) png_file cold_world /\
  (let r := uploadFile (upload_request png_file (mkBody (Some "selfie") None))
                       cold_world in
   (status <$> (match fst r with Ok resp => Some resp | Throw _ => None end)) = Some 500 /\
   File_coll (snd r) = []).
Proof.
  split; [reflexivity|]. split.
  - intros (resp & w' & d & Hrun & Hst & _).
    vm_compute in Hrun. inversion Hrun; subst. discriminate Hst.
  - vm_compute. by split.
Qed.

(** C1 (amended).  When the category field is absent (or empty) and the
    upload succeeds, the created record stores ['other'] and the answer
    shows it.  A category that is present, non-empty and outside the
    enumeration is kept as sent: validation rejects the record, no
    FileRecord is created and the upload answers 500.  A category of the
    enumeration is stored unchanged. *)
Theorem upload_category req f w resp w' :
  req_file req = Some f ->
  uploadFile req w = (Ok resp, w') ->
  (truthy (body_category (req_body req)) = false ->
   status resp = 201 ->
   exists d, File_coll w' = File_coll w ++ [d] /\ category d = "other" /\
             resp = created_response d) /\
  (forall c, body_category (req_body req) = Some c ->
             c <> EmptyString ->
             in_enum c = false ->
             status resp = 500 /\ File_coll w' = File_coll w) /\
  (forall c, body_category (req_body req) = Some c ->
             in_enum c = true ->
             status resp = 201 ->
             exists d, File_coll w' = File_coll w ++ [d] /\ category d = c).
Proof.
  intros Hf Hrun.
  destruct (uploadFile_run _ _ _ _ _ Hf Hrun) as (resp' & Heq & Hr).
  inversion Heq; subst resp'; clear Heq.
  destruct (upload_run_stores _ _ _ _ _ Hr)
    as [(Hst & Hc & _)
       | (b & blob & d & Hresp & Hc & _ & Hv & Hcat & _)].
  - repeat split; try (intros; rewrite Hst in *; discriminate); auto.
  - split; [|split].
    + intros Ht _. exists d. repeat split; auto.
      rewrite Hcat. unfold truthy, or_default in *.
      destruct (body_category (req_body req)) as [c|]; [|done].
      destruct (String.eqb c EmptyString); [done | discriminate].
    + intros c Hb Hne Hin. exfalso.
      apply validate_nil_enum in Hv. rewrite Hcat, Hb in Hv.
      unfold or_default in Hv.
      destruct (String.eqb_spec c EmptyString); congruence.
    + intros c Hb Hin _. exists d. split; [done|].
      rewrite Hcat, Hb. unfold or_default.
      destruct (String.eqb_spec c EmptyString); [|done].
      subst c. discriminate Hin.
Qed.

Lemma upload_category_witness :
  let r := uploadFile (upload_request png_file (mkBody None None)) cold_world in
  exists d, File_coll (snd r) = File_coll cold_world ++ [d] /\
            category d = "other" /\
            fst r = Ok (created_response d).
Proof.
  destruct (upload_category
              (upload_request png_file (mkBody None None)) png_file cold_world
              (created_response
                 (mkFileDoc 2 "passport.png" "image/png" 4 "other" EmptyString
                            (Some 1) true 1000 (Some 1000) (Some 1000)))
              (snd (uploadFile (upload_request png_file (mkBody None None))
                               cold_world))
              eq_refl eq_refl) as (H & _ & _).
  destruct (H eq_refl eq_refl) as (d & a & b & c).
  exists d. simpl. repeat split; auto. by rewrite <- c.
Defined.

(** ** Deleting a file whose blob is gone (C2) *)

Lemma findById_spec id w r w' :
  findById (ValidId id) w = (r, w') ->
  stores_kept w w' /\ same_process w w' /\
  match r with
  | Ok o => o = find_doc id (File_coll w)
  | Throw _ => True
  end.
Proof.
  unfold findById, cast_ObjectId. unfold_prims. simpl.
  destruct (io w) as [[[]|e] w1] eqn:Hio; intros H; inversion H; subst;
    destruct (io_kept _ _ _ Hio) as [Hk Hp]; repeat split;
    try apply Hk; try apply Hp.
  destruct Hk as (a & _). by rewrite a.
Qed.

Lemma deleteFromGridFS_spec g w r w' :
  deleteFromGridFS g w = (r, w') ->
  File_coll w' = File_coll w /\
  match r with
  | Throw e => uploads w' = uploads w /\ events w' = events w
  | Ok _ => is_Some (uploads w !! g) /\ uploads w' = delete g (uploads w) /\
            events w' = events w ++ [BlobDeleted g]
  end.
Proof.
  unfold deleteFromGridFS. intros H.
  destruct (getGridFSBucket_spec w) as (b & Hb & _ & _).
  unfold bind at 1 in H. rewrite Hb in H. destruct b; simpl in H.
  - unfold_prims. simpl in H.
    destruct (io _) as [[[]|e] w1] eqn:Hio;
      pose proof (io_kept _ _ _ Hio) as [(a1 & a2 & a3) _]; simpl in *.
    + destruct (uploads w1 !! g) eqn:Hl; inversion H; subst; simpl.
      * rewrite <- a2, <- a3, Hl. repeat split; eauto.
      * repeat split; assumption.
    + inversion H; subst. repeat split; assumption.
  - unfold throw in H. inversion H; subst. by repeat split.
Qed.

(** With the blob already missing the delete does not proceed: the
    bucket rejects, the handler answers 500 and the record stays. *)
Lemma delete_missing_blob_does_not_proceed :
  find_doc 2 (File_coll orphan_world) = Some orphan_record /\
  uploads orphan_world !! 1 = None /\
  ~ delete_proceeds 2 orphan_world /\
  (let r := deleteFile (id_request (ValidId 2)) orphan_world in
   fst r = Ok (failure_response "Error deleting file"
                 (mkErr "MongoRuntimeError" None "File not found for id 1")) /\
   File_coll (snd r) = [orphan_record]).
Proof.
  split; [reflexivity|]. split; [reflexivity|]. split.
  - intros (resp & w' & Hrun & Hst & _).
    vm_compute in Hrun. inversion Hrun; subst. discriminate Hst.
  - vm_compute. by split.
Qed.

(** C2 (amended).  A delete on an id whose FileRecord exists while the
    blob it references is missing from the bucket never succeeds: the
    handler answers 500 with [success: false], the FileRecord is still
    in the collection and both stores are as before. *)
Theorem delete_missing_blob_fails id d g w resp w' :
  find_doc id (File_coll w) = Some d ->
  gridfsId d = Some g ->
  uploads w !! g = None ->
  deleteFile (id_request (ValidId id)) w = (Ok resp, w') ->
  (exists e, resp = failure_response "Error deleting file" e) /\
  status resp = 500 /\
  find_doc id (File_coll w') = Some d /\
  File_coll w' = File_coll w /\ uploads w' = uploads w /\ events w' = events w.
Proof.
  intros Hd Hg Hblob. unfold deleteFile, try_catch. simpl.
  unfold bind at 1.
  destruct (ensureConnection w) as [[[]|e] w1] eqn:Hc;
    apply ensureConnection_kept in Hc as ((a1 & a2 & a3) & _).
  - unfold bind at 1.
    destruct (findById (ValidId id) w1) as [[o|e] w2] eqn:Hfind;
      apply findById_spec in Hfind as ((b1 & b2 & b3) & _ & Ho).
    + subst o. rewrite a1, Hd, Hg. unfold bind at 1.
      destruct (deleteFromGridFS g w2) as [[[]|e] w3] eqn:Hdel;
        apply deleteFromGridFS_spec in Hdel as (c1 & Hdel).
      * destruct Hdel as ([blob Hl] & _). congruence.
      * destruct Hdel as (c2 & c3). rewrite failure_eq.
        intros H. inversion H; subst.
        split; [by eexists|]. repeat split; congruence.
    + rewrite failure_eq. intros H. inversion H; subst.
      split; [by eexists|]. repeat split; congruence.
  - rewrite failure_eq. intros H. inversion H; subst.
    split; [by eexists|]. repeat split; congruence.
Qed.

Lemma delete_missing_blob_fails_witness :
  let r := deleteFile (id_request (ValidId 2)) orphan_world in
  find_doc 2 (File_coll (snd r)) = Some orphan_record /\
  File_coll (snd r) = File_coll orphan_world.
Proof.
  destruct (delete_missing_blob_fails 2 orphan_record 1 orphan_world
              (failure_response "Error deleting file"
                 (mkErr "MongoRuntimeError" None "File not found for id 1"))
              (snd (deleteFile (id_request (ValidId 2)) orphan_world))
              eq_refl eq_refl eq_refl eq_refl) as (_ & _ & a & b & _).
  simpl. by split.
Defined.

(** ** The size string (C8) *)

Lemma unit_index_bounds bytes :
  0 < bytes ->
  0 <= unit_index bytes /\
  1024 ^ unit_index bytes <= bytes < 1024 ^ (unit_index bytes + 1).
Proof.
  intros Hpos. unfold unit_index.
  change (Z.log2 1024) with 10.
  pose proof (Z.log2_nonneg bytes) as Hl.
  destruct (Z.log2_spec bytes Hpos) as [Hlo Hhi].
  set (l := Z.log2 bytes) in *.
  assert (Hi : 0 <= l / 10) by (apply Z.div_pos; lia).
  assert (Hq : 10 * (l / 10) <= l < 10 * (l / 10) + 10).
  { pose proof (Z.div_mod l 10 ltac:(lia)).
    pose proof (Z.mod_pos_bound l 10 ltac:(lia)). lia. }
  split; [exact Hi|].
  change 1024 with (2 ^ 10).
  rewrite <- !Z.pow_mul_r by lia.
  split.
  - eapply Z.le_trans; [|exact Hlo]. apply Z.pow_le_mono_r; lia.
  - eapply Z.lt_le_trans; [exact Hhi|]. apply Z.pow_le_mono_r; lia.
Qed.

Lemma toFixed2_nearest num den :
  0 < den ->
  - den <= 2 * (100 * num - toFixed2 num den * den) < den.
Proof.
  intros Hd. unfold toFixed2.
  pose proof (Z.div_mod (2 * 100 * num + den) (2 * den) ltac:(lia)) as Hdm.
  pose proof (Z.mod_pos_bound (2 * 100 * num + den) (2 * den) ltac:(lia)) as Hm.
  nia.
Qed.

(** C8.  The size string computed at read time: 0 bytes gives
    ["0 Bytes"], 1536 bytes gives ["1.5 KB"], 1048576 bytes gives
    ["1 MB"]; for every positive size the unit is the 1024-based one
    ([1024^i <= bytes < 1024^(i+1)]) and the number shown is the
    quotient rounded to the nearest hundredth. *)
Theorem formatFileSize_examples :
  formatFileSize 0 = "0 Bytes" /\
  formatFileSize 1536 = "1.5 KB" /\
  formatFileSize 1048576 = "1 MB" /\
  (forall bytes, 0 < bytes ->
     let i := unit_index bytes in
     let n := toFixed2 bytes (1024 ^ i) in
     formatFileSize bytes =
       show_hundredths n +:+ " " +:+ default "undefined" (sizes !! Z.to_nat i) /\
     1024 ^ i <= bytes < 1024 ^ (i + 1) /\
     - 1024 ^ i <= 2 * (100 * bytes - n * 1024 ^ i) < 1024 ^ i).
Proof.
  split; [reflexivity|]. split; [reflexivity|]. split; [reflexivity|].
  intros bytes Hpos i n.
  destruct (unit_index_bounds bytes Hpos) as [Hi Hb].
  split; [|split].
  - unfold formatFileSize.
    destruct (bytes =? 0) eqn:E0; [lia|].
    destruct (bytes <? 0) eqn:E1; [lia|]. reflexivity.
  - exact Hb.
  - apply toFixed2_nearest. apply Z.pow_pos_nonneg; lia.
Qed.

Lemma formatFileSize_examples_witness :
  formatFileSize 1234567 = "1.18 MB" /\
  1024 ^ 2 <= 1234567 < 1024 ^ 3.
Proof.
  destruct formatFileSize_examples as (_ & _ & _ & H).
  destruct (H 1234567 ltac:(lia)) as (a & b & _).
  split; [exact a | exact b].
Defined.

(** ** Listing by category (C7) *)

Lemma uploaded_view_public d : public_view true d (uploaded_view d).
Proof. repeat split. Qed.

Lemma pushed_view_public d : public_view false d (pushed_view d).
Proof. repeat split. discriminate. Qed.

Lemma listed_view_public d : public_view true d (listed_view d).
Proof. repeat split. Qed.

(** The views of a listing are those of the records listed, one each
    and in order. *)
Lemma listed_views found :
  Forall2 (fun d v => public_view true d v /\
                      prop "sizeFormatted" v = Some (JStr (formatFileSize (size d))))
          found (map listed_view found).
Proof.
  induction found as [|d found IH]; constructor; [|exact IH].
  split; [apply listed_view_public|reflexivity].
Qed.

Lemma category_response_lists c found :
  lists_records found (category_response c found) /\
  prop "category" (sent_json (category_response c found)) = Some (JStr c).
Proof.
  split; [|reflexivity]. split_and!; try reflexivity.
  exists (map listed_view found). split; [reflexivity|apply listed_views].
Qed.

Lemma ensureConnection_reachable w :
  reachable w = true ->
  exists w1, ensureConnection w = (Ok tt, w1) /\
             quiet w1 = true /\ readyState w1 = 1 /\
             stores_kept w w1 /\ next_oid w1 = next_oid w /\
             clock w1 = clock w.
Proof.
  unfold reachable. intros H. apply andb_true_iff in H as [Hr Hq].
  destruct (Z.eqb_spec (readyState w) 1) as [H1|H1].
  - exists w. rewrite ensureConnection_ready by done.
    repeat split; auto.
  - simpl in Hr. unfold ensureConnection, bind, gets. simpl.
    destruct (Z.eqb_spec (readyState w) 1) as [|_]; [done|]. simpl.
    unfold connectDB. rewrite Hr.
    replace (cachedConnection w && (readyState w =? 1)) with false
      by (destruct (Z.eqb_spec (readyState w) 1); [done | by rewrite andb_false_r]).
    simpl. destruct (io_quiet w Hq) as (w1 & Hio & Hq1 & Hw1).
    rewrite Hio. eexists. split; [reflexivity|].
    rewrite Hw1. unfold quiet in *. rewrite Hw1 in Hq1. simpl in *.
    repeat split; auto.
Qed.

#[global] Instance newer_first_total : Total newer_first.
Proof. intros a b. unfold newer_first. lia. Qed.

#[global] Instance newer_first_trans : Transitive newer_first.
Proof. intros a b c. unfold newer_first. lia. Qed.

Lemma File_find_quiet q w :
  quiet w = true ->
  exists w', File_find q w =
             (Ok (map select_minus_gridfsId
                      (sort_uploadDate_desc (List.filter (matches q) (File_coll w)))),
              w') /\
             quiet w' = true /\ stores_kept w w' /\ same_process w w'.
Proof.
  intros Hq. destruct (io_quiet w Hq) as (w1 & Hio & Hq1 & Hw1).
  exists w1. unfold File_find. unfold_prims. rewrite Hio.
  destruct (io_kept _ _ _ Hio) as [Hk Hp].
  destruct Hk as (a & b & c). rewrite a. repeat split; auto; apply Hp.
Qed.

Lemma File_find_spec q w r w' :
  File_find q w = (r, w') ->
  stores_kept w w' /\
  match r with
  | Ok found =>
      found = map select_minus_gridfsId
                  (sort_uploadDate_desc (List.filter (matches q) (File_coll w)))
  | Throw _ => True
  end.
Proof.
  unfold File_find. unfold_prims.
  destruct (io w) as [[[]|e] w1] eqn:Hio; intros H; inversion H; subst;
    destruct (io_kept _ _ _ Hio) as [Hk _]; split; auto.
  destruct Hk as (a & _). by rewrite a.
Qed.

(** C7.  The listing filtered by a category finds exactly the stored
    records whose category equals the filter (each as often as it is
    stored), ordered by [uploadDate] descending.  It never changes the
    stores; it answers either 200 or, when the database fails, 500; with
    the database reachable it answers 200.  An answer of 200 has
    [success: true], the category asked for, the number of records
    found as [count], and as [files] one view per record found, in that
    order: the view shows the id, the name, the type, the size and its
    formatted form, the category, the description and the upload date
    of its record.  When no record has the category the list is empty
    and the answer is still the successful one. *)
Theorem getFilesByCategory_exact c w :
  let found := sort_uploadDate_desc
                 (List.filter (fun d => String.eqb (category d) c) (File_coll w)) in
  found ≡ₚ List.filter (fun d => String.eqb (category d) c) (File_coll w) /\
  (forall d, d ∈ found <-> d ∈ File_coll w /\ category d = c) /\
  StronglySorted (fun a b => uploadDate b <= uploadDate a) found /\
  ((forall d, d ∈ File_coll w -> category d <> c) ->
   found = [] /\ returned_views (category_response c found) = []) /\
  (forall resp w',
      getFilesByCategory (category_request c) w = (Ok resp, w') ->
      stores_kept w w' /\
      (resp = category_response c found \/
       exists e, resp = failure_response "Error fetching files" e) /\
      (status resp = 200 \/ status resp = 500) /\
      (status resp = 200 ->
       lists_records found resp /\
       prop "category" (sent_json resp) = Some (JStr c))) /\
  (reachable w = true ->
   exists resp w',
     getFilesByCategory (category_request c) w = (Ok resp, w') /\
     resp = category_response c found /\
     lists_records found resp /\
     prop "category" (sent_json resp) = Some (JStr c)).
Proof.
  intros found.
  assert (Hperm : found ≡ₚ List.filter (fun d => String.eqb (category d) c)
                                       (File_coll w))
    by apply merge_sort_Permutation.
  assert (Hmem : forall d, d ∈ found <-> d ∈ File_coll w /\ category d = c).
  { intros d. rewrite Hperm, !list_elem_of_In, filter_In.
    by rewrite String.eqb_eq. }
  assert (Hans : forall w1, File_coll w1 = File_coll w ->
            res_json 200
              [("success", JBool true); ("category", JStr c);
               ("count",
                JNum (Z.of_nat
                        (length (map select_minus_gridfsId
                                   (sort_uploadDate_desc
                                      (List.filter (matches (Some c)) (File_coll w1)))))));
               ("files",
                JArr (map listed_view
                        (map select_minus_gridfsId
                           (sort_uploadDate_desc
                              (List.filter (matches (Some c)) (File_coll w1))))))]
            = ret (category_response c found)).
  { intros w1 ->. unfold res_json. simpl matches. fold found.
    rewrite length_map, map_map. reflexivity. }
  split; [exact Hperm|]. split; [exact Hmem|].
  split; [apply (StronglySorted_merge_sort newer_first)|]. split; [|split].
  - intros Hnone.
    assert (Hnil : found = []).
    { destruct found as [|d rest] eqn:E; [done|]. exfalso.
      destruct (proj1 (Hmem d) ltac:(left)) as [Hin Hcat].
      by apply (Hnone d). }
    by rewrite Hnil.
  - intros resp w'. unfold getFilesByCategory, try_catch. unfold bind at 1.
    destruct (ensureConnection w) as [[[]|e] w1] eqn:Hc;
      apply ensureConnection_kept in Hc as (Hk1 & _).
    + unfold bind at 1. simpl params_category.
      destruct (File_find (Some c) w1) as [[l|e] w2] eqn:Hfind;
        apply File_find_spec in Hfind as (Hk2 & Hl).
      * subst l. rewrite Hans by apply Hk1.
        intros H; inversion H; subst.
        split_and!; [by eapply stores_kept_trans|by left|by left|].
        intros _. apply category_response_lists.
      * rewrite failure_eq. intros H; inversion H; subst.
        split_and!; [by eapply stores_kept_trans|right; by eexists|by right
                    |discriminate].
    + rewrite failure_eq. intros H; inversion H; subst.
      split_and!; [done|right; by eexists|by right|discriminate].
  - intros Hr.
    destruct (ensureConnection_reachable w Hr) as (w1 & Hc & Hq & _ & Hk & _).
    destruct (File_find_quiet (Some c) w1 Hq) as (w2 & Hfind & _).
    exists (category_response c found), w2.
    split; [|split; [done|apply category_response_lists]].
    unfold getFilesByCategory, try_catch. unfold bind at 1.
    rewrite Hc. unfold bind at 1. simpl params_category. rewrite Hfind.
    by rewrite Hans by apply Hk.
Qed.

Lemma getFilesByCategory_exact_witness :
  exists w',
    getFilesByCategory (category_request "passport") library_world
    = (Ok (category_response "passport" [new_passport; old_passport]), w').
Proof.
  destruct (getFilesByCategory_exact "passport" library_world)
    as (_ & _ & _ & _ & _ & H).
  destruct (H eq_refl) as (resp & w' & Hrun & -> & _).
  exists w'. exact Hrun.
Defined.

(** ** Disallowed content types (C9) *)

Lemma over_limit_false limit data :
  over_limit limit data = false <->
  Z.of_nat (length data) < limit \/ data = [] \/ limit < 0.
Proof.
  unfold over_limit.
  rewrite !andb_false_iff, !Z.leb_gt, Z.ltb_ge.
  destruct data as [|b data];
    [split; intros _; [right; by left|right; simpl; lia]|].
  change (length (b :: data)) with (S (length data)).
  split; [intros [[H|H]|H]|intros [H|[H|H]]]; try done; try lia; auto.
Qed.

(** What multer lets through: the named parts, buffered. *)
Lemma multer_parts_Ok limit field seen left ps fs :
  multer_parts limit field seen left ps = Ok fs ->
  fs = map (fun p => memoryStorage (handed_on limit p)) (named_parts ps) /\
  (ps = [] \/ (seen + length ps <= files_limit)%nat) /\
  (length (named_parts ps) <= left)%nat /\
  Forall (acceptable limit field) (named_parts ps).
Proof.
  revert seen left fs. induction ps as [|p ps IH]; intros seen left fs.
  - simpl. intros [= <-]. split_and!; [done|by left|simpl; lia|constructor].
  - cbn [multer_parts length]. unfold named_parts. cbn [List.filter].
    fold (named_parts ps).
    destruct (Nat.leb_spec files_limit seen) as [Hfull|Hroom]; [discriminate|].
    destruct (named p) eqn:Hn; cbn [negb].
    2:{ intros Hrest. apply IH in Hrest as (-> & H1 & H2 & H3).
        split_and!; [done| |done|done].
        right. destruct H1 as [-> | H1]; simpl; lia. }
    destruct (String.eqb_spec (part_fieldname p) field) as [Hfield|Hfield];
      cbn [negb orb]; [|discriminate].
    destruct (Nat.eqb_spec left 0) as [Hleft|Hleft]; [discriminate|].
    unfold fileFilter. fold (allowed p).
    destruct (allowed p) eqn:Hal; [|discriminate]. cbn [negb].
    destruct (over_limit limit (part_data p)) eqn:Hover; [discriminate|].
    destruct (multer_parts limit field (S seen) (left - 1) ps) as [fs'|e] eqn:Hrest;
      [|discriminate].
    intros [= <-]. apply IH in Hrest as (-> & H1 & H2 & H3).
    split_and!; [done| |simpl; lia|].
    + right. destruct H1 as [-> | H1]; simpl; lia.
    + constructor; [|done]. split_and!; [done|done|].
      by apply over_limit_false.
Qed.

Lemma multer_parts_accepted limit field seen left ps :
  (seen + length ps <= files_limit)%nat ->
  (length (named_parts ps) <= left)%nat ->
  Forall (acceptable limit field) (named_parts ps) ->
  multer_parts limit field seen left ps
  = Ok (map (fun p => memoryStorage (handed_on limit p)) (named_parts ps)).
Proof.
  revert seen left. induction ps as [|p ps IH]; intros seen left Hseen Hleft Hall;
    [done|].
  cbn [multer_parts length] in *. unfold named_parts in *. cbn [List.filter] in *.
  fold (named_parts ps) in *.
  destruct (Nat.leb_spec files_limit seen) as [Hfull|Hroom]; [lia|].
  destruct (named p) eqn:Hn; cbn [negb].
  2:{ apply IH; [lia|done|done]. }
  apply Forall_cons in Hall as [(Hf & Hal & Hsz) Hall]. simpl in Hleft.
  destruct (String.eqb_spec (part_fieldname p) field) as [Hfield|Hfield];
    cbn [negb orb]; [|done].
  destruct (Nat.eqb_spec left 0) as [Hl|Hl]; [lia|].
  unfold fileFilter. fold (allowed p). rewrite Hal. cbn [negb].
  rewrite (proj2 (over_limit_false _ _) Hsz).
  rewrite IH; [done|lia|lia|done].
Qed.






Lemma errorHandler_fails e err :
  prop "success" (sent_json (errorHandler e err)) = Some (JBool false) /\
  (status (errorHandler e err) = 400 \/ status (errorHandler e err) = 503 \/
   status (errorHandler e err) = 500).
Proof.
  unfold errorHandler.
  destruct (bool_decide _); [by auto|].
  destruct (_ && _); [by auto|].
  destruct (_ && _); by auto.
Qed.

Lemma POST_aborted r rq w :
  POST r rq w =
  match multer_parts (fileSize_limit (env w)) (route_field r) 0 (route_max r)
                     (parts rq) with
  | Throw err => (errorHandler (env w) err, w)
  | Ok fs =>
      match r with
      | SingleUpload =>
          respond (uploadFile (mkReq (head fs) None (fields rq) no_params EmptyString)) w
      | MultipleUpload =>
          respond (uploadMultipleFiles
                     (mkReq None (Some fs) (fields rq) no_params EmptyString)) w
      end
  end.
Proof.
  destruct r; simpl;
    unfold POST_upload, POST_upload_multiple, upload_single, upload_array;
    by destruct (multer_parts _ _ _ _ _).
Qed.




(** ** Multiple upload (C4, C10) *)

Section UploadLoop.

(** The form fields are those of the request, the same for every
    payload. *)
Variable body : Body.

Lemma items_run_total files w :
  exists rs w', items_run body w files rs w'.
Proof.
  revert w. induction files as [|file rest IH]; intros w.
  - exists [], w. constructor.
  - destruct (uploadOne body file w) as [r w1] eqn:H1.
    destruct (IH w1) as (rs & w2 & Hrest).
    exists (r :: rs), w2. econstructor; eauto.
Qed.

Lemma items_run_length w files rs w' :
  items_run body w files rs w' -> length rs = length files.
Proof. induction 1; simpl; congruence. Qed.

Lemma upload_loop_items w files rs w' :
  items_run body w files rs w' ->
  forall uploadedFiles errors,
    upload_loop body files uploadedFiles errors w
    = (Ok (uploadedFiles ++ successes rs, errors ++ failures files rs), w').
Proof.
  induction 1 as [w | w file r w1 rest rs w2 Hone Hrest IH]; intros ups errs.
  - simpl. unfold ret. by rewrite !app_nil_r.
  - cbn [upload_loop]. rewrite Hone. destruct r as [v|e].
    + rewrite IH. simpl. by rewrite <- app_assoc.
    + rewrite IH. simpl. by rewrite <- app_assoc.
Qed.

End UploadLoop.

Lemma successes_failures_length files rs :
  length rs = length files ->
  (length (successes rs) + length (failures files rs))%nat = length files.
Proof.
  revert files. induction rs as [|[v|e] rs IH]; intros [|f files] Hl;
    simpl in *; try discriminate; auto;
    specialize (IH files ltac:(lia)); lia.
Qed.

Lemma all_failed files rs :
  length rs = length files ->
  forallb is_throw rs = true ->
  successes rs = [] /\
  map (prop "filename") (failures files rs)
  = map (fun f => Some (JStr (originalname f))) files.
Proof.
  revert files. induction rs as [|[v|e] rs IH]; intros [|f files] Hl Hall;
    simpl in *; try discriminate; auto.
  destruct (IH files) as [Hs Hf]; [lia | done |].
  split; [done|]. by rewrite Hf.
Qed.

Lemma multi_res_json uploadedFiles errors w :
  res_json 201
    [("success", JBool true);
     ("message", JStr (Z_to_string (Z.of_nat (length uploadedFiles))
                       +:+ " file(s) uploaded successfully"));
     ("files", JArr uploadedFiles);
     ("errors", if (0 <? Z.of_nat (length errors)) then JArr errors
                else JUndefined)] w
  = (Ok (multi_response uploadedFiles errors), w).
Proof. destruct errors; reflexivity. Qed.

Lemma uploadMultipleFiles_connected req files w w1 rs w2 :
  req_files req = Some files ->
  files <> [] ->
  ensureConnection w = (Ok tt, w1) ->
  items_run (req_body req) w1 files rs w2 ->
  uploadMultipleFiles req w
  = (Ok (multi_response (successes rs) (failures files rs)), w2).
Proof.
  intros Hfiles Hne Hc Hrun.
  unfold uploadMultipleFiles, try_catch. unfold bind at 1. rewrite Hc, Hfiles.
  destruct files as [|f files]; [done|].
  unfold bind at 1.
  rewrite (upload_loop_items _ _ _ _ _ Hrun [] []).
  cbn [fst snd app]. by rewrite multi_res_json.
Qed.

Lemma uploadOne_store_file body f w :
  uploadOne body f w =
  match store_file (item_options body f) body f w with
  | (Ok d, w') => (Ok (pushed_view d), w')
  | (Throw e, w') => (Throw e, w')
  end.
Proof.
  unfold uploadOne, store_file. fold (item_options body f).
  unfold bind.
  destruct (uploadToGridFS _ _ _ w) as [[g|e] w1]; [|reflexivity].
  rewrite new_File_spec.
  destruct (save _ _) as [[d|e] w2]; reflexivity.
Qed.

Lemma uploadFile_store_file f body w w1 :
  ensureConnection w = (Ok tt, w1) ->
  uploadFile (upload_request f body) w =
  match store_file (upload_options body f) body f w1 with
  | (Ok d, w') => (Ok (created_response d), w')
  | (Throw e, w') => (Ok (failure_response "Error uploading file" e), w')
  end.
Proof.
  intros Hc. unfold uploadFile, try_catch, store_file. simpl.
  unfold bind at 1. rewrite Hc. fold (upload_options body f).
  unfold bind.
  destruct (uploadToGridFS _ _ _ w1) as [[g|e] w2]; [|reflexivity].
  rewrite new_File_spec.
  destruct (save _ _) as [[d|e] w3]; reflexivity.
Qed.

(** What the protocol does to the stores: a failure creates no record
    (the blob may have been written), a success writes the blob and then
    creates the record of the payload that references it. *)
Lemma store_file_spec options body f w r w' :
  store_file options body f w = (r, w') ->
  match r with
  | Throw e =>
      File_coll w' = File_coll w /\
      (events w' = events w /\ uploads w' = uploads w \/
       exists b blob, events w' = events w ++ [BlobWritten b] /\
                      uploads w !! b = None /\
                      uploads w' = <[b := blob]> (uploads w))
  | Ok d =>
      exists b blob,
        File_coll w' = File_coll w ++ [d] /\
        find_doc (_id d) (File_coll w) = None /\
        validate d = [] /\
        originalName d = trim (originalname f) /\
        mimeType d = mimetype f /\
        size d = file_size f /\
        category d = or_default (body_category body) "other" /\
        description d = trim (or_default (body_description body) EmptyString) /\
        gridfsId d = Some b /\
        uploads w !! b = None /\
        uploads w' = <[b := blob]> (uploads w) /\
        gf_chunks blob = split_chunks chunkSizeBytes (buffer f) /\
        events w' = events w ++ [BlobWritten b; RecordCreated (_id d)]
  end.
Proof.
  unfold store_file. unfold bind at 1.
  destruct (uploadToGridFS _ _ _ w) as [[g|e] w1] eqn:Hu;
    apply uploadToGridFS_spec in Hu as (u1 & _ & _ & _ & Hu).
  - destruct Hu as (blob & u2 & u3 & u4 & u5 & _).
    unfold bind at 1. rewrite new_File_spec.
    intros Hs. apply save_spec in Hs as (s1 & _ & _ & _ & _ & Hs).
    simpl in *. destruct r as [d|e].
    + destruct Hs as (-> & s3 & s4 & s5 & s6).
      exists (fileId g), blob. simpl.
      repeat split; try congruence.
      * exact s3.
      * rewrite s6, u4. by rewrite <- app_assoc.
    + destruct Hs as (s2 & s3). split; [congruence|].
      right. exists (fileId g), blob. repeat split; congruence.
  - destruct Hu as (u2 & u3). intros H. inversion H; subst.
    split; [done|]. by left.
Qed.

(** The views pushed by the loop are those of the records it created,
    in order. *)
Lemma items_run_created body w files rs w' :
  items_run body w files rs w' ->
  exists ds, File_coll w' = File_coll w ++ ds /\
             successes rs = map pushed_view ds.
Proof.
  induction 1 as [w | w file r w1 rest rs w2 Hone Hrest (ds & Hc & Hv)].
  - exists []. by rewrite app_nil_r.
  - rewrite uploadOne_store_file in Hone.
    destruct (store_file _ _ _ w) as [[d|e] wc] eqn:Hs;
      inversion Hone; subst; apply store_file_spec in Hs.
    + destruct Hs as (b & blob & Hcoll & _).
      exists (d :: ds). rewrite Hc, Hcoll, <- app_assoc. simpl. by rewrite Hv.
    + destruct Hs as (Hcoll & _). exists ds. by rewrite Hc, Hcoll.
Qed.

(** The runs of [uploadMultipleFiles]. *)
Lemma uploadMultipleFiles_inv req w resp w' :
  uploadMultipleFiles req w = (Ok resp, w') ->
  (exists e, ensureConnection w = (Throw e, w') /\
             resp = failure_response "Error uploading files" e) \/
  (exists w1,
      ensureConnection w = (Ok tt, w1) /\
      ((req_files req = None \/ req_files req = Some []) /\
       resp = no_files_response /\ w' = w1 \/
       exists files rs,
         req_files req = Some files /\ files <> [] /\
         items_run (req_body req) w1 files rs w' /\
         resp = multi_response (successes rs) (failures files rs))).
Proof.
  intros Hrun.
  destruct (ensureConnection w) as [[[]|e] w1] eqn:Hc.
  - right. exists w1. split; [done|].
    destruct (req_files req) as [[|f files]|] eqn:Hfiles.
    + left. revert Hrun. unfold uploadMultipleFiles, try_catch.
      unfold bind at 1. rewrite Hc, Hfiles.
      intros H; inversion H; subst. split; [by right | done].
    + right.
      destruct (items_run_total (req_body req) (f :: files) w1) as (rs & w2 & Hitems).
      rewrite (uploadMultipleFiles_connected _ _ _ _ _ _ Hfiles ltac:(discriminate)
                 Hc Hitems) in Hrun.
      inversion Hrun; subst. exists (f :: files), rs. by repeat split.
    + left. revert Hrun. unfold uploadMultipleFiles, try_catch.
      unfold bind at 1. rewrite Hc, Hfiles.
      intros H; inversion H; subst. split; [by left | done].
  - left. revert Hrun. unfold uploadMultipleFiles, try_catch.
    unfold bind at 1. rewrite Hc, failure_eq.
    intros H; inversion H; subst. by exists e.
Qed.

(** C10.  Once the connection is ensured, a multiple upload that holds
    at least one file answers 201 with [success: true] whatever the
    results of its payloads are; when every payload fails the [files]
    array is empty and the [errors] array lists every payload, in
    order, under its original filename.  An answer of status 400 is
    given to a request without files and to no other. *)
Theorem multi_upload_status req w resp w' :
  uploadMultipleFiles req w = (Ok resp, w') ->
  (status resp = 400 ->
   (req_files req = None \/ req_files req = Some []) /\ resp = no_files_response) /\
  (forall w1,
      ensureConnection w = (Ok tt, w1) ->
      (req_files req = None \/ req_files req = Some [] ->
       resp = no_files_response /\ status resp = 400) /\
      (forall files,
          req_files req = Some files -> files <> [] ->
          exists rs,
            items_run (req_body req) w1 files rs w' /\
            resp = multi_response (successes rs) (failures files rs) /\
            status resp = 201 /\
            prop "success" (sent_json resp) = Some (JBool true) /\
            (forallb is_throw rs = true ->
             prop "files" (sent_json resp) = Some (JArr []) /\
             prop "errors" (sent_json resp) = Some (JArr (failures files rs)) /\
             length (failures files rs) = length files /\
             map (prop "filename") (failures files rs)
             = map (fun f => Some (JStr (originalname f))) files))).
Proof.
  intros Hrun.
  destruct (uploadMultipleFiles_inv _ _ _ _ Hrun)
    as [(e & Hc & ->) | (w1 & Hc & [(Hnone & -> & ->) | (files & rs & Hfiles & Hne & Hitems & ->)])].
  - split; [discriminate|]. intros w1 Hc'. congruence.
  - split; [by split|]. intros w1' Hc'.
    rewrite Hc in Hc'. inversion Hc'; subst w1'. split; [by split|].
    intros files Hfiles Hne. destruct Hnone; congruence.
  - split; [discriminate|]. intros w1' Hc'.
    rewrite Hc in Hc'. inversion Hc'; subst w1'. split.
    + intros [Hn | Hn]; rewrite Hn in Hfiles; [discriminate|].
      inversion Hfiles; by subst.
    + intros files' Hfiles' Hne'. rewrite Hfiles in Hfiles'.
      inversion Hfiles'; subst files'.
      exists rs. split; [done|]. split; [done|]. split; [reflexivity|].
      split; [reflexivity|]. intros Hall.
      destruct (all_failed files rs (items_run_length _ _ _ _ _ Hitems) Hall)
        as [Hs Hf].
      pose proof (successes_failures_length files rs
                    (items_run_length _ _ _ _ _ Hitems)) as Hlen.
      rewrite Hs in *. simpl in Hlen.
      split; [reflexivity|]. split; [|by split].
      destruct (failures files rs) eqn:E; [|reflexivity].
      destruct files; [done | discriminate Hlen].
Qed.

Lemma multi_upload_status_witness :
  let req := files_request [pdf_file; png_file] (mkBody (Some "selfie") None) in
  let r := uploadMultipleFiles req ready_world in
  exists resp rs,
    fst r = Ok resp /\
    status resp = 201 /\
    prop "files" (sent_json resp) = Some (JArr []) /\
    prop "errors" (sent_json resp)
    = Some (JArr (failures [pdf_file; png_file] rs)) /\
    map (prop "filename") (failures [pdf_file; png_file] rs)
    = [Some (JStr "bill.pdf"); Some (JStr "passport.png")].
Proof.
  intros req r.
  destruct (uploadMultipleFiles req ready_world) as [[resp|e] w'] eqn:Hrun;
    [|vm_compute in Hrun; discriminate Hrun].
  destruct (multi_upload_status req ready_world resp w' Hrun) as [_ H].
  destruct (H ready_world eq_refl) as [_ Hsome].
  destruct (Hsome [pdf_file; png_file] eq_refl ltac:(discriminate))
    as (rs & Hitems & Hresp & Hst & _ & Hall).
  assert (Hthrow : forallb is_throw rs = true).
  { inversion Hitems as [|? ? r1 wa ? rs1 ? H1 Hrun1]; subst.
    vm_compute in H1. inversion H1; subst; clear H1.
    inversion Hrun1 as [|? ? r2 wb ? rs2 ? H2 Hrun2]; subst.
    vm_compute in H2. inversion H2; subst; clear H2.
    inversion Hrun2; subst. reflexivity. }
  destruct (Hall Hthrow) as (a & b & _ & c).
  exists resp, rs. subst r. simpl. repeat split; auto.
Defined.

(** ** Round trip of the bytes (C6) *)

Lemma chunks_of_concat fuel n b : List.concat (chunks_of fuel n b) = b.
Proof.
  revert b. induction fuel as [|fuel IH]; intros b.
  - destruct b; simpl; [done|]. by rewrite app_nil_r.
  - destruct b as [|x b]; [done|].
    change (chunks_of (S fuel) n (x :: b))
      with (firstn n (x :: b) :: chunks_of fuel n (skipn n (x :: b))).
    simpl List.concat. rewrite IH. apply firstn_skipn.
Qed.

Lemma split_chunks_concat n b : Buffer_concat (split_chunks n b) = b.
Proof. apply chunks_of_concat. Qed.

Lemma find_doc_app_new id c d :
  find_doc id c = None -> _id d = id -> find_doc id (c ++ [d]) = Some d.
Proof.
  intros Hn Hd. induction c as [|x c IH]; simpl in *.
  - subst id. by rewrite Z.eqb_refl.
  - destruct (_id x =? id); [discriminate|]. by apply IH.
Qed.

Lemma find_doc_app_old id c d x :
  find_doc id c = Some x -> find_doc id (c ++ [d]) = Some x.
Proof.
  intros Hs. induction c as [|y c IH]; simpl in *; [discriminate|].
  destruct (_id y =? id); [done|]. by apply IH.
Qed.

Lemma downloadFromGridFS_spec b w r w' :
  downloadFromGridFS (Some b) w = (r, w') ->
  stores_kept w w' /\
  match r with
  | Ok bytes => exists blob, uploads w !! b = Some blob /\
                             bytes = Buffer_concat (gf_chunks blob)
  | Throw _ => True
  end.
Proof.
  unfold downloadFromGridFS. intros H.
  destruct (getGridFSBucket_spec w) as (bk & Hb & _ & _).
  unfold bind at 1 in H. rewrite Hb in H. destruct bk; simpl in H.
  - unfold_prims. simpl in H.
    destruct (io _) as [[[]|e] w1] eqn:Hio;
      pose proof (io_kept _ _ _ Hio) as [(a1 & a2 & a3) _]; simpl in *.
    + destruct (uploads w1 !! b) eqn:Hl; inversion H; subst; simpl.
      * rewrite <- a2. repeat split; eauto.
      * by repeat split.
    + inversion H; subst. by repeat split.
  - unfold throw in H. inversion H; subst. by repeat split.
Qed.

Lemma downloadFromGridFS_quiet b blob w :
  readyState w = 1 -> quiet w = true -> uploads w !! b = Some blob ->
  exists w', downloadFromGridFS (Some b) w = (Ok (Buffer_concat (gf_chunks blob)), w') /\
             quiet w' = true.
Proof.
  intros Hr Hq Hl. unfold downloadFromGridFS.
  destruct (getGridFSBucket_spec w) as (bk & Hb & Hbk & _).
  rewrite (Hbk Hr) in Hb. unfold bind at 1. rewrite Hb. simpl.
  unfold_prims. simpl.
  assert (Hq' : quiet (set_gridFSBucket true w) = true) by exact Hq.
  destruct (io_quiet _ Hq') as (w1 & Hio & Hq1 & Hw1).
  rewrite Hio. destruct (io_kept _ _ _ Hio) as [(_ & a & _) _].
  simpl in a. rewrite a, Hl. eauto.
Qed.

Lemma findById_quiet id w :
  quiet w = true ->
  exists w', findById (ValidId id) w = (Ok (find_doc id (File_coll w)), w') /\
             quiet w' = true /\ stores_kept w w' /\ same_process w w'.
Proof.
  intros Hq. destruct (io_quiet w Hq) as (w1 & Hio & Hq1 & Hw1).
  exists w1. unfold findById, cast_ObjectId. unfold_prims. rewrite Hio.
  destruct (io_kept _ _ _ Hio) as [Hk Hp].
  destruct Hk as (a & b & c). rewrite a. repeat split; auto; apply Hp.
Qed.

Lemma downloadFile_retrieve : downloadFile = retrieve "attachment" "Error downloading file".
Proof. reflexivity. Qed.

Lemma viewFile_retrieve : viewFile = retrieve "inline" "Error viewing file".
Proof. reflexivity. Qed.

(** Whenever a retrieval of a held file answers 200, it sends the held
    bytes. *)
Lemma retrieve_held disposition label id bytes w resp w' :
  holds_file id bytes w ->
  retrieve disposition label (id_request (ValidId id)) w = (Ok resp, w') ->
  status resp = 200 ->
  payload resp = SentBuffer bytes /\ stores_kept w w'.
Proof.
  intros (d & b & blob & Hd & Hg & Hl & Hbytes).
  unfold retrieve, try_catch. simpl. unfold bind at 1.
  destruct (ensureConnection w) as [[[]|e] w1] eqn:Hc.
  - apply ensureConnection_kept in Hc as (Hk1 & _).
    unfold bind at 1.
    destruct (findById (ValidId id) w1) as [[o|e] w2] eqn:Hfind.
    + apply findById_spec in Hfind as (Hk2 & _ & Ho). subst o.
      destruct Hk1 as (a1 & a2 & a3). rewrite a1, Hd, Hg.
      unfold bind at 1.
      destruct (downloadFromGridFS (Some b) w2) as [[bytes'|e] w3] eqn:Hdl.
      * apply downloadFromGridFS_spec in Hdl as (Hk3 & blob' & Hl' & ->).
        destruct Hk2 as (b1 & b2 & b3). rewrite b2, a2, Hl in Hl'.
        inversion Hl'; subst blob'.
        unfold res_send, ret. intros H _. inversion H; subst. simpl.
        split; [done|]. destruct Hk3 as (c1 & c2 & c3).
        repeat split; congruence.
      * rewrite failure_eq. intros H Hst. inversion H; subst. discriminate.
    + rewrite failure_eq. intros H Hst. inversion H; subst. discriminate.
  - rewrite failure_eq. intros H Hst. inversion H; subst. discriminate.
Qed.

(** With a ready connection and no failing call, the retrieval of a
    held file does answer 200. *)
Lemma retrieve_held_quiet disposition label id bytes w :
  holds_file id bytes w -> readyState w = 1 -> quiet w = true ->
  exists d w',
    find_doc id (File_coll w) = Some d /\
    retrieve disposition label (id_request (ValidId id)) w
    = (Ok (sent_response disposition d bytes), w').
Proof.
  intros (d & b & blob & Hd & Hg & Hl & Hbytes) Hr Hq.
  unfold retrieve, try_catch. simpl. unfold bind at 1.
  rewrite (ensureConnection_ready w Hr).
  destruct (findById_quiet id w Hq) as (w1 & Hfind & Hq1 & (a1 & a2 & a3) & (_ & p2 & _)).
  unfold bind at 1. rewrite Hfind, Hd, Hg.
  destruct (downloadFromGridFS_quiet b blob w1) as (w2 & Hdl & _);
    [congruence | done | congruence |].
  unfold bind at 1. rewrite Hdl, Hbytes.
  exists d, w2. split; [done|]. reflexivity.
Qed.

Lemma holds_round_trips id bytes w : holds_file id bytes w -> round_trips id bytes w.
Proof.
  intros Hheld. split; [|split].
  - intros resp w2 Hdl H200. rewrite downloadFile_retrieve in Hdl.
    by destruct (retrieve_held _ _ _ _ _ _ _ Hheld Hdl H200).
  - intros resp w2 Hdl H200. rewrite viewFile_retrieve in Hdl.
    by destruct (retrieve_held _ _ _ _ _ _ _ Hheld Hdl H200).
  - intros Hready Hq. split.
    + rewrite downloadFile_retrieve.
      destruct (retrieve_held_quiet "attachment" "Error downloading file"
                  _ _ _ Hheld Hready Hq) as (d & w2 & _ & Hrun).
      by exists (sent_response "attachment" d bytes), w2.
    + rewrite viewFile_retrieve.
      destruct (retrieve_held_quiet "inline" "Error viewing file"
                  _ _ _ Hheld Hready Hq) as (d & w2 & _ & Hrun).
      by exists (sent_response "inline" d bytes), w2.
Qed.

(** A successful run of the protocol leaves the payload held under the
    id of the record it created. *)
Lemma store_file_holds options body f w d w' :
  store_file options body f w = (Ok d, w') ->
  holds_file (_id d) (buffer f) w'.
Proof.
  intros Hs. apply store_file_spec in Hs
    as (b & blob & Hc & Hnew & _ & _ & _ & _ & _ & _ & Hg & _ & Hu & Hch & _).
  exists d, b, blob. repeat split; auto.
  - rewrite Hc. by apply find_doc_app_new.
  - rewrite Hu. apply lookup_insert_eq.
  - rewrite Hch. apply split_chunks_concat.
Qed.

(** A run of the protocol, whatever its result, does not disturb a file
    the world holds: blobs are written under unused ids and records are
    appended. *)
Lemma store_file_keeps_held id bytes options body f w r w' :
  holds_file id bytes w ->
  store_file options body f w = (r, w') ->
  holds_file id bytes w'.
Proof.
  intros (d & b & blob & Hd & Hg & Hl & Hbytes) Hs.
  apply store_file_spec in Hs. destruct r as [d'|e].
  - destruct Hs as (b' & blob' & Hc & _ & _ & _ & _ & _ & _ & _ & _ & Hfresh & Hu & _).
    exists d, b, blob. rewrite Hc, Hu. repeat split; auto.
    + by apply find_doc_app_old.
    + rewrite lookup_insert_ne; [done | congruence].
  - destruct Hs as (Hc & [[_ Hu] | (b' & blob' & _ & Hfresh & Hu)]);
      exists d, b, blob; rewrite Hc, Hu; repeat split; auto.
    rewrite lookup_insert_ne; [done | congruence].
Qed.

Lemma store_file_readyState options body f w r w' :
  store_file options body f w = (r, w') -> readyState w' = readyState w.
Proof.
  unfold store_file. unfold bind at 1.
  destruct (uploadToGridFS _ _ _ w) as [[g|e] w1] eqn:Hu;
    apply uploadToGridFS_spec in Hu as (_ & _ & _ & Hr1 & _).
  - unfold bind at 1. rewrite new_File_spec. intros Hs.
    apply save_spec in Hs as (_ & _ & _ & Hr2 & _). simpl in Hr2. congruence.
  - intros H; inversion H; by subst.
Qed.

Lemma items_run_keeps_held id bytes body w files rs w' :
  items_run body w files rs w' ->
  holds_file id bytes w -> holds_file id bytes w'.
Proof.
  induction 1 as [w | w file r w1 rest rs w2 Hone Hrest IH]; [done|].
  intros Hheld. apply IH.
  rewrite uploadOne_store_file in Hone.
  destruct (store_file _ _ _ w) as [[d|e] wc] eqn:Hs; inversion Hone; subst;
    eapply store_file_keeps_held; eauto.
Qed.

Lemma items_run_readyState body w files rs w' :
  items_run body w files rs w' -> readyState w' = readyState w.
Proof.
  induction 1 as [w | w file r w1 rest rs w2 Hone Hrest IH]; [done|].
  rewrite IH. rewrite uploadOne_store_file in Hone.
  destruct (store_file _ _ _ w) as [[d|e] wc] eqn:Hs; inversion Hone; subst;
    eapply store_file_readyState; eauto.
Qed.

(** Every payload of the loop that succeeded is held, at the end of the
    loop, under the id its view shows. *)
Lemma items_run_holds body w files rs w' :
  items_run body w files rs w' ->
  forall i f v,
    files !! i = Some f -> rs !! i = Some (Ok v) ->
    exists d, v = pushed_view d /\ holds_file (_id d) (buffer f) w'.
Proof.
  induction 1 as [w | w file r w1 rest rs w2 Hone Hrest IH];
    intros i f v Hf Hv; [by destruct i|].
  destruct i as [|i]; simpl in Hf, Hv.
  - inversion Hf; inversion Hv; subst.
    rewrite uploadOne_store_file in Hone.
    destruct (store_file _ _ _ w) as [[d|e] wc] eqn:Hs; inversion Hone; subst.
    exists d. split; [done|].
    eapply items_run_keeps_held; [exact Hrest|].
    by eapply store_file_holds.
  - by apply (IH i).
Qed.

(** The outcomes of the loop, payload by payload: the record created and
    its view, or the error and its entry. *)
Lemma items_run_batch body w files rs w' :
  items_run body w files rs w' ->
  exists os,
    File_coll w' = File_coll w ++ records_of os /\
    batch_outcome body w' files os (successes rs) (failures files rs) /\
    Forall2 (fun r o => is_throw r = is_throw o /\
                        forall e, r = Throw e -> o = Throw e) rs os.
Proof.
  induction 1 as [w | w file r w1 rest rs w2 Hone Hrest (os & Hc & Hb & Hro)].
  - exists []. rewrite app_nil_r. split_and!; [done|constructor|constructor].
  - rewrite uploadOne_store_file in Hone.
    destruct (store_file _ _ _ w) as [[d|e] wc] eqn:Hs;
      inversion Hone; subst.
    + pose proof (store_file_holds _ _ _ _ _ _ Hs) as Hheld.
      apply store_file_spec in Hs
        as (b & blob & Hcoll & _ & Hval & Hn & Hm & Hsz & Hcat & Hdesc & _).
      exists (Ok d :: os). split_and!.
      * rewrite Hc, Hcoll, <- app_assoc. reflexivity.
      * cbn [successes failures]. constructor; [| |apply pushed_view_public|done].
        -- by split_and!.
        -- by eapply items_run_keeps_held.
      * constructor; [|done]. split; [done|discriminate].
    + apply store_file_spec in Hs as (Hcoll & _).
      exists (Throw e :: os). split_and!.
      * rewrite Hc, Hcoll. reflexivity.
      * cbn [successes failures]. by constructor.
      * constructor; [|done]. split; [done|]. by intros ? [= <-].
Qed.

Lemma multi_response_answer views errs : batch_answer views errs (multi_response views errs).
Proof. unfold batch_answer. destruct errs; by split_and!. Qed.

Lemma batch_outcome_length body w' files os views errs :
  batch_outcome body w' files os views errs ->
  length os = length files /\
  length views = length (records_of os) /\
  (length views + length errs)%nat = length files.
Proof. induction 1; simpl; lia. Qed.

(** C4.  A multiple upload of N >= 1 payloads, once the connection is
    ensured, runs the upload protocol ([store_file]: blob write, then
    record creation) once per payload, in request order, each in the
    world the previous payload left and whatever the previous results
    were.  The answer is 201 with [success: true]; every payload has
    one outcome.  For a payload that succeeded the request appended a
    record with the trimmed file name, the type and the size of the
    payload and the category of the form; at the end of the request the
    record references a blob that holds the bytes of the payload; and
    [files] holds, in the order of the payloads, the view of that
    record: its id, name, type, size, category and upload date.  For a
    payload that failed [errors] holds, in order, an entry with the
    original file name and the message of the error, the [errors]
    property being left out when none failed. *)
Theorem multi_upload_per_payload req files w w1 :
  req_files req = Some files ->
  files <> [] ->
  ensureConnection w = (Ok tt, w1) ->
  exists rs w2 resp os views errs,
    items_run (req_body req) w1 files rs w2 /\
    uploadMultipleFiles req w = (Ok resp, w2) /\
    resp = multi_response (successes rs) (failures files rs) /\
    batch_answer views errs resp /\
    File_coll w2 = File_coll w1 ++ records_of os /\
    batch_outcome (req_body req) w2 files os views errs /\
    length os = length files /\
    (length views + length errs)%nat = length files /\
    (forall file wa r wb,
        uploadOne (req_body req) file wa = (r, wb) ->
        match r with
        | Ok v =>
            exists d, store_file (item_options (req_body req) file) (req_body req)
                                 file wa = (Ok d, wb) /\
                      public_view false d v /\
                      File_coll wb = File_coll wa ++ [d]
        | Throw e =>
            store_file (item_options (req_body req) file) (req_body req) file wa
            = (Throw e, wb) /\
            File_coll wb = File_coll wa
        end) /\
    (forall file wa wb,
        ensureConnection wa = (Ok tt, wb) ->
        uploadFile (upload_request file (req_body req)) wa =
        match store_file (upload_options (req_body req) file) (req_body req)
                         file wb with
        | (Ok d, wc) => (Ok (created_response d), wc)
        | (Throw e, wc) => (Ok (failure_response "Error uploading file" e), wc)
        end).
Proof.
  intros Hfiles Hne Hc.
  destruct (items_run_total (req_body req) files w1) as (rs & w2 & Hrun).
  destruct (items_run_batch _ _ _ _ _ Hrun) as (os & Hcoll & Hbatch & _).
  destruct (batch_outcome_length _ _ _ _ _ _ Hbatch) as (Hlen & _ & Hsum).
  exists rs, w2, (multi_response (successes rs) (failures files rs)), os,
    (successes rs), (failures files rs).
  split_and!; try done.
  - by apply (uploadMultipleFiles_connected req files w w1).
  - apply multi_response_answer.
  - intros file wa r wb Hone. rewrite uploadOne_store_file in Hone.
    destruct (store_file _ _ _ wa) as [[d|e] wc] eqn:Hs;
      inversion Hone; subst; pose proof (store_file_spec _ _ _ _ _ _ Hs) as Hspec.
    + destruct Hspec as (b & blob & Hcoll' & _). exists d.
      split_and!; [done|apply pushed_view_public|done].
    + destruct Hspec as (Hcoll' & _). eauto.
  - intros file wa wb Hwa. by apply uploadFile_store_file.
Qed.

Lemma multi_upload_per_payload_witness :
  exists resp w2,
    uploadMultipleFiles
      (files_request [pdf_file; nameless_file; png_file] (mkBody None None))
      ready_world
    = (Ok resp, w2) /\
    map originalName (File_coll w2) = ["bill.pdf"; "passport.png"] /\
    map (prop "originalName") (returned_views resp)
    = [Some (JStr "bill.pdf"); Some (JStr "passport.png")] /\
    prop "errors" (sent_json resp)
    = Some (JArr [JObj [("filename", JStr "   ");
                        ("error", JStr "File validation failed: originalName: File name is required")]]).
Proof.
  destruct (multi_upload_per_payload
              (files_request [pdf_file; nameless_file; png_file] (mkBody None None))
              [pdf_file; nameless_file; png_file] ready_world ready_world
              eq_refl ltac:(discriminate) eq_refl)
    as (rs & w2 & resp & os & views & errs & Hrun & Hresp & -> & _).
  inversion Hrun as [|? ? r1 wa ? rs1 ? H1 Hrun1]; subst.
  vm_compute in H1. inversion H1; subst; clear H1.
  inversion Hrun1 as [|? ? r2 wb ? rs2 ? H2 Hrun2]; subst.
  vm_compute in H2. inversion H2; subst; clear H2.
  inversion Hrun2 as [|? ? r3 wc ? rs3 ? H3 Hrun3]; subst.
  vm_compute in H3. inversion H3; subst; clear H3.
  inversion Hrun3; subst.
  eexists _, _. split; [exact Hresp|]. split_and!; reflexivity.
Defined.

(** C6.  After a successful upload the bytes uploaded round-trip: a
    download or an inline view of the id shown in the answer sends,
    whenever it answers 200, exactly the bytes of the payload, and it
    does answer 200 when no driver call is made to fail.  This holds
    for the file of a single upload answered 201 and, at the end of a
    multiple upload, for each payload that succeeded. *)
Theorem download_returns_uploaded_bytes req w resp w' :
  (forall f,
      req_file req = Some f ->
      uploadFile req w = (Ok resp, w') ->
      status resp = 201 ->
      exists d,
        resp = created_response d /\
        readyState w' = 1 /\
        holds_file (_id d) (buffer f) w' /\
        round_trips (_id d) (buffer f) w') /\
  (forall files,
      req_files req = Some files ->
      uploadMultipleFiles req w = (Ok resp, w') ->
      status resp = 201 ->
      exists w1 rs,
        ensureConnection w = (Ok tt, w1) /\
        items_run (req_body req) w1 files rs w' /\
        resp = multi_response (successes rs) (failures files rs) /\
        readyState w' = 1 /\
        forall i f v,
          files !! i = Some f -> rs !! i = Some (Ok v) ->
          exists d, v = pushed_view d /\
                    holds_file (_id d) (buffer f) w' /\
                    round_trips (_id d) (buffer f) w').
Proof.
  split.
  - intros f Hf Hrun Hst.
    destruct (uploadFile_run _ _ _ _ _ Hf Hrun) as (resp' & Heq & Hr).
    inversion Heq; subst resp'; clear Heq.
    destruct (upload_run_stores _ _ _ _ _ Hr)
      as [(H500 & _) | (b & blob & d & Hresp & Hc & Hnew & _ & _ & Hg & _ & Hu & Hch
                        & _ & Hready & _)];
      [rewrite H500 in Hst; discriminate|].
    assert (Hheld : holds_file (_id d) (buffer f) w').
    { exists d, b, blob. repeat split; auto.
      - rewrite Hc. by apply find_doc_app_new.
      - rewrite Hu. apply lookup_insert_eq.
      - rewrite Hch. apply split_chunks_concat. }
    exists d. repeat split; auto; by apply holds_round_trips.
  - intros files Hfiles Hrun Hst.
    destruct (uploadMultipleFiles_inv _ _ _ _ Hrun)
      as [(e & _ & ->)
         | (w1 & Hc & [(_ & -> & _) | (files' & rs & Hfiles' & _ & Hitems & ->)])];
      try discriminate Hst.
    rewrite Hfiles in Hfiles'. inversion Hfiles'; subst files'.
    pose proof (ensureConnection_kept _ _ _ Hc) as (_ & _ & _ & _ & _ & Hready).
    exists w1, rs. split; [done|]. split; [done|]. split; [done|].
    split; [rewrite (items_run_readyState _ _ _ _ _ Hitems); by apply Hready|].
    intros i f v Hf Hv.
    destruct (items_run_holds _ _ _ _ _ Hitems i f v Hf Hv) as (d & -> & Hheld).
    exists d. repeat split; auto; by apply holds_round_trips.
Qed.

Lemma download_returns_uploaded_bytes_witness :
  let w' := snd (uploadFile (upload_request png_file (mkBody None None)) cold_world) in
  let w'' := snd (uploadMultipleFiles
                    (files_request [pdf_file; nameless_file; png_file]
                                   (mkBody None None)) ready_world) in
  (exists d resp w2,
      downloadFile (id_request (ValidId (_id d))) w' = (Ok resp, w2) /\
      status resp = 200 /\
      payload resp = SentBuffer [x89; x50; x4e; x47]) /\
  (exists d resp w2,
      prop "originalName" (pushed_view d) = Some (JStr "passport.png") /\
      viewFile (id_request (ValidId (_id d))) w'' = (Ok resp, w2) /\
      status resp = 200 /\
      payload resp = SentBuffer [x89; x50; x4e; x47]).
Proof.
  split.
  - destruct (download_returns_uploaded_bytes
                (upload_request png_file (mkBody None None)) cold_world
                (created_response
                   (mkFileDoc 2 "passport.png" "image/png" 4 "other" EmptyString
                              (Some 1) true 1000 (Some 1000) (Some 1000)))
                (snd (uploadFile (upload_request png_file (mkBody None None))
                                 cold_world))) as [H _].
    destruct (H png_file eq_refl eq_refl eq_refl)
      as (d & _ & Hready & _ & _ & _ & Hq).
    destruct (Hq Hready eq_refl) as [(resp & w2 & Hdl) _].
    exists d, resp, w2. exact Hdl.
  - set (req := files_request [pdf_file; nameless_file; png_file] (mkBody None None)).
    destruct (uploadMultipleFiles req ready_world) as [[resp|e] w''] eqn:Hrun;
      [|vm_compute in Hrun; discriminate Hrun].
    destruct (download_returns_uploaded_bytes req ready_world resp w'') as [_ H].
    assert (Hst : status resp = 201)
      by (vm_compute in Hrun; inversion Hrun; reflexivity).
    destruct (H [pdf_file; nameless_file; png_file] eq_refl Hrun Hst)
      as (w1 & rs & Hc & Hitems & _ & Hready & Hall).
    inversion Hc; subst w1.
    inversion Hitems as [|? ? r1 wa ? rs1 ? H1 Hrun1]; subst.
    inversion Hrun1 as [|? ? r2 wb ? rs2 ? H2 Hrun2]; subst.
    inversion Hrun2 as [|? ? r3 wc ? rs3 ? H3 Hrun3]; subst.
    vm_compute in H1. inversion H1; subst; clear H1.
    vm_compute in H2. inversion H2; subst; clear H2.
    vm_compute in H3. inversion H3; subst r3; clear H3.
    destruct (Hall 2%nat png_file _ eq_refl eq_refl) as (d & Hv & _ & _ & _ & Hq).
    destruct (Hq Hready) as [_ (resp2 & w2 & Hview)].
    + simpl. inversion Hrun3; subst. vm_compute in Hrun. by inversion Hrun.
    + exists d, resp2, w2. split; [|exact Hview]. by rewrite <- Hv.
Defined.

(** ** The views of a record (C5) *)


Lemma found_in_collection q c d :
  d ∈ sort_uploadDate_desc (List.filter (matches q) c) ->
  d ∈ c /\ matches q d = true.
Proof.
  unfold sort_uploadDate_desc. rewrite merge_sort_Permutation.
  rewrite !list_elem_of_In, filter_In. tauto.
Qed.


Lemma find_doc_elem id c d : find_doc id c = Some d -> d ∈ c.
Proof.
  induction c as [|x c IH]; simpl; [discriminate|].
  destruct (_id x =? id).
  - intros H; inversion H; subst. by left.
  - intros H. right. by apply IH.
Qed.

Lemma findById_found p w d w' :
  findById p w = (Ok (Some d), w') -> d ∈ File_coll w.
Proof.
  destruct p as [id|s].
  - intros H. apply findById_spec in H as (_ & _ & Ho).
    symmetry in Ho. by apply find_doc_elem in Ho.
  - unfold findById, cast_ObjectId. unfold_prims. discriminate.
Qed.

Lemma listing_views q label (extra : list FileDoc -> list (string * jsval)) w resp w' :
  (forall files, assoc "file" (extra files) = None /\
                 assoc "files" (extra files) = Some (JArr (map listed_view files)) /\
                 Forall (fun p => is_undefined (snd p) = false) (extra files)) ->
  try_catch (ensureConnection ;;;
             let* files := File_find q in
             res_json 200 (extra files)) (failure label) w = (Ok resp, w') ->
  forall v, v ∈ returned_views resp ->
            exists d, d ∈ File_coll w /\ matches q d = true /\ v = listed_view d.
Proof.
  intros Hextra. unfold try_catch. unfold bind at 1.
  destruct (ensureConnection w) as [[[]|e] w1] eqn:Hc.
  - apply ensureConnection_kept in Hc as ((a & _) & _).
    unfold bind at 1.
    destruct (File_find q w1) as [[found|e] w2] eqn:Hfind.
    + apply File_find_spec in Hfind as (_ & ->). rewrite a.
      unfold res_json, ret. intros H; inversion H; subst; clear H.
      intros v. unfold returned_views, sent_json. simpl.
      set (out := map select_minus_gridfsId _).
      destruct (Hextra out) as (Hfile & Hfiles & Hdef).
      assert (Hdrop : drop_undefined (extra out) = extra out).
      { unfold drop_undefined. apply forallb_filter_id.
        apply forallb_forall. intros x Hx.
        rewrite Forall_forall in Hdef. rewrite <- list_elem_of_In in Hx.
        by rewrite (Hdef x Hx). }
      rewrite Hdrop, Hfile, Hfiles. unfold out.
      rewrite map_map. intros Hin.
      apply list_elem_of_fmap in Hin as (d & -> & Hd).
      apply found_in_collection in Hd as [Hd Hm].
      exists d. by repeat split.
    + rewrite failure_eq. intros H; inversion H; subst. intros v Hv.
      by apply elem_of_nil in Hv.
  - rewrite failure_eq. intros H; inversion H; subst. intros v Hv.
    by apply elem_of_nil in Hv.
Qed.

(** The view of a stored passport that the single upload returns lacks
    paths of the record other than the blob id ([isGridFS] and the time
    stamps), and the view pushed by the multiple upload lacks
    [description] as well. *)
Lemma views_leave_out_more_than_blob_id :
  let r := uploadFile (upload_request png_file (mkBody None (Some "front page")))
                      cold_world in
  exists d v,
    File_coll (snd r) = [d] /\
    fst r = Ok (created_response d) /\
    returned_views (created_response d) = [v] /\
    isGridFS d = true /\ has_key "isGridFS" v = false /\
    ~ exposes_all_but_blob_id v /\
    description d = "front page" /\
    has_key "description" (pushed_view d) = false.
Proof.
  eexists. eexists. vm_compute.
  split; [reflexivity|]. split; [reflexivity|]. split; [reflexivity|].
  split; [reflexivity|]. split; [reflexivity|]. split; [|by split].
  intros (_ & _ & H). specialize (H "isGridFS").
  assert (Hin : "isGridFS" ∈ schema_paths) by (unfold schema_paths; set_solver).
  specialize (H Hin ltac:(discriminate)). discriminate H.
Qed.

Lemma uploadFile_views req w resp w' :
  uploadFile req w = (Ok resp, w') ->
  forall v, v ∈ returned_views resp ->
            exists d, d ∈ File_coll w' /\ v = uploaded_view d.
Proof.
  intros Hrun v Hv.
  destruct (req_file req) as [f|] eqn:Hf.
  - destruct (uploadFile_run _ _ _ _ _ Hf Hrun) as (resp' & Heq & Hr).
    inversion Heq; subst resp'; clear Heq.
    destruct Hr as [e w1 Hc | w1 e w2 Hc Hu | w1 g w2 e w3 Hc Hu Hs
                   | w1 g w2 d w3 Hc Hu Hs];
      try (by apply elem_of_nil in Hv).
    apply save_spec in Hs as (_ & _ & _ & _ & _ & _ & _ & _ & Hcoll & _).
    apply list_elem_of_singleton in Hv as ->.
    exists d. split; [|done]. rewrite Hcoll. set_solver.
  - revert Hrun. unfold uploadFile, try_catch. rewrite Hf.
    unfold bind at 1.
    destruct (ensureConnection w) as [[[]|e] w1]; [|rewrite failure_eq];
      intros H; inversion H; subst; by apply elem_of_nil in Hv.
Qed.

Lemma returned_views_multi uploadedFiles errors :
  returned_views (multi_response uploadedFiles errors) = uploadedFiles.
Proof. destruct errors; reflexivity. Qed.

Lemma uploadMultipleFiles_views req w resp w' :
  uploadMultipleFiles req w = (Ok resp, w') ->
  forall v, v ∈ returned_views resp ->
            exists d, d ∈ File_coll w' /\ v = pushed_view d.
Proof.
  intros Hrun v Hv.
  destruct (uploadMultipleFiles_inv _ _ _ _ Hrun)
    as [(e & _ & ->) | (w1 & _ & [(_ & -> & _) | (files & rs & _ & _ & Hitems & ->)])];
    try (by apply elem_of_nil in Hv).
  destruct (items_run_created _ _ _ _ _ Hitems) as (ds & Hcoll & Hviews).
  rewrite returned_views_multi, Hviews in Hv. apply list_elem_of_fmap in Hv as (d & -> & Hd).
  exists d. split; [|done]. rewrite Hcoll. set_solver.
Qed.

Lemma getFileById_views req w resp w' :
  getFileById req w = (Ok resp, w') ->
  forall v, v ∈ returned_views resp ->
            exists d, d ∈ File_coll w /\ v = listed_view d.
Proof.
  unfold getFileById, try_catch. unfold bind at 1.
  destruct (ensureConnection w) as [[[]|e] w1] eqn:Hc.
  - apply ensureConnection_kept in Hc as ((a & _) & _).
    unfold bind at 1. unfold findById_select. unfold bind at 1.
    destruct (findById (params_id req) w1) as [[[d|]|e] w2] eqn:Hfind.
    + apply findById_found in Hfind. rewrite a in Hfind.
      unfold ret, res_json. simpl. intros H; inversion H; subst.
      intros v Hv. apply list_elem_of_singleton in Hv as ->.
      exists d. by split.
    + intros H; inversion H; subst. intros v Hv. by apply elem_of_nil in Hv.
    + rewrite failure_eq. intros H; inversion H; subst.
      intros v Hv. by apply elem_of_nil in Hv.
  - rewrite failure_eq. intros H; inversion H; subst.
    intros v Hv. by apply elem_of_nil in Hv.
Qed.

(** C5 (amended).  Every record view returned by the single upload, the
    multiple upload, the listing, the listing by category and the fetch
    by id is the view of a record of the collection; it never has a
    [gridfsId] or [blobId] property; it carries the record's [id],
    [originalName], [mimeType], [size], [category] and [uploadDate],
    and, in the single upload and the three read operations, its
    [description]; [isGridFS] and the time stamps [createdAt] and
    [updatedAt] are in no view. *)
Theorem views_hide_blob_id req w resp w' v :
  v ∈ returned_views resp ->
  (uploadFile req w = (Ok resp, w') ->
   exists d, d ∈ File_coll w' /\ public_view true d v) /\
  (uploadMultipleFiles req w = (Ok resp, w') ->
   exists d, d ∈ File_coll w' /\ public_view false d v) /\
  (getAllFiles req w = (Ok resp, w') ->
   exists d, d ∈ File_coll w /\ public_view true d v) /\
  (getFilesByCategory req w = (Ok resp, w') ->
   exists d, d ∈ File_coll w /\ category d = params_category req /\
             public_view true d v) /\
  (getFileById req w = (Ok resp, w') ->
   exists d, d ∈ File_coll w /\ public_view true d v).
Proof.
  intros Hv. split; [|split; [|split; [|split]]]; intros Hrun.
  - destruct (uploadFile_views _ _ _ _ Hrun v Hv) as (d & Hd & ->).
    exists d. split; [done|]. apply uploaded_view_public.
  - destruct (uploadMultipleFiles_views _ _ _ _ Hrun v Hv) as (d & Hd & ->).
    exists d. split; [done|]. apply pushed_view_public.
  - destruct (listing_views None "Error fetching files"
                (fun files => [("success", JBool true);
                               ("count", JNum (Z.of_nat (length files)));
                               ("files", JArr (map listed_view files))])
                w resp w') with (v := v) as (d & Hd & _ & ->); auto.
    + intros files. repeat split. repeat constructor.
    + exists d. split; [done|]. apply listed_view_public.
  - destruct (listing_views (Some (params_category req)) "Error fetching files"
                (fun files => [("success", JBool true);
                               ("category", JStr (params_category req));
                               ("count", JNum (Z.of_nat (length files)));
                               ("files", JArr (map listed_view files))])
                w resp w') with (v := v) as (d & Hd & Hm & ->); auto.
    + intros files. repeat split. repeat constructor.
    + exists d. split; [done|]. split; [|apply listed_view_public].
      simpl in Hm. by apply String.eqb_eq.
  - destruct (getFileById_views _ _ _ _ Hrun v Hv) as (d & Hd & ->).
    exists d. split; [done|]. apply listed_view_public.
Qed.

Lemma views_hide_blob_id_witness :
  exists d, d ∈ File_coll library_world /\
            public_view true d (listed_view power_bill).
Proof.
  assert (Hv : listed_view power_bill ∈ returned_views library_listing)
    by (vm_compute; left).
  destruct (views_hide_blob_id (id_request no_params) library_world
              library_listing
              (snd (getAllFiles (id_request no_params) library_world))
              (listed_view power_bill) Hv) as (_ & _ & H & _).
  exact (H eq_refl).
Defined.

(** * The rest of the server *)

(** ** config/db.js: the connection *)

Lemma handler_shape h req :
  exists body,
    handler h req = try_catch (ensureConnection ;;; body) (failure (handler_label h)).
Proof. destruct h; eexists; reflexivity. Qed.

Lemma ensureConnection_faults w r w' :
  ensureConnection w = (r, w') ->
  faults w' = faults w \/ faults w' = tail (faults w).
Proof.
  unfold ensureConnection, bind, gets. simpl.
  destruct (readyState w =? 1); simpl.
  - intros H; inversion H; subst. by left.
  - unfold connectDB.
    destruct (cachedConnection w && (readyState w =? 1)).
    + intros H; inversion H; subst. by left.
    + destruct (negb (truthy (MONGODB_URI (env w)))).
      * intros H; inversion H; subst. by left.
      * unfold io. destruct (faults w) as [|[e|] rest] eqn:Hf;
          intros H; inversion H; subst; simpl; auto.
Qed.

(** X1.  The connection is cached.  Starting with the connection down or
    up (no connect in flight, no disconnect under way), once
    [ensureConnection] has succeeded the connection is ready and
    ensuring it again is a no-op that makes no driver call; the first
    call made at most one. *)
Theorem connection_is_reused w w1 :
  settled w ->
  ensureConnection w = (Ok tt, w1) ->
  readyState w1 = 1 /\
  ensureConnection w1 = (Ok tt, w1) /\
  (ensureConnection ;;; ensureConnection) w = (Ok tt, w1) /\
  (faults w1 = faults w \/ faults w1 = tail (faults w)) /\
  stores_kept w w1.
Proof.
  intros _ Hc.
  pose proof (ensureConnection_kept _ _ _ Hc) as (Hk & _ & _ & _ & _ & Hr).
  specialize (Hr eq_refl).
  split; [done|]. split; [by apply ensureConnection_ready|].
  split; [unfold bind; rewrite Hc; by apply ensureConnection_ready|].
  split; [by eapply ensureConnection_faults | done].
Qed.

Lemma connection_is_reused_witness :
  ensureConnection (set_connection 1 true true cold_world)
  = (Ok tt, set_connection 1 true true cold_world).
Proof.
  destruct (connection_is_reused cold_world (set_connection 1 true true cold_world)
              (or_introl eq_refl) eq_refl) as (_ & H & _).
  exact H.
Defined.

(** X2.  Without [MONGODB_URI] a process that is not connected cannot
    connect: every handler answers 500 with the message
    ['MONGODB_URI is not defined'], makes no driver call and leaves the
    world as it is. *)
Theorem missing_uri_fails_every_handler h req w :
  readyState w <> 1 ->
  truthy (MONGODB_URI (env w)) = false ->
  handler h req w
  = (Ok (failure_response (handler_label h) (Error "MONGODB_URI is not defined")), w).
Proof.
  intros Hr Hu.
  assert (Hc : ensureConnection w = (Throw (Error "MONGODB_URI is not defined"), w)).
  { unfold ensureConnection, bind, gets. simpl.
    destruct (Z.eqb_spec (readyState w) 1); [done|]. simpl.
    unfold connectDB. rewrite Hu.
    destruct (Z.eqb_spec (readyState w) 1); [done|].
    by rewrite andb_false_r. }
  destruct (handler_shape h req) as (body & ->).
  unfold try_catch, bind. by rewrite Hc.
Qed.

Lemma missing_uri_fails_every_handler_witness :
  let w := mkWorld (mkEnv None None None) 0 false false false [] ∅ 1 1000 [] [] in
  getAllFiles (id_request no_params) w
  = (Ok (failure_response "Error fetching files" (Error "MONGODB_URI is not defined")), w).
Proof.
  intros w.
  exact (missing_uri_fails_every_handler H_getAllFiles (id_request no_params) w
           ltac:(discriminate) eq_refl).
Defined.

(** ** server.js: cold start *)

(** X3.  [initializeDB] never throws and never touches the stores.  When it
    returns the flag set, the connection is ready and the bucket exists,
    so the handlers that follow connect no more; with [MONGODB_URI] set
    and no failing driver call it does return the flag set. *)
Theorem initializeDB_cold_start flag w r w' :
  initializeDB flag w = (r, w') ->
  (exists flag', r = Ok flag') /\
  stores_kept w w' /\
  (flag = false -> r = Ok true ->
   readyState w' = 1 /\ gridFSBucket w' = true /\
   ensureConnection w' = (Ok tt, w')) /\
  (flag = false -> truthy (MONGODB_URI (env w)) = true -> quiet w = true ->
   r = Ok true).
Proof.
  unfold initializeDB. destruct flag; simpl.
  - unfold ret. intros H; inversion H; subst.
    split; [by eexists|]. split; [by repeat split|]. split; discriminate.
  - unfold try_catch, bind.
    destruct (connectDB w) as [[[]|e] w1] eqn:Hc.
    + pose proof (connectDB_kept _ _ _ Hc) as (Hk & _ & _ & _ & _ & Hr).
      specialize (Hr eq_refl).
      assert (Hr1 : readyState w1 = 1).
      { destruct Hr as [Hr|Hr]; [|done].
        revert Hc. unfold connectDB.
        destruct (cachedConnection w && (readyState w =? 1)).
        - intros H; inversion H; by subst.
        - destruct (negb (truthy (MONGODB_URI (env w)))); [discriminate|].
          destruct (io w) as [[[]|e'] w2]; intros H; inversion H; by subst. }
      unfold initGridFS, ret. rewrite Hr1. simpl.
      intros H; inversion H; subst. split; [by eexists|].
      split; [exact Hk|]. split.
      * intros _ _. split; [done|]. split; [done|].
        by apply ensureConnection_ready.
      * done.
    + unfold ret. intros H; inversion H; subst.
      pose proof (connectDB_kept _ _ _ Hc) as (Hk & _).
      split; [by eexists|]. split; [exact Hk|]. split; [discriminate|].
      intros _ Hu Hq. exfalso.
      revert Hc. unfold connectDB.
      destruct (cachedConnection w && (readyState w =? 1)); [discriminate|].
      rewrite Hu. simpl.
      destruct (io_quiet w Hq) as (w3 & -> & _). discriminate.
Qed.

Lemma initializeDB_cold_start_witness :
  let w' := snd (initializeDB false cold_world) in
  readyState w' = 1 /\ gridFSBucket w' = true /\
  ensureConnection w' = (Ok tt, w').
Proof.
  destruct (initializeDB_cold_start false cold_world (Ok true)
              (snd (initializeDB false cold_world)) eq_refl) as (_ & _ & H & _).
  exact (H eq_refl eq_refl).
Defined.

(** ** config/gridfs.js: the blob store adapter *)

Lemma chunks_of_bounded fuel n b :
  (0 < n)%nat -> (length b <= fuel)%nat ->
  Forall (fun c => (0 < length c <= n)%nat) (chunks_of fuel n b).
Proof.
  intros Hn. revert b. induction fuel as [|fuel IH]; intros b Hlen.
  - destruct b; [constructor | simpl in Hlen; lia].
  - destruct b as [|x b]; [constructor|].
    change (chunks_of (S fuel) n (x :: b))
      with (firstn n (x :: b) :: chunks_of fuel n (skipn n (x :: b))).
    constructor.
    + rewrite length_firstn. simpl length in *. lia.
    + apply IH. rewrite length_skipn. simpl length in *. lia.
Qed.

(** The bucket handle is there: it was created before, or the
    connection is ready to create it. *)
Lemma getGridFSBucket_available w :
  gridFSBucket w = true \/ readyState w = 1 ->
  getGridFSBucket w = (Ok true, set_gridFSBucket true w).
Proof.
  intros Hav. destruct (getGridFSBucket_spec w) as (b & Hb & Hready & Hnull).
  destruct b; [done|]. destruct Hav as [Hg | Hr].
  - rewrite Hnull in Hg; done.
  - by specialize (Hready Hr).
Qed.

Lemma fileExistsInGridFS_spec g w r w' :
  fileExistsInGridFS g w = (r, w') ->
  stores_kept w w' /\
  match r with
  | Ok true => is_Some (uploads w !! g)
  | Ok false => uploads w !! g = None \/ (gridFSBucket w = false /\ readyState w <> 1)
  | Throw _ => True
  end.
Proof.
  unfold fileExistsInGridFS. intros H.
  destruct (getGridFSBucket_spec w) as (b & Hb & Hready & Hnull).
  unfold bind at 1 in H. rewrite Hb in H. destruct b; simpl in H.
  - unfold_prims. simpl in H.
    destruct (io _) as [[[]|e] w1] eqn:Hio;
      pose proof (io_kept _ _ _ Hio) as [(a1 & a2 & a3) _]; simpl in *;
      inversion H; subst.
    + split; [by repeat split|].
      case_bool_decide as Hd; rewrite a2 in Hd; [done|].
      left. by apply eq_None_not_Some.
    + split; [by repeat split | done].
  - unfold ret in H. inversion H; subst. split; [by repeat split|].
    right. split; [by apply Hnull|]. intros Hr. by specialize (Hready Hr).
Qed.

Lemma fileExistsInGridFS_quiet g w :
  gridFSBucket w = true \/ readyState w = 1 -> quiet w = true ->
  exists w', fileExistsInGridFS g w = (Ok (bool_decide (is_Some (uploads w !! g))), w').
Proof.
  intros Hav Hq. unfold fileExistsInGridFS.
  unfold bind at 1. rewrite (getGridFSBucket_available w Hav). simpl.
  unfold_prims. simpl.
  assert (Hq' : quiet (set_gridFSBucket true w) = true) by exact Hq.
  destruct (io_quiet _ Hq') as (w1 & Hio & Hq1 & Hw1).
  rewrite Hio. destruct (io_kept _ _ _ Hio) as [(_ & a & _) _].
  simpl in a. rewrite a. eauto.
Qed.

Lemma downloadFromGridFS_available b blob w :
  gridFSBucket w = true \/ readyState w = 1 ->
  quiet w = true -> uploads w !! b = Some blob ->
  exists w', downloadFromGridFS (Some b) w = (Ok (Buffer_concat (gf_chunks blob)), w').
Proof.
  intros Hav Hq Hl. unfold downloadFromGridFS.
  unfold bind at 1. rewrite (getGridFSBucket_available w Hav). simpl.
  unfold_prims. simpl.
  assert (Hq' : quiet (set_gridFSBucket true w) = true) by exact Hq.
  destruct (io_quiet _ Hq') as (w1 & Hio & Hq1 & Hw1).
  rewrite Hio. destruct (io_kept _ _ _ Hio) as [(_ & a & _) _].
  simpl in a. rewrite a, Hl. eauto.
Qed.

Lemma uploadToGridFS_result fileBuffer name options w res w' :
  uploadToGridFS fileBuffer name options w = (Ok res, w') ->
  length_ res = Z.of_nat (length fileBuffer) /\ filename res = name.
Proof.
  unfold uploadToGridFS.
  destruct (getGridFSBucket_spec w) as (b & Hb & _ & _).
  unfold bind at 1. rewrite Hb. destruct b; simpl.
  - unfold_prims. simpl. destruct (io _) as [[[]|e] w1].
    + destruct (uploads w1 !! next_oid w); intros H; inversion H; by subst.
    + discriminate.
  - unfold throw. discriminate.
Qed.

(** X4.  A successful [uploadToGridFS] stores the buffer under an id the
    bucket did not hold, in chunks of at most 255 * 1024 bytes, none of
    them empty, and reports the byte count; no blob the bucket held is
    changed, whether the write succeeds or fails.  With no failing
    driver call the new blob is then found by [fileExistsInGridFS] and
    read back unchanged by [downloadFromGridFS]. *)
Theorem uploadToGridFS_adds_one_blob fileBuffer name options w r w' :
  uploadToGridFS fileBuffer name options w = (r, w') ->
  (forall k, is_Some (uploads w !! k) -> uploads w' !! k = uploads w !! k) /\
  File_coll w' = File_coll w /\
  match r with
  | Throw _ => uploads w' = uploads w
  | Ok res =>
      uploads w !! fileId res = None /\
      length_ res = Z.of_nat (length fileBuffer) /\
      filename res = name /\
      (exists blob,
          uploads w' = <[fileId res := blob]> (uploads w) /\
          Buffer_concat (gf_chunks blob) = fileBuffer /\
          Forall (fun c => 0 < Z.of_nat (length c) <= 255 * 1024) (gf_chunks blob)) /\
      (quiet w' = true ->
       (exists w2, fileExistsInGridFS (fileId res) w' = (Ok true, w2)) /\
       (exists w2, downloadFromGridFS (Some (fileId res)) w' = (Ok fileBuffer, w2)))
  end.
Proof.
  intros Hu.
  pose proof (uploadToGridFS_spec _ _ _ _ _ _ Hu) as (Hc & _ & _ & Hrs & Hspec).
  destruct r as [res|e].
  - destruct Hspec as (blob & Hfresh & Hup & _ & Hch & Hbk).
    destruct (uploadToGridFS_result _ _ _ _ _ _ Hu) as [Hlen Hname].
    assert (Hcat : Buffer_concat (gf_chunks blob) = fileBuffer)
      by (rewrite Hch; apply split_chunks_concat).
    assert (Hl : uploads w' !! fileId res = Some blob)
      by (rewrite Hup; apply lookup_insert_eq).
    split.
    { intros k [x Hk]. rewrite Hup, lookup_insert_ne; [done|congruence]. }
    split; [done|]. split; [done|]. split; [done|]. split; [done|]. split.
    + exists blob. split; [done|]. split; [done|].
      rewrite Hch. unfold split_chunks.
      assert (Hsz : chunkSizeBytes = 255 * 1024) by reflexivity.
      eapply Forall_impl;
        [apply (chunks_of_bounded (length fileBuffer) (Z.to_nat chunkSizeBytes));
         lia|].
      intros c Hc'. simpl in Hc'. lia.
    + intros Hq. split.
      * destruct (fileExistsInGridFS_quiet (fileId res) w' (or_introl Hbk) Hq)
          as (w2 & Hex).
        exists w2. rewrite Hex. rewrite Hl. by rewrite bool_decide_eq_true_2.
      * destruct (downloadFromGridFS_available (fileId res) blob w'
                    (or_introl Hbk) Hq Hl) as (w2 & Hdl).
        exists w2. by rewrite Hdl, Hcat.
  - destruct Hspec as [Hup _]. split; [by rewrite Hup|]. by split.
Qed.

Lemma uploadToGridFS_adds_one_blob_witness :
  let r := uploadToGridFS [x68; x69] "hi.txt" (mkUploadOptions None None) ready_world in
  exists res w2,
    fst r = Ok res /\
    downloadFromGridFS (Some (fileId res)) (snd r) = (Ok [x68; x69], w2).
Proof.
  intros r.
  pose proof (uploadToGridFS_adds_one_blob [x68; x69] "hi.txt"
                (mkUploadOptions None None) ready_world
                (Ok (mkGridFSResult 1 "hi.txt" 2)) (snd r) eq_refl)
    as (_ & _ & _ & _ & _ & _ & H).
  destruct (H eq_refl) as [_ (w2 & Hdl)].
  exists (mkGridFSResult 1 "hi.txt" 2), w2. by split.
Defined.

(** X5.  After a successful [deleteFromGridFS] the blob is gone and no other
    blob is touched: a download or a second delete of the id rejects,
    and [fileExistsInGridFS] cannot answer true. *)
Theorem deleteFromGridFS_removes_blob g w w' :
  deleteFromGridFS g w = (Ok tt, w') ->
  is_Some (uploads w !! g) /\
  uploads w' !! g = None /\
  (forall k, k <> g -> uploads w' !! k = uploads w !! k) /\
  File_coll w' = File_coll w /\
  (forall r w2, downloadFromGridFS (Some g) w' = (r, w2) -> is_throw r = true) /\
  (forall r w2, deleteFromGridFS g w' = (r, w2) ->
                is_throw r = true /\ uploads w2 = uploads w') /\
  (forall r w2, fileExistsInGridFS g w' = (r, w2) -> r <> Ok true).
Proof.
  intros Hdel.
  apply deleteFromGridFS_spec in Hdel as (Hc & Hsome & Hup & _).
  assert (Hgone : uploads w' !! g = None) by (rewrite Hup; apply lookup_delete_eq).
  split; [done|]. split; [done|]. split.
  { intros k Hk. rewrite Hup. by apply lookup_delete_ne. }
  split; [done|]. split; [|split].
  - intros r w2 Hdl. apply downloadFromGridFS_spec in Hdl as (_ & Hr).
    destruct r as [bytes|e]; [|done].
    destruct Hr as (blob & Hl & _). congruence.
  - intros r w2 Hd2. apply deleteFromGridFS_spec in Hd2 as (_ & Hr).
    destruct r as [[]|e].
    + destruct Hr as ([x Hx] & _). congruence.
    + by destruct Hr.
  - intros r w2 Hex ->. apply fileExistsInGridFS_spec in Hex as (_ & [x Hx]).
    congruence.
Qed.

Lemma deleteFromGridFS_removes_blob_witness :
  let w := snd (uploadToGridFS [x68; x69] "hi.txt" (mkUploadOptions None None)
                               ready_world) in
  uploads (snd (deleteFromGridFS 1 w)) !! 1 = None /\
  fst (fileExistsInGridFS 1 (snd (deleteFromGridFS 1 w))) = Ok false.
Proof.
  intros w.
  destruct (deleteFromGridFS_removes_blob 1 w (snd (deleteFromGridFS 1 w)) eq_refl)
    as (_ & H & _).
  split; [exact H | reflexivity].
Defined.

(** X6.  The adapter needs the bucket handle.  While the handle is null and
    the connection is not ready, upload, download and delete reject with
    ['GridFS bucket not initialized'] without a driver call or a change
    of state, and [fileExistsInGridFS] swallows the error and answers
    false, also for a blob that is stored. *)
Theorem bucket_not_initialized w :
  gridFSBucket w = false -> readyState w <> 1 ->
  (forall b n o,
      uploadToGridFS b n o w = (Throw (Error "GridFS bucket not initialized"), w)) /\
  (forall g,
      downloadFromGridFS g w = (Throw (Error "GridFS bucket not initialized"), w)) /\
  (forall g,
      deleteFromGridFS g w = (Throw (Error "GridFS bucket not initialized"), w)) /\
  (forall g, fileExistsInGridFS g w = (Ok false, w)).
Proof.
  intros Hg Hr.
  assert (Hb : getGridFSBucket w = (Ok false, w)).
  { unfold getGridFSBucket. rewrite Hg.
    destruct (Z.eqb_spec (readyState w) 1); [done|]. reflexivity. }
  repeat split; intros;
    unfold uploadToGridFS, downloadFromGridFS, deleteFromGridFS,
      fileExistsInGridFS, bind; by rewrite Hb.
Qed.

Lemma bucket_not_initialized_witness :
  fileExistsInGridFS 1 cold_world = (Ok false, cold_world) /\
  downloadFromGridFS (Some 1) cold_world
  = (Throw (Error "GridFS bucket not initialized"), cold_world).
Proof.
  destruct (bucket_not_initialized cold_world eq_refl ltac:(discriminate))
    as (_ & Hd & _ & He).
  split; [apply He | apply Hd].
Defined.

(** ** Deleting a file *)

Lemma findByIdAndDelete_spec id w r w' :
  findByIdAndDelete (ValidId id) w = (r, w') ->
  uploads w' = uploads w /\
  match r with
  | Throw _ => File_coll w' = File_coll w /\ events w' = events w
  | Ok o =>
      o = find_doc id (File_coll w) /\
      match o with
      | None => File_coll w' = File_coll w /\ events w' = events w
      | Some _ => File_coll w' = remove_doc id (File_coll w) /\
                  events w' = events w ++ [RecordDeleted id]
      end
  end.
Proof.
  unfold findByIdAndDelete, cast_ObjectId. unfold_prims. simpl.
  destruct (io w) as [[[]|e] w1] eqn:Hio;
    destruct (io_kept _ _ _ Hio) as [(a & b & c) _].
  - rewrite a. destruct (find_doc id (File_coll w)) as [d|] eqn:Hd;
      intros H; inversion H; subst; simpl; rewrite ?Hd; repeat split; congruence.
  - intros H; inversion H; subst. by repeat split.
Qed.

Lemma findByIdAndDelete_quiet id w :
  quiet w = true ->
  exists w', findByIdAndDelete (ValidId id) w = (Ok (find_doc id (File_coll w)), w') /\
             quiet w' = true.
Proof.
  intros Hq. destruct (io_quiet w Hq) as (w1 & Hio & Hq1 & Hw1).
  unfold findByIdAndDelete, cast_ObjectId. unfold_prims. rewrite Hio.
  destruct (io_kept _ _ _ Hio) as [(a & b & c) _]. rewrite a.
  destruct (find_doc id (File_coll w)); eexists; split; try reflexivity; exact Hq1.
Qed.

Lemma deleteFile_effect id w resp w' :
  deleteFile (id_request (ValidId id)) w = (Ok resp, w') ->
  delete_outcome id w resp w'.
Proof.
  unfold deleteFile, try_catch. simpl. unfold bind at 1.
  destruct (ensureConnection w) as [[[]|e] w1] eqn:Hc;
    apply ensureConnection_kept in Hc as ((a1 & a2 & a3) & _);
    [|rewrite failure_eq; intros H; inversion H; subst;
      by eapply delete_failed].
  unfold bind at 1.
  destruct (findById (ValidId id) w1) as [[o|e] w2] eqn:Hfind;
    apply findById_spec in Hfind as ((b1 & b2 & b3) & _ & Ho);
    [|rewrite failure_eq; intros H; inversion H; subst;
      eapply delete_failed; [done|]; repeat split; congruence].
  subst o. rewrite a1.
  destruct (find_doc id (File_coll w)) as [d|] eqn:Hd.
  2:{ intros H. inversion H; subst.
      apply delete_unknown; [done|done|]. repeat split; congruence. }
  unfold bind at 1.
  destruct (gridfsId d) as [g|] eqn:Hg.
  - destruct (deleteFromGridFS g w2) as [[[]|e] w3] eqn:Hdel;
      apply deleteFromGridFS_spec in Hdel as (c1 & Hdel).
    + destruct Hdel as (c2 & c3 & c4). unfold bind at 1.
      destruct (findByIdAndDelete (ValidId id) w3) as [[o|e] w4] eqn:Hfd;
        apply findByIdAndDelete_spec in Hfd as (d1 & Hfd).
      * destruct Hfd as (-> & Hfd). rewrite c1, b1, a1, Hd in Hfd.
        destruct Hfd as (d2 & d3).
        intros H. inversion H; subst.
        eapply delete_done; [done|exact Hd| |].
        -- rewrite d2. congruence.
        -- rewrite Hg. split; [congruence|]. split; [congruence|].
           rewrite d3, c4, <- app_assoc. simpl. congruence.
      * destruct Hfd as (d2 & d3). rewrite failure_eq.
        intros H. inversion H; subst.
        eapply delete_half; [done|exact Hd|exact Hg|congruence|congruence|congruence|congruence].
    + destruct Hdel as (c2 & c3). rewrite failure_eq.
      intros H. inversion H; subst.
      eapply delete_failed; [done|]. repeat split; congruence.
  - unfold ret at 1. unfold bind at 1.
    destruct (findByIdAndDelete (ValidId id) w2) as [[o|e] w4] eqn:Hfd;
      apply findByIdAndDelete_spec in Hfd as (d1 & Hfd).
    + destruct Hfd as (-> & Hfd). rewrite b1, a1, Hd in Hfd.
      destruct Hfd as (d2 & d3).
      intros H. inversion H; subst.
      eapply delete_done; [done|exact Hd|congruence|].
      rewrite Hg. split; congruence.
    + destruct Hfd as (d2 & d3). rewrite failure_eq.
      intros H. inversion H; subst.
      eapply delete_failed; [done|]. repeat split; congruence.
Qed.

Lemma find_doc_remove_other id k c :
  k <> id -> find_doc k (remove_doc id c) = find_doc k c.
Proof.
  intros Hk. induction c as [|d c IH]; [done|]. simpl.
  destruct (Z.eqb_spec (_id d) id) as [E|E].
  - destruct (Z.eqb_spec (_id d) k); [congruence|done].
  - simpl. by rewrite IH.
Qed.

Lemma find_doc_None id c : find_doc id c = None <-> id ∉ map _id c.
Proof.
  induction c as [|d c IH]; simpl.
  - split; [intros _; apply not_elem_of_nil|done].
  - destruct (Z.eqb_spec (_id d) id) as [E|E].
    + split; [done|]. intros H. exfalso. apply H. subst. apply list_elem_of_here.
    + rewrite IH. split.
      * intros H Hin. apply elem_of_cons in Hin as [?|?]; [congruence|done].
      * intros H Hin. apply H. by apply list_elem_of_further.
Qed.

Lemma remove_doc_sub id c d : d ∈ remove_doc id c -> d ∈ c.
Proof.
  induction c as [|x c IH]; simpl; [done|].
  destruct (_id x =? id).
  - apply list_elem_of_further.
  - intros H. apply elem_of_cons in H as [->|H].
    + apply list_elem_of_here.
    + apply list_elem_of_further. by apply IH.
Qed.

Lemma remove_doc_other id c d : d ∈ c -> _id d <> id -> d ∈ remove_doc id c.
Proof.
  intros Hin Hne. induction c as [|x c IH]; simpl; [by inversion Hin|].
  apply elem_of_cons in Hin as [->|Hin].
  - destruct (Z.eqb_spec (_id x) id); [done|]. apply list_elem_of_here.
  - destruct (Z.eqb_spec (_id x) id); [done|].
    apply list_elem_of_further. by apply IH.
Qed.

Lemma remove_doc_ids id c :
  map _id (remove_doc id c) `sublist_of` map _id c.
Proof.
  induction c as [|x c IH]; simpl; [done|].
  destruct (_id x =? id); simpl.
  - by apply sublist_cons.
  - by apply sublist_skip.
Qed.

Lemma find_doc_remove_same id c :
  NoDup (map _id c) -> find_doc id (remove_doc id c) = None.
Proof.
  induction c as [|x c IH]; simpl; [done|].
  intros Hnd. apply NoDup_cons in Hnd as [Hx Hnd].
  destruct (Z.eqb_spec (_id x) id) as [E|E].
  - subst. by apply find_doc_None.
  - simpl. destruct (Z.eqb_spec (_id x) id); [done|]. by apply IH.
Qed.

Lemma remove_doc_length id c d :
  find_doc id c = Some d -> S (length (remove_doc id c)) = length c.
Proof.
  induction c as [|x c IH]; simpl; [done|].
  destruct (_id x =? id); [done|]. simpl. intros H. by rewrite IH.
Qed.

(** X7.  DELETE /api/files/:id answers 200, 404 or 500 and touches nothing
    but the record of the id and the blob that record references: no
    other record and no other blob is removed, nothing is created.  The
    blob goes first: the store operations of the request are none, the
    blob delete, or the blob delete followed by the record delete (the
    record delete alone for a record without blob), and the answer is
    200 exactly when the record was deleted. *)
Theorem deleteFile_touches_one_file id w resp w' :
  deleteFile (id_request (ValidId id)) w = (Ok resp, w') ->
  (status resp = 200 \/ status resp = 404 \/ status resp = 500) /\
  (forall d, d ∈ File_coll w' -> d ∈ File_coll w) /\
  (forall d, d ∈ File_coll w -> _id d <> id -> d ∈ File_coll w') /\
  (forall k, find_doc k (File_coll w) <> find_doc k (File_coll w') -> k = id) /\
  (forall k, uploads w' !! k <> uploads w !! k ->
             uploads w' !! k = None /\
             exists d, find_doc id (File_coll w) = Some d /\ gridfsId d = Some k) /\
  (exists evs,
      events w' = events w ++ evs /\
      (status resp = 200 <-> last evs = Some (RecordDeleted id)) /\
      (evs = [] \/ evs = [RecordDeleted id] \/
       exists g, evs = [BlobDeleted g] \/ evs = [BlobDeleted g; RecordDeleted id])) /\
  (status resp = 200 ->
   resp = deleted_response /\
   File_coll w' = remove_doc id (File_coll w) /\
   S (length (File_coll w')) = length (File_coll w)) /\
  (status resp <> 200 -> File_coll w' = File_coll w) /\
  (status resp = 404 ->
   resp = not_found_response /\ find_doc id (File_coll w) = None /\ stores_kept w w').
Proof.
  intros H. apply deleteFile_effect in H.
  destruct H as [e -> (a & b & c) | -> Hn (a & b & c)
                | d g e -> Hd Hg Hs a b c | d -> Hd a Hb].
  - rewrite a, b. split_and!; try done; auto.
    exists []. rewrite app_nil_r. split_and!; auto. split; discriminate.
  - rewrite a, b. split_and!; try done; auto.
    exists []. rewrite app_nil_r. split_and!; auto. split; discriminate.
  - rewrite a, b. split_and!; try done; auto.
    + intros k Hk. destruct (decide (g = k)) as [->|Hne].
      * split; [apply lookup_delete_eq|]. by exists d.
      * exfalso. apply Hk. by apply lookup_delete_ne.
    + exists [BlobDeleted g]. split_and!; [done|split; discriminate|].
      right. right. exists g. by left.
  - rewrite a. split_and!; auto.
    + apply remove_doc_sub.
    + apply remove_doc_other.
    + intros k Hk. destruct (decide (k = id)); [done|].
      exfalso. apply Hk. symmetry. by apply find_doc_remove_other.
    + intros k Hk. destruct (gridfsId d) as [g|] eqn:Hg.
      * destruct Hb as (_ & b & _). rewrite b in *.
        destruct (decide (g = k)) as [->|].
        -- split; [apply lookup_delete_eq|]. by exists d.
        -- exfalso. apply Hk. by apply lookup_delete_ne.
      * destruct Hb as (b & _). by rewrite b in Hk.
    + destruct (gridfsId d) as [g|].
      * destruct Hb as (_ & _ & c). exists [BlobDeleted g; RecordDeleted id].
        split_and!; [done|done|]. right. right. exists g. by right.
      * destruct Hb as (_ & c). exists [RecordDeleted id].
        split_and!; [done|done|]. auto.
    + intros _. split_and!; [done|done|]. by eapply remove_doc_length.
    + done.
    + discriminate.
Qed.

Lemma deleteFile_touches_one_file_witness :
  let r := deleteFile (id_request (ValidId 2)) stocked_world in
  fst r = Ok deleted_response /\
  File_coll (snd r) = [power_bill] /\
  uploads (snd r) !! 3 = Some pdf_blob.
Proof.
  intros r.
  pose proof (deleteFile_touches_one_file 2 stocked_world deleted_response (snd r)
                eq_refl) as (_ & _ & _ & _ & _ & _ & H & _).
  destruct (H eq_refl) as (_ & Hc & _).
  split; [reflexivity|]. split; [exact Hc | reflexivity].
Defined.

Lemma deleteFromGridFS_quiet g w :
  readyState w = 1 -> quiet w = true -> is_Some (uploads w !! g) ->
  exists w', deleteFromGridFS g w = (Ok tt, w') /\
             quiet w' = true /\ readyState w' = 1 /\
             File_coll w' = File_coll w /\ uploads w' = delete g (uploads w).
Proof.
  intros Hr Hq [blob Hl]. unfold deleteFromGridFS.
  unfold bind at 1. rewrite (getGridFSBucket_available w (or_intror Hr)). simpl.
  unfold_prims. simpl.
  assert (Hq' : quiet (set_gridFSBucket true w) = true) by exact Hq.
  destruct (io_quiet _ Hq') as (w1 & Hio & Hq1 & Hw1).
  rewrite Hio. destruct (io_kept _ _ _ Hio) as [(a0 & a & _) (_ & b & _)].
  simpl in a, a0, b. rewrite a, Hl. eexists. split; [reflexivity|].
  simpl. split; [exact Hq1|]. split; [congruence|]. by split.
Qed.

Lemma findByIdAndDelete_available id w :
  quiet w = true ->
  exists w', findByIdAndDelete (ValidId id) w = (Ok (find_doc id (File_coll w)), w') /\
             quiet w' = true /\ readyState w' = readyState w /\
             uploads w' = uploads w /\
             File_coll w' = match find_doc id (File_coll w) with
                            | Some _ => remove_doc id (File_coll w)
                            | None => File_coll w
                            end.
Proof.
  intros Hq. destruct (io_quiet w Hq) as (w1 & Hio & Hq1 & Hw1).
  unfold findByIdAndDelete, cast_ObjectId. unfold_prims. rewrite Hio.
  destruct (io_kept _ _ _ Hio) as [(a & b & c) (_ & r & _)]. rewrite a.
  destruct (find_doc id (File_coll w)); eexists; (split; [reflexivity|]); simpl;
    by repeat split.
Qed.

Lemma reachable_ready w : readyState w = 1 -> quiet w = true -> reachable w = true.
Proof.
  intros Hr Hq. unfold reachable. rewrite Hr, Hq. reflexivity.
Qed.

(** On a reachable database the routes with an [:id] parameter answer
    404 for an id that has no record. *)
Lemma by_id_not_found h id w :
  by_id h = true ->
  reachable w = true ->
  find_doc id (File_coll w) = None ->
  exists w', handler h (id_request (ValidId id)) w = (Ok not_found_response, w') /\
             stores_kept w w' /\ reachable w' = true.
Proof.
  intros Hh Hrw Hn.
  destruct (ensureConnection_reachable w Hrw)
    as (w1 & Hc & Hq1 & Hr1 & (a1 & a2 & a3) & _).
  destruct (findById_quiet id w1 Hq1) as (w2 & Hf & Hq2 & (b1 & b2 & b3) & (_ & Hr2 & _)).
  rewrite a1, Hn in Hf.
  exists w2.
  split; [|split; [repeat split; congruence|apply reachable_ready; congruence]].
  destruct h; try discriminate Hh; simpl;
    unfold getFileById, downloadFile, viewFile, deleteFile, findById_select,
      try_catch; simpl; unfold bind at 1; rewrite Hc; unfold bind; rewrite Hf;
    reflexivity.
Qed.

(** X8.  A delete of a stored file on a reachable database answers 200 and
    removes the record and its blob.  With unique record ids the file
    is then gone for every route: fetch, download, view and a second
    delete answer 404 and change nothing. *)
Theorem deleteFile_removes_file id d w :
  reachable w = true ->
  find_doc id (File_coll w) = Some d ->
  (forall g, gridfsId d = Some g -> is_Some (uploads w !! g)) ->
  exists w',
    deleteFile (id_request (ValidId id)) w = (Ok deleted_response, w') /\
    File_coll w' = remove_doc id (File_coll w) /\
    uploads w' = match gridfsId d with
                 | Some g => delete g (uploads w)
                 | None => uploads w
                 end /\
    (NoDup (map _id (File_coll w)) ->
     find_doc id (File_coll w') = None /\
     forall h, by_id h = true ->
       exists w2, handler h (id_request (ValidId id)) w' = (Ok not_found_response, w2) /\
                  stores_kept w' w2).
Proof.
  intros Hrw Hd Hblob.
  destruct (ensureConnection_reachable w Hrw)
    as (w1 & Hc & Hq1 & Hr1 & (a1 & a2 & a3) & _).
  destruct (findById_quiet id w1 Hq1) as (w2 & Hf & Hq2 & (b1 & b2 & b3) & (_ & Hr2 & _)).
  rewrite a1, Hd in Hf.
  assert (Hstep : exists w3,
             match gridfsId d with
             | Some g => deleteFromGridFS g
             | None => ret tt
             end w2 = (Ok tt, w3) /\
             quiet w3 = true /\ readyState w3 = 1 /\ File_coll w3 = File_coll w /\
             uploads w3 = match gridfsId d with
                          | Some g => delete g (uploads w)
                          | None => uploads w
                          end).
  { destruct (gridfsId d) as [g|].
    - destruct (deleteFromGridFS_quiet g w2) as (w3 & Hdel & c1 & c2 & c3 & c4);
        [congruence|done|rewrite b2, a2; by apply Hblob|].
      exists w3. repeat split; try done; congruence.
    - exists w2. repeat split; try done; congruence. }
  destruct Hstep as (w3 & Hdel & Hq3 & Hr3 & c3 & c4).
  destruct (findByIdAndDelete_available id w3 Hq3) as (w4 & Hfd & Hq4 & Hr4 & d1 & d2).
  rewrite c3, Hd in Hfd, d2.
  exists w4.
  assert (Hnone : NoDup (map _id (File_coll w)) -> find_doc id (File_coll w4) = None).
  { intros Hnd. rewrite d2. by apply find_doc_remove_same. }
  split_and!.
  - unfold deleteFile, try_catch. simpl. unfold bind at 1. rewrite Hc.
    unfold bind at 1. rewrite Hf. unfold bind at 1. rewrite Hdel.
    unfold bind at 1. by rewrite Hfd.
  - done.
  - congruence.
  - intros Hnd. split; [auto|]. intros h Hh.
    destruct (by_id_not_found h id w4 Hh) as (w5 & H5 & Hk & _);
      [apply reachable_ready; congruence|auto|eauto].
Qed.

Lemma deleteFile_removes_file_witness :
  exists w',
    deleteFile (id_request (ValidId 4)) stocked_world = (Ok deleted_response, w') /\
    exists w2, downloadFile (id_request (ValidId 4)) w' = (Ok not_found_response, w2).
Proof.
  destruct (deleteFile_removes_file 4 power_bill stocked_world eq_refl eq_refl)
    as (w' & Hdel & _ & _ & H).
  { intros g [= <-]. by eexists. }
  exists w'. split; [exact Hdel|].
  destruct H as (_ & H).
  { by apply (bool_decide_unpack _). }
  destruct (H H_downloadFile eq_refl) as (w2 & H2 & _). by exists w2.
Defined.

(** ** Reading *)

Lemma findById_any p w r w' :
  findById p w = (r, w') ->
  stores_kept w w' /\ next_oid w' = next_oid w /\
  match r with
  | Ok o => exists id, p = ValidId id /\ o = find_doc id (File_coll w)
  | Throw e => True
  end.
Proof.
  destruct p as [id|s].
  - intros H. split; [by apply findById_spec in H as (? & _)|].
    revert H. unfold findById, cast_ObjectId. unfold_prims. simpl.
    destruct (io w) as [[[]|e] w1] eqn:Hio; intros H; inversion H; subst;
      (split; [by eapply io_next_oid|]); [|done].
    destruct (io_kept _ _ _ Hio) as [(a & _) _]. exists id. by rewrite a.
  - unfold findById, cast_ObjectId. unfold_prims. simpl.
    intros H; inversion H; subst. by repeat split.
Qed.

Lemma downloadFromGridFS_any o w r w' :
  downloadFromGridFS o w = (r, w') ->
  stores_kept w w' /\
  match r with
  | Ok bytes => exists blob, uploads w !! default (next_oid w) o = Some blob /\
                             bytes = Buffer_concat (gf_chunks blob)
  | Throw _ => True
  end.
Proof.
  destruct o as [b|]; [apply downloadFromGridFS_spec|].
  unfold downloadFromGridFS. intros H.
  destruct (getGridFSBucket_spec w) as (bk & Hb & _ & _).
  unfold bind at 1 in H. rewrite Hb in H. destruct bk; simpl in H.
  - revert H. unfold_prims. simpl.
    destruct (io _) as [[[]|e] w1] eqn:Hio;
      destruct (io_kept _ _ _ Hio) as [(a1 & a2 & a3) _]; simpl in *.
    + rewrite a2. destruct (uploads w !! next_oid w) as [blob|] eqn:Hl;
        intros H; inversion H; subst; (split; [by repeat split|]); [|done].
      by exists blob.
    + intros H; inversion H; subst. by repeat split.
  - inversion H; subst. by repeat split.
Qed.

Lemma retrieve_effect disposition label req w resp w' :
  retrieve disposition label req w = (Ok resp, w') ->
  stores_kept w w' /\ retrieve_outcome disposition label (params_id req) w resp w'.
Proof.
  unfold retrieve, try_catch. unfold bind at 1.
  destruct (ensureConnection w) as [[[]|e] w1] eqn:Hc;
    apply ensureConnection_kept in Hc as (Hk1 & _ & _ & Hn1 & _);
    [|rewrite failure_eq; intros H; inversion H; subst;
      split; [done|by eapply retrieve_failed]].
  unfold bind at 1.
  destruct (findById (params_id req) w1) as [[o|e] w2] eqn:Hfind;
    apply findById_any in Hfind as (Hk2 & Hn2 & Ho);
    pose proof (stores_kept_trans _ _ _ Hk1 Hk2) as Hk12;
    [|rewrite failure_eq; intros H; inversion H; subst;
      split; [done|by eapply retrieve_failed]].
  destruct Ho as (id & Hp & ->). destruct Hk1 as (a1 & a2 & a3). rewrite a1.
  destruct (find_doc id (File_coll w)) as [d|] eqn:Hd.
  2:{ intros H. inversion H; subst. split; [done|]. by eapply retrieve_unknown. }
  unfold bind at 1.
  destruct (downloadFromGridFS (gridfsId d) w2) as [[bytes|e] w3] eqn:Hdl;
    apply downloadFromGridFS_any in Hdl as (Hk3 & Hdl);
    pose proof (stores_kept_trans _ _ _ Hk12 Hk3) as Hk13;
    [|rewrite failure_eq; intros H; inversion H; subst;
      split; [done|by eapply retrieve_failed]].
  destruct Hdl as (blob & Hl & ->).
  unfold res_send, ret. intros H. inversion H; subst. split; [done|].
  destruct Hk2 as (b1 & b2 & b3). rewrite b2, a2 in Hl.
  eapply retrieve_sent; [done|reflexivity|done|exact Hl|].
  destruct (gridfsId d); [by left|right]. split; [done|]. simpl. congruence.
Qed.

(** X9.  The delete is not atomic.  When the record delete fails after the
    blob delete went through, the handler answers 500, the blob is gone
    and the record stays.  From then on, as long as the two stores stay
    as they are, the record can be neither downloaded nor viewed nor
    deleted through the API: each of the three answers 500 and changes
    nothing. *)
Theorem deleteFile_not_atomic id d g e rest w :
  readyState w = 1 ->
  faults w = None :: None :: Some e :: rest ->
  find_doc id (File_coll w) = Some d ->
  gridfsId d = Some g ->
  is_Some (uploads w !! g) ->
  exists w',
    deleteFile (id_request (ValidId id)) w
    = (Ok (failure_response "Error deleting file" e), w') /\
    File_coll w' = File_coll w /\
    uploads w' = delete g (uploads w) /\
    events w' = events w ++ [BlobDeleted g] /\
    faults w' = rest /\
    forall v resp v',
      File_coll v = File_coll w' -> uploads v = uploads w' ->
      deleteFile (id_request (ValidId id)) v = (Ok resp, v') \/
      downloadFile (id_request (ValidId id)) v = (Ok resp, v') \/
      viewFile (id_request (ValidId id)) v = (Ok resp, v') ->
      status resp = 500 /\ stores_kept v v'.
Proof.
  intros Hr Hf Hd Hg [blob Hl].
  destruct w as [en rs cc ic gb fc up no ck fl ev]; simpl in *. subst rs fl.
  eexists. split.
  { unfold deleteFile, try_catch, ensureConnection, findById, deleteFromGridFS,
      findByIdAndDelete, getGridFSBucket, initGridFS, cast_ObjectId, ObjectId_from.
    unfold_prims. simpl. rewrite Hd, Hg. destruct gb; simpl; rewrite Hl; reflexivity. }
  simpl. split_and!; try done.
  intros v resp v' Hc Hu Hrun.
  assert (Hgone : uploads v !! g = None) by (rewrite Hu; apply lookup_delete_eq).
  destruct Hrun as [Hrun | [Hrun | Hrun]].
  - apply deleteFile_effect in Hrun.
    destruct Hrun as [e' -> Hk | -> Hn _ | d' g' e' -> Hd' Hg' [x Hx] _ _ _
                     | d' -> Hd' _ Hb].
    + done.
    + simpl in Hc. congruence.
    + simpl in Hc. rewrite Hc, Hd in Hd'. injection Hd' as <-. congruence.
    + simpl in Hc. rewrite Hc, Hd in Hd'. injection Hd' as <-. rewrite Hg in Hb.
      destruct Hb as ([x Hx] & _). congruence.
  - rewrite downloadFile_retrieve in Hrun.
    apply retrieve_effect in Hrun as (Hk & Hrun). split; [|done].
    destruct Hrun as [e' -> | id' Hp -> Hn | id' d' b blob' Hp -> Hd' Hl' Hb];
      [done| |]; simpl in Hp, Hc; injection Hp as <-; [congruence|].
    rewrite Hc, Hd in Hd'. injection Hd' as <-.
    destruct Hb as [Hb | [Hb _]]; congruence.
  - rewrite viewFile_retrieve in Hrun.
    apply retrieve_effect in Hrun as (Hk & Hrun). split; [|done].
    destruct Hrun as [e' -> | id' Hp -> Hn | id' d' b blob' Hp -> Hd' Hl' Hb];
      [done| |]; simpl in Hp, Hc; injection Hp as <-; [congruence|].
    rewrite Hc, Hd in Hd'. injection Hd' as <-.
    destruct Hb as [Hb | [Hb _]]; congruence.
Qed.

Lemma deleteFile_not_atomic_witness :
  let w := set_faults [None; None; Some (Error "connection closed")] stocked_world in
  exists w',
    deleteFile (id_request (ValidId 2)) w
    = (Ok (failure_response "Error deleting file" (Error "connection closed")), w') /\
    uploads w' !! 1 = None /\
    find_doc 2 (File_coll w') = Some old_passport.
Proof.
  intros w.
  destruct (deleteFile_not_atomic 2 old_passport 1 (Error "connection closed") [] w
              eq_refl eq_refl eq_refl eq_refl)
    as (w' & H & Hc & Hu & _).
  { by eexists. }
  exists w'. split; [exact H|]. rewrite Hc, Hu. by split.
Defined.

Lemma filter_matches_None c : List.filter (matches None) c = c.
Proof.
  induction c as [|d c IH]; [done|]. simpl. by rewrite IH.
Qed.

Lemma listing_answer found :
  res_json 200 [("success", JBool true);
                ("count", JNum (Z.of_nat (length (map select_minus_gridfsId found))));
                ("files", JArr (map listed_view (map select_minus_gridfsId found)))]
  = ret (listing_response found).
Proof.
  unfold res_json, listing_response. rewrite length_map, map_map. reflexivity.
Qed.

Lemma category_answer c found :
  res_json 200 [("success", JBool true);
                ("category", JStr c);
                ("count", JNum (Z.of_nat (length (map select_minus_gridfsId found))));
                ("files", JArr (map listed_view (map select_minus_gridfsId found)))]
  = ret (category_response c found).
Proof.
  unfold res_json, category_response. rewrite length_map, map_map. reflexivity.
Qed.

Lemma getAllFiles_effect req w resp w' :
  getAllFiles req w = (Ok resp, w') ->
  stores_kept w w' /\
  (resp = listing_response (sort_uploadDate_desc (File_coll w)) \/
   exists e, resp = failure_response "Error fetching files" e).
Proof.
  unfold getAllFiles, try_catch. unfold bind at 1.
  destruct (ensureConnection w) as [[[]|e] w1] eqn:Hc;
    apply ensureConnection_kept in Hc as (Hk1 & _).
  - unfold bind at 1.
    destruct (File_find None w1) as [[l|e] w2] eqn:Hfind;
      apply File_find_spec in Hfind as (Hk2 & Hl).
    + subst l. rewrite listing_answer, filter_matches_None.
      pose proof Hk1 as (a & _). rewrite a.
      intros H; inversion H; subst.
      split; [by eapply stores_kept_trans | by left].
    + rewrite failure_eq. intros H; inversion H; subst.
      split; [by eapply stores_kept_trans | right; by eexists].
  - rewrite failure_eq. intros H; inversion H; subst.
    split; [done | right; by eexists].
Qed.

Lemma getFilesByCategory_effect req w resp w' :
  getFilesByCategory req w = (Ok resp, w') ->
  stores_kept w w' /\
  (resp = category_response (params_category req)
            (sort_uploadDate_desc
               (List.filter (matches (Some (params_category req))) (File_coll w))) \/
   exists e, resp = failure_response "Error fetching files" e).
Proof.
  unfold getFilesByCategory, try_catch. unfold bind at 1.
  destruct (ensureConnection w) as [[[]|e] w1] eqn:Hc;
    apply ensureConnection_kept in Hc as (Hk1 & _).
  - unfold bind at 1.
    destruct (File_find (Some (params_category req)) w1) as [[l|e] w2] eqn:Hfind;
      apply File_find_spec in Hfind as (Hk2 & Hl).
    + subst l. rewrite category_answer.
      pose proof Hk1 as (a & _). rewrite a.
      intros H; inversion H; subst.
      split; [by eapply stores_kept_trans | by left].
    + rewrite failure_eq. intros H; inversion H; subst.
      split; [by eapply stores_kept_trans | right; by eexists].
  - rewrite failure_eq. intros H; inversion H; subst.
    split; [done | right; by eexists].
Qed.

Lemma getFileById_effect req w resp w' :
  getFileById req w = (Ok resp, w') ->
  stores_kept w w' /\
  ((exists e, resp = failure_response "Error fetching file" e) \/
   exists id, params_id req = ValidId id /\
              resp = match find_doc id (File_coll w) with
                     | Some d => found_response d
                     | None => not_found_response
                     end).
Proof.
  unfold getFileById, try_catch. unfold bind at 1.
  destruct (ensureConnection w) as [[[]|e] w1] eqn:Hc;
    apply ensureConnection_kept in Hc as (Hk1 & _).
  - unfold bind at 1. unfold findById_select. unfold bind at 1.
    destruct (findById (params_id req) w1) as [[o|e] w2] eqn:Hfind;
      apply findById_any in Hfind as (Hk2 & _ & Ho).
    + destruct Ho as (id & Hp & ->). pose proof Hk1 as (a & _). rewrite a.
      unfold ret at 1.
      intros H. split.
      { destruct (find_doc id (File_coll w)); inversion H; subst;
          by eapply stores_kept_trans. }
      right. exists id. split; [done|].
      destruct (find_doc id (File_coll w)); by inversion H.
    + rewrite failure_eq. intros H; inversion H; subst.
      split; [by eapply stores_kept_trans | left; by eexists].
  - rewrite failure_eq. intros H; inversion H; subst.
    split; [done | left; by eexists].
Qed.

(** X10.  The five GET handlers never change the stores, whatever the request
    and whatever the database does: the collection, the bucket and the
    trace of store operations are as before.  They answer 200, 404 or
    500, and 404 only on the routes with an [:id] parameter. *)
Theorem reads_keep_stores h req w resp w' :
  is_read h = true ->
  handler h req w = (Ok resp, w') ->
  stores_kept w w' /\
  (status resp = 200 \/ status resp = 404 /\ by_id h = true \/ status resp = 500).
Proof.
  intros Hh Hrun. destruct h; try discriminate Hh; simpl in Hrun.
  - apply getAllFiles_effect in Hrun as (Hk & [-> | [e ->]]); auto.
  - apply getFileById_effect in Hrun as (Hk & [[e ->] | (id & _ & ->)]); auto.
    destruct (find_doc id (File_coll w)); auto.
  - rewrite downloadFile_retrieve in Hrun.
    apply retrieve_effect in Hrun as (Hk & [e -> | id _ -> _ | id d b blob _ -> _ _ _]);
      auto.
  - rewrite viewFile_retrieve in Hrun.
    apply retrieve_effect in Hrun as (Hk & [e -> | id _ -> _ | id d b blob _ -> _ _ _]);
      auto.
  - apply getFilesByCategory_effect in Hrun as (Hk & [-> | [e ->]]); auto.
Qed.

Lemma reads_keep_stores_witness :
  stores_kept stocked_world (snd (downloadFile (id_request (ValidId 2)) stocked_world)).
Proof.
  destruct (reads_keep_stores H_downloadFile (id_request (ValidId 2)) stocked_world
              (sent_response "attachment" old_passport [x89; x50; x4e; x47])
              (snd (downloadFile (id_request (ValidId 2)) stocked_world))
              eq_refl eq_refl) as [H _].
  exact H.
Defined.

Lemma listing_response_lists found : lists_records found (listing_response found).
Proof.
  split_and!; try reflexivity.
  exists (map listed_view found). split; [reflexivity|apply listed_views].
Qed.

(** X11.  GET /api/files lists every record once, newest upload first.  It
    answers 200 or, when the database fails, 500; with the database
    reachable it answers 200.  An answer of 200 has [success: true], the
    number of records stored as [count], and as [files] one view per
    record, newest first: the view shows the id, the name, the type, the
    size and its formatted form, the category, the description and the
    upload date of its record. *)
Theorem getAllFiles_lists_everything req w :
  let found := sort_uploadDate_desc (File_coll w) in
  found ≡ₚ File_coll w /\
  StronglySorted (fun a b => uploadDate b <= uploadDate a) found /\
  length found = length (File_coll w) /\
  (forall resp w',
      getAllFiles req w = (Ok resp, w') ->
      (resp = listing_response found \/
       exists e, resp = failure_response "Error fetching files" e) /\
      (status resp = 200 \/ status resp = 500) /\
      (status resp = 200 -> lists_records found resp)) /\
  (reachable w = true ->
   exists resp w',
     getAllFiles req w = (Ok resp, w') /\
     resp = listing_response found /\
     lists_records found resp).
Proof.
  intros found.
  assert (Hperm : found ≡ₚ File_coll w) by apply merge_sort_Permutation.
  split_and!.
  - exact Hperm.
  - apply (StronglySorted_merge_sort newer_first).
  - by rewrite Hperm.
  - intros resp w' Hrun. apply getAllFiles_effect in Hrun as (_ & [-> | [e ->]]).
    + split_and!; [by left|by left|]. intros _. apply listing_response_lists.
    + split_and!; [right; by eexists|by right|discriminate].
  - intros Hrw.
    destruct (ensureConnection_reachable w Hrw) as (w1 & Hc & Hq1 & _ & (a & _) & _).
    destruct (File_find_quiet None w1 Hq1) as (w2 & Hf & _).
    exists (listing_response found), w2.
    split; [|split; [done|apply listing_response_lists]].
    unfold getAllFiles, try_catch. unfold bind at 1. rewrite Hc.
    unfold bind at 1. rewrite Hf, listing_answer, filter_matches_None, a.
    reflexivity.
Qed.

(** X12.  GET /api/files/:id answers the view of the record of the id (with
    the formatted size), 404 when no record has the id, or 500 when the
    database fails; with the database reachable it is the first or the
    second. *)
Theorem getFileById_exact id w :
  let expected := match find_doc id (File_coll w) with
                  | Some d => found_response d
                  | None => not_found_response
                  end in
  (forall resp w',
      getFileById (id_request (ValidId id)) w = (Ok resp, w') ->
      resp = expected \/ exists e, resp = failure_response "Error fetching file" e) /\
  (reachable w = true ->
   exists w', getFileById (id_request (ValidId id)) w = (Ok expected, w')) /\
  (forall d, find_doc id (File_coll w) = Some d ->
             status expected = 200 /\
             returned_views expected = [listed_view d] /\
             prop "id" (listed_view d) = Some (JOid id) /\
             prop "sizeFormatted" (listed_view d)
             = Some (JStr (formatFileSize (size d)))) /\
  (find_doc id (File_coll w) = None -> status expected = 404).
Proof.
  intros expected. split_and!.
  - intros resp w' Hrun.
    apply getFileById_effect in Hrun as (_ & [He | (id' & Hp & ->)]); [by right|].
    simpl in Hp. injection Hp as <-. by left.
  - intros Hrw.
    destruct (ensureConnection_reachable w Hrw) as (w1 & Hc & Hq1 & _ & (a & _) & _).
    destruct (findById_quiet id w1 Hq1) as (w2 & Hf & _).
    exists w2. unfold getFileById, try_catch, findById_select. simpl.
    unfold bind at 1. rewrite Hc. unfold bind. rewrite Hf, a.
    unfold expected. by destruct (find_doc id (File_coll w)).
  - intros d Hd. unfold expected. rewrite Hd. split_and!; try reflexivity.
    simpl. f_equal. f_equal. clear expected.
    induction (File_coll w) as [|x c IH]; [done|]. simpl in Hd.
    destruct (Z.eqb_spec (_id x) id); [congruence|auto].
  - intros Hn. unfold expected. by rewrite Hn.
Qed.

Lemma getFileById_exact_witness :
  exists w',
    getFileById (id_request (ValidId 4)) stocked_world
    = (Ok (found_response power_bill), w') /\
    prop "sizeFormatted" (listed_view power_bill) = Some (JStr "1.5 KB").
Proof.
  destruct (getFileById_exact 4 stocked_world) as (_ & H & Hv & _).
  destruct (H eq_refl) as (w' & Hrun). exists w'. split; [exact Hrun|].
  destruct (Hv power_bill eq_refl) as (_ & _ & _ & Hs). exact Hs.
Defined.

(** X13.  An [:id] that Mongoose cannot cast to an ObjectId gives, on each of
    the four routes with that parameter, the answer 500 with the
    CastError message and the label of the route: never 400 or 404.
    The query is not sent: once the connection is ensured, nothing
    changes. *)
Theorem malformed_id_fails h s w w1 :
  by_id h = true ->
  ensureConnection w = (Ok tt, w1) ->
  handler h (id_request (InvalidId s)) w
  = (Ok (failure_response (handler_label h) (CastError s)), w1) /\
  stores_kept w w1 /\
  prop "error" (sent_json (failure_response (handler_label h) (CastError s)))
  = Some (JStr (err_message (CastError s))).
Proof.
  intros Hh Hc. split_and!.
  - destruct h; try discriminate Hh; simpl;
      unfold getFileById, downloadFile, viewFile, deleteFile, findById_select,
        try_catch; simpl; unfold bind at 1; rewrite Hc; reflexivity.
  - by apply ensureConnection_kept in Hc as (? & _).
  - reflexivity.
Qed.

Lemma malformed_id_fails_witness :
  deleteFile (id_request (InvalidId "abc")) stocked_world
  = (Ok (failure_response "Error deleting file" (CastError "abc")), stocked_world).
Proof.
  destruct (malformed_id_fails H_deleteFile "abc" stocked_world stocked_world
              eq_refl eq_refl) as [H _].
  exact H.
Defined.

Lemma getAllFiles_lists_everything_witness :
  exists w',
    getAllFiles (id_request no_params) stocked_world
    = (Ok (listing_response [power_bill; old_passport]), w').
Proof.
  destruct (getAllFiles_lists_everything (id_request no_params) stocked_world)
    as (_ & _ & _ & _ & H).
  destruct (H eq_refl) as (resp & w' & Hrun & -> & _). exists w'. exact Hrun.
Defined.

(** ** The headers of a download *)

Lemma hex_digit_unreserved n : 0 <= n < 16 -> unreserved (hex_digit n) = true.
Proof.
  intros Hn. rewrite <- (Z2Nat.id n) by lia.
  assert (Hk : (Z.to_nat n < 16)%nat) by lia.
  revert Hk. generalize (Z.to_nat n) as k. intros k Hk.
  do 16 (destruct k as [|k]; [reflexivity|]). lia.
Qed.

Lemma percent_bytes_chars bs t :
  Forall (fun b => 0 <= b < 256) bs ->
  Forall (fun c => unreserved c = true \/ c = "%"%char) (list_ascii_of_string t) ->
  Forall (fun c => unreserved c = true \/ c = "%"%char)
         (list_ascii_of_string (percent_bytes bs +:+ t)).
Proof.
  intros Hbs Ht. induction Hbs as [|b bs Hb _ IH]; [exact Ht|].
  cbn [percent_bytes percent_byte String.app list_ascii_of_string].
  constructor; [by right|].
  constructor; [left; apply hex_digit_unreserved;
                split; [apply Z.div_pos; lia | apply Z.div_lt_upper_bound; lia]|].
  constructor; [left; apply hex_digit_unreserved; apply Z.mod_pos_bound; lia|].
  exact IH.
Qed.

Lemma utf8_bytes n : 0 <= n < 256 -> Forall (fun b => 0 <= b < 256) (utf8 n).
Proof.
  intros Hn. unfold utf8. destruct (Z.ltb_spec n 128).
  - constructor; [lia|constructor].
  - assert (n / 64 < 4) by (apply Z.div_lt_upper_bound; lia).
    assert (0 <= n / 64) by (apply Z.div_pos; lia).
    pose proof (Z.mod_pos_bound n 64 ltac:(lia)).
    constructor; [lia|]. constructor; [lia|constructor].
Qed.

Lemma encodeURIComponent_chars s :
  Forall (fun c => unreserved c = true \/ c = "%"%char)
         (list_ascii_of_string (encodeURIComponent s)).
Proof.
  induction s as [|c s IH]; simpl; [constructor|].
  destruct (unreserved c) eqn:Hc; simpl.
  - constructor; [by left | exact IH].
  - assert (Hn : 0 <= Z.of_nat (nat_of_ascii c) < 256).
    { pose proof (nat_ascii_bounded c). lia. }
    apply percent_bytes_chars; [by apply utf8_bytes|exact IH].
Qed.

Lemma retrieve_run req w :
  exists (o : Result (option (FileDoc * list byte))) w',
    (forall disposition label,
        retrieve disposition label req w
        = (Ok match o with
              | Throw e => failure_response label e
              | Ok None => not_found_response
              | Ok (Some (d, bytes)) => sent_response disposition d bytes
              end, w')) /\
    (forall d bytes, o = Ok (Some (d, bytes)) -> d ∈ File_coll w).
Proof.
  destruct (ensureConnection w) as [[[]|e] w1] eqn:Hc.
  2:{ exists (Throw e), w1. split; [|discriminate]. intros.
      unfold retrieve, try_catch. unfold bind at 1. by rewrite Hc. }
  destruct (findById (params_id req) w1) as [[[d|]|e] w2] eqn:Hfind.
  - destruct (downloadFromGridFS (gridfsId d) w2) as [[bytes|e] w3] eqn:Hdl.
    + exists (Ok (Some (d, bytes))), w3. split.
      * intros. unfold retrieve, try_catch. unfold bind at 1. rewrite Hc.
        unfold bind at 1. rewrite Hfind. unfold bind at 1. by rewrite Hdl.
      * intros d' bytes' [= <- <-]. apply findById_found in Hfind.
        apply ensureConnection_kept in Hc as ((a1 & _) & _). by rewrite <- a1.
    + exists (Throw e), w3. split; [|discriminate]. intros.
      unfold retrieve, try_catch. unfold bind at 1. rewrite Hc.
      unfold bind at 1. rewrite Hfind. unfold bind at 1. by rewrite Hdl.
  - exists (Ok None), w2. split; [|discriminate]. intros.
    unfold retrieve, try_catch. unfold bind at 1. rewrite Hc.
    unfold bind at 1. by rewrite Hfind.
  - exists (Throw e), w2. split; [|discriminate]. intros.
    unfold retrieve, try_catch. unfold bind at 1. rewrite Hc.
    unfold bind at 1. by rewrite Hfind.
Qed.

(** The value Express sends for the content type of a stored upload:
    the two text types get the charset parameter, the others go out as
    stored. *)
Lemma set_content_type_allowed t :
  In t allowedTypes ->
  set_content_type t
  = if bool_decide (t = "text/plain" \/ t = "text/csv")
    then t +:+ "; charset=utf-8" else t.
Proof.
  unfold allowedTypes. cbn [In]. intros H.
  repeat (destruct H as [<- | H]; [reflexivity|]). done.
Qed.

(** U+00E9 goes out as the two bytes of its UTF-8 encoding. *)
Lemma encodeURIComponent_latin1 :
  encodeURIComponent ("caf" +:+ String (ascii_of_nat 233) " 1.png")
  = "caf%C3%A9%201.png".
Proof. reflexivity. Qed.

(** X14.  GET /api/files/:id/download and GET /api/files/:id/view run the same
    steps and leave the same world: they answer with the same status
    and, unless it is 500, the same body; a 500 carries the same error
    under the label of the route.  On 200 the body is the blob of a
    record of the collection; [Content-Type] is the MIME type the record
    stores as Express sends it, which for an allowed type is the type
    itself, followed by [; charset=utf-8] for text/plain and text/csv;
    [Content-Length] is the number of bytes sent, and the two
    [Content-Disposition] values differ in their first word only; the
    file name in them is percent-encoded, so it holds no double quote,
    no white space and no control character. *)
Theorem download_and_view_agree req w :
  exists r1 r2 w',
    downloadFile req w = (Ok r1, w') /\
    viewFile req w = (Ok r2, w') /\
    status r1 = status r2 /\
    (status r1 = 200 \/ status r1 = 404 \/ status r1 = 500) /\
    (status r1 <> 500 -> payload r1 = payload r2) /\
    (status r1 = 500 ->
     exists e, r1 = failure_response "Error downloading file" e /\
               r2 = failure_response "Error viewing file" e) /\
    (status r1 = 200 ->
     exists d bytes name type,
       d ∈ File_coll w /\
       payload r1 = SentBuffer bytes /\
       name = encodeURIComponent (originalName d) /\
       type = set_content_type (mimeType d) /\
       (In (mimeType d) allowedTypes ->
        type = if bool_decide (mimeType d = "text/plain" \/ mimeType d = "text/csv")
               then mimeType d +:+ "; charset=utf-8" else mimeType d) /\
       headers r1 = [("Content-Type", type);
                     ("Content-Disposition",
                      "attachment; filename=" +:+ dquote +:+ name +:+ dquote);
                     ("Content-Length", Z_to_string (Z.of_nat (length bytes)))] /\
       headers r2 = [("Content-Type", type);
                     ("Content-Disposition",
                      "inline; filename=" +:+ dquote +:+ name +:+ dquote);
                     ("Content-Length", Z_to_string (Z.of_nat (length bytes)))] /\
       Forall (fun c => unreserved c = true \/ c = "%"%char)
              (list_ascii_of_string name) /\
       Forall (fun c => is_space c = false /\ String c EmptyString <> dquote /\
                        (32 < nat_of_ascii c < 127)%nat)
              (list_ascii_of_string name)).
Proof.
  rewrite downloadFile_retrieve, viewFile_retrieve.
  destruct (retrieve_run req w) as (o & w' & Hrun & Hin).
  exists match o with
         | Throw e => failure_response "Error downloading file" e
         | Ok None => not_found_response
         | Ok (Some (d, bytes)) => sent_response "attachment" d bytes
         end,
         match o with
         | Throw e => failure_response "Error viewing file" e
         | Ok None => not_found_response
         | Ok (Some (d, bytes)) => sent_response "inline" d bytes
         end, w'.
  split; [apply Hrun|]. split; [apply Hrun|].
  destruct o as [[[d bytes]|]|e].
  2:{ split_and!; try reflexivity; auto; discriminate. }
  2:{ split_and!; try reflexivity; auto; try discriminate; try done.
      intros _. by eexists. }
  specialize (Hin d bytes eq_refl).
  split_and!; try reflexivity; auto; try discriminate.
  intros _. exists d, bytes, (encodeURIComponent (originalName d)),
              (set_content_type (mimeType d)).
  split_and!; try reflexivity; try done.
  - apply set_content_type_allowed.
  - apply encodeURIComponent_chars.
  - eapply Forall_impl; [apply encodeURIComponent_chars|].
    intros c Hcase. simpl in Hcase.
    destruct Hcase as [Hu | ->];
      [|split; [reflexivity|split; [discriminate|]];
        change (nat_of_ascii "%") with 37%nat; lia].
    assert (Hrange : (32 < nat_of_ascii c < 127)%nat /\ nat_of_ascii c <> 34%nat).
    { revert Hu. unfold unreserved. cbn [existsb].
      rewrite !orb_true_iff, !andb_true_iff, !Z.leb_le, !Z.eqb_eq. lia. }
    split; [|split; [|lia]].
    + unfold is_space.
      rewrite !orb_false_iff, andb_false_iff, !Z.leb_gt, !Z.eqb_neq. lia.
    + unfold dquote. intros [= Heq]. apply (f_equal nat_of_ascii) in Heq.
      rewrite nat_ascii_embedding in Heq; lia.
Qed.

(** ** What the handlers preserve *)

Lemma uploadFile_cases req w resp w' :
  uploadFile req w = (Ok resp, w') ->
  (exists e, ensureConnection w = (Throw e, w') /\
             resp = failure_response "Error uploading file" e) \/
  exists w1,
    ensureConnection w = (Ok tt, w1) /\
    ((req_file req = None /\ resp = no_file_response /\ w' = w1) \/
     (exists f d,
         req_file req = Some f /\
         store_file (upload_options (req_body req) f) (req_body req) f w1
         = (Ok d, w') /\
         resp = created_response d) \/
     (exists f e,
         req_file req = Some f /\
         store_file (upload_options (req_body req) f) (req_body req) f w1
         = (Throw e, w') /\
         resp = failure_response "Error uploading file" e)).
Proof.
  intros H.
  destruct (ensureConnection w) as [[[]|e] w1] eqn:Hc.
  2:{ revert H. unfold uploadFile, try_catch. unfold bind at 1.
      rewrite Hc, failure_eq. intros H; inversion H; subst. left. by exists e. }
  right. exists w1. split; [done|].
  destruct (req_file req) as [f|] eqn:Hf.
  2:{ revert H. unfold uploadFile, try_catch. unfold bind at 1. rewrite Hc, Hf.
      intros H; inversion H; subst. by left. }
  right.
  assert (Heq : uploadFile req w = uploadFile (upload_request f (req_body req)) w).
  { unfold uploadFile. by rewrite Hf. }
  rewrite Heq, (uploadFile_store_file f (req_body req) w w1 Hc) in H.
  destruct (store_file _ _ _ w1) as [[d|e] wc] eqn:Hs; inversion H; subst.
  - left. by exists f, d.
  - right. by exists f, e.
Qed.

Section Preservation.

Variable P : World -> Prop.

Hypothesis P_stores :
  forall w w', File_coll w' = File_coll w -> uploads w' = uploads w -> P w -> P w'.

Hypothesis P_store_file :
  forall options body f w r w', store_file options body f w = (r, w') -> P w -> P w'.

Lemma items_run_preserves body w files rs w' :
  items_run body w files rs w' -> P w -> P w'.
Proof.
  induction 1 as [w | w file r w1 rest rs w2 Hone Hrest IH]; [done|].
  intros HP. apply IH. rewrite uploadOne_store_file in Hone.
  destruct (store_file _ _ _ w) as [[d|e] wc] eqn:Hs; inversion Hone; subst;
    eapply P_store_file; eauto.
Qed.

Lemma handler_preserves h req w resp w' :
  is_delete h = false ->
  handler h req w = (Ok resp, w') ->
  P w -> P w'.
Proof.
  intros Hh Hrun HP.
  assert (Hkept : forall v v', stores_kept v v' -> P v -> P v').
  { intros v v' (a & b & _). by apply P_stores. }
  destruct h; try discriminate Hh; simpl in Hrun.
  - apply uploadFile_cases in Hrun
      as [(e & Hc & _) | (w1 & Hc & [(_ & _ & ->) | [(f & d & _ & Hs & _)
                                                  | (f & e & _ & Hs & _)]])];
      apply ensureConnection_kept in Hc as (Hk & _);
      try (by eapply Hkept); eapply P_store_file; eauto.
  - apply uploadMultipleFiles_inv in Hrun
      as [(e & Hc & _) | (w1 & Hc & [(_ & _ & ->) | (files & rs & _ & _ & Hitems & _)])];
      apply ensureConnection_kept in Hc as (Hk & _);
      try (by eapply Hkept). eapply items_run_preserves; eauto.
  - apply getAllFiles_effect in Hrun as (Hk & _). by eapply Hkept.
  - apply getFileById_effect in Hrun as (Hk & _). by eapply Hkept.
  - rewrite downloadFile_retrieve in Hrun.
    apply retrieve_effect in Hrun as (Hk & _). by eapply Hkept.
  - rewrite viewFile_retrieve in Hrun.
    apply retrieve_effect in Hrun as (Hk & _). by eapply Hkept.
  - apply getFilesByCategory_effect in Hrun as (Hk & _). by eapply Hkept.
Qed.

End Preservation.

Lemma deleteFile_any req w resp w' :
  deleteFile req w = (Ok resp, w') ->
  (exists s e, params_id req = InvalidId s /\ stores_kept w w' /\
               resp = failure_response "Error deleting file" e) \/
  exists id, params_id req = ValidId id /\ delete_outcome id w resp w'.
Proof.
  destruct (params_id req) as [id|s] eqn:Hp.
  - intros H. right. exists id. split; [done|]. apply deleteFile_effect.
    rewrite <- H. unfold deleteFile. simpl. by rewrite Hp.
  - intros H. left. exists s. revert H.
    unfold deleteFile, try_catch. unfold bind at 1.
    destruct (ensureConnection w) as [[[]|e] w1] eqn:Hc;
      apply ensureConnection_kept in Hc as (Hk & _).
    + rewrite Hp. unfold findById, cast_ObjectId. unfold_prims.
      rewrite failure_eq. intros H; inversion H; subst. eexists. by split_and!.
    + rewrite failure_eq. intros H; inversion H; subst. exists e. by split_and!.
Qed.

Lemma validate_well_formed d : validate d = [] <-> well_formed d.
Proof.
  unfold validate, well_formed.
  destruct (String.eqb_spec (originalName d) EmptyString) as [E1|E1];
    [split; [discriminate | by intros (? & _)]|].
  destruct (Z.ltb_spec 500 (Z.of_nat (String.length (originalName d))));
    [split; [discriminate | intros (_ & ? & _); lia]|].
  destruct (String.eqb_spec (mimeType d) EmptyString) as [E2|E2];
    [split; [discriminate | by intros (_ & _ & ? & _)]|].
  assert (Henum : in_enum (category d) = true <-> category d ∈ category_enum).
  { unfold in_enum. rewrite existsb_exists. split.
    - intros (x & Hx & Heq). apply String.eqb_eq in Heq. subst.
      by apply list_elem_of_In.
    - intros Hin. exists (category d). split; [by apply list_elem_of_In|].
      apply String.eqb_refl. }
  destruct (in_enum (category d)) eqn:E3.
  2:{ split; [discriminate|]. intros (_ & _ & _ & Hc & _).
      apply Henum in Hc. discriminate. }
  destruct (Z.ltb_spec 1000 (Z.of_nat (String.length (description d))));
    [split; [discriminate | intros (_ & _ & _ & _ & ? & _); lia]|].
  destruct (gridfsId d) as [g|].
  - split; [|done]. intros _. split_and!; try done; try lia.
    + by apply Henum.
  - split; [discriminate|]. intros (_ & _ & _ & _ & _ & [x Hx]). discriminate.
Qed.

Lemma store_file_schema_valid options body f w r w' :
  store_file options body f w = (r, w') -> schema_valid w -> schema_valid w'.
Proof.
  intros Hs Hv. apply store_file_spec in Hs. unfold schema_valid in *.
  destruct r as [d|e].
  - destruct Hs as (b & blob & -> & _ & Hd & _).
    apply Forall_app. split; [done|]. by constructor.
  - destruct Hs as (-> & _). done.
Qed.

(** X15.  Whatever the request and whatever the database does, a handler
    leaves in the collection only records that pass the validators of
    the schema, when that was so before: a name that is not empty and
    has at most 500 characters, a MIME type, a category of the
    enumeration, a description of at most 1000 characters and a blob
    id.  No request stores an unvalidated record. *)
Theorem schema_valid_preserved h req w resp w' :
  schema_valid w ->
  handler h req w = (Ok resp, w') ->
  schema_valid w' /\ Forall well_formed (File_coll w').
Proof.
  intros Hv Hrun.
  assert (Hv' : schema_valid w').
  { destruct (is_delete h) eqn:Hh.
    - destruct h; try discriminate Hh. simpl in Hrun.
      assert (Hsub : forall d, d ∈ File_coll w' -> d ∈ File_coll w).
      { apply deleteFile_any in Hrun
          as [(s & e & _ & (a & _) & _) | (id & _ & Hout)]; [by rewrite a|].
        destruct Hout as [e _ (a & _) | _ _ (a & _) | d g e _ _ _ _ a _ _ | d _ _ a _];
          rewrite a; auto. apply remove_doc_sub. }
      unfold schema_valid in *. rewrite Forall_forall in *. auto.
    - eapply (handler_preserves schema_valid); eauto.
      + intros v v' a _. unfold schema_valid. by rewrite a.
      + apply store_file_schema_valid. }
  split; [done|].
  eapply Forall_impl; [exact Hv'|]. intros d. apply validate_well_formed.
Qed.

Lemma schema_valid_preserved_witness :
  Forall well_formed
         (File_coll (snd (uploadFile (upload_request png_file (mkBody None None))
                                     stocked_world))).
Proof.
  set (r := uploadFile (upload_request png_file (mkBody None None)) stocked_world).
  refine (proj2 (schema_valid_preserved H_uploadFile
                   (upload_request png_file (mkBody None None)) stocked_world
                   match fst r with Ok resp => resp | Throw _ => not_found_response end
                   (snd r) _ eq_refl)).
  repeat constructor.
Defined.

Lemma blob_refs_elem g c :
  g ∈ blob_refs c <-> exists d, d ∈ c /\ gridfsId d = Some g.
Proof. apply list_elem_of_omap. Qed.

Lemma remove_doc_refs id c : blob_refs (remove_doc id c) `sublist_of` blob_refs c.
Proof.
  induction c as [|x c IH]; simpl; [done|].
  destruct (_id x =? id).
  - unfold blob_refs at 2. simpl. destruct (gridfsId x); [by apply sublist_cons|done].
  - unfold blob_refs. simpl. destruct (gridfsId x); [by apply sublist_skip|done].
Qed.

Lemma remove_doc_other_blob id c d g :
  NoDup (blob_refs c) ->
  find_doc id c = Some d -> gridfsId d = Some g ->
  forall d', d' ∈ remove_doc id c -> gridfsId d' <> Some g.
Proof.
  induction c as [|x c IH]; simpl; [done|].
  intros Hnd Hd Hg d' Hin.
  destruct (Z.eqb_spec (_id x) id) as [E|E].
  - injection Hd as ->. unfold blob_refs in Hnd. simpl in Hnd. rewrite Hg in Hnd.
    apply NoDup_cons in Hnd as [Hnot _]. intros Hg'. apply Hnot.
    apply blob_refs_elem. by exists d'.
  - unfold blob_refs in Hnd. simpl in Hnd.
    apply elem_of_cons in Hin as [-> | Hin].
    + intros Hx. rewrite Hx in Hnd. apply NoDup_cons in Hnd as [Hnot _].
      apply Hnot. apply blob_refs_elem. exists d. split; [|done].
      by eapply find_doc_elem.
    + apply (IH); try done. destruct (gridfsId x); [|done].
      by apply NoDup_cons in Hnd as [_ ?].
Qed.

Lemma store_file_consistent options body f w r w' :
  store_file options body f w = (r, w') -> consistent w -> consistent w'.
Proof.
  intros Hs (Hids & Hrefs & Hall). apply store_file_spec in Hs.
  assert (Hfresh : forall b, uploads w !! b = None -> b ∉ blob_refs (File_coll w)).
  { intros b Hb Hin. apply blob_refs_elem in Hin as (d' & Hin & Hg').
    rewrite Forall_forall in Hall. destruct (Hall d' Hin) as (g & Hg & [x Hx]).
    congruence. }
  assert (Hkeep : forall b blob,
             Forall (fun d => exists g, gridfsId d = Some g /\
                                        is_Some (<[b := blob]> (uploads w) !! g))
                    (File_coll w)).
  { intros b blob. eapply Forall_impl; [exact Hall|].
    intros d' (g & Hg & Hsome). exists g. split; [done|].
    apply lookup_insert_is_Some'. by right. }
  destruct r as [d|e].
  - destruct Hs as (b & blob & Hc & Hnew & _ & _ & _ & _ & _ & _ & Hg & Hb & Hu & _).
    unfold consistent. rewrite Hc, Hu. split_and!.
    + rewrite map_app. apply NoDup_app. split_and!; [done| |apply NoDup_singleton].
      intros x Hx Hx'. apply list_elem_of_singleton in Hx'. subst x.
      by apply find_doc_None in Hnew.
    + unfold blob_refs. rewrite omap_app. simpl. rewrite Hg.
      apply NoDup_app. split_and!; [done| |apply NoDup_singleton].
      intros x Hx Hx'. apply list_elem_of_singleton in Hx'. subst x.
      by apply (Hfresh b).
    + apply Forall_app. split; [apply Hkeep|].
      constructor; [|constructor]. exists b. split; [done|].
      rewrite lookup_insert_eq. by eexists.
  - destruct Hs as (Hc & [(_ & Hu) | (b & blob & _ & Hb & Hu)]);
      unfold consistent; rewrite Hc, Hu; split_and!; auto.
Qed.

(** X16.  Referential integrity is an invariant of the API: when record ids
    are unique, no two records share a blob and every record references
    a blob of the bucket, the same holds after any request, with one
    exception, the delete whose record delete failed after the blob
    delete, which answers 500 and leaves a record without blob.  A
    failed upload keeps the invariant: it may leave a blob that no
    record references, never a record without blob. *)
Theorem consistent_preserved h req w resp w' :
  consistent w ->
  handler h req w = (Ok resp, w') ->
  consistent w' \/
  h = H_deleteFile /\ status resp = 500 /\
  exists id d g,
    params_id req = ValidId id /\
    find_doc id (File_coll w') = Some d /\ gridfsId d = Some g /\
    uploads w' !! g = None /\
    events w' = events w ++ [BlobDeleted g].
Proof.
  intros Hcons Hrun.
  assert (Hkept : forall v, File_coll v = File_coll w -> uploads v = uploads w ->
                            consistent v).
  { intros v a b. unfold consistent. by rewrite a, b. }
  destruct (is_delete h) eqn:Hh.
  2:{ left. eapply (handler_preserves consistent); eauto.
      - intros v v' a b. unfold consistent. by rewrite a, b.
      - apply store_file_consistent. }
  destruct h; try discriminate Hh. simpl in Hrun.
  apply deleteFile_any in Hrun as [(s & e & _ & (a & b & _) & _) | (id & Hp & Hout)];
    [left; by apply Hkept|].
  destruct Hout as [e _ (a & b & _) | _ _ (a & b & _) | d g e -> Hd Hg Hs a b c
                   | d _ Hd a Hb].
  - left. by apply Hkept.
  - left. by apply Hkept.
  - right. split; [done|]. split; [done|]. exists id, d, g.
    split_and!; try done; [by rewrite a | rewrite b; apply lookup_delete_eq].
  - left. destruct Hcons as (Hids & Hrefs & Hall).
    unfold consistent. rewrite a. split_and!.
    + eapply sublist_NoDup; [exact Hids|apply remove_doc_ids].
    + eapply sublist_NoDup; [exact Hrefs|apply remove_doc_refs].
    + apply Forall_forall. intros d' Hin.
      rewrite Forall_forall in Hall.
      destruct (Hall d' (remove_doc_sub _ _ _ Hin)) as (g' & Hg' & Hsome).
      exists g'. split; [done|].
      destruct (gridfsId d) as [g|] eqn:Hg.
      * destruct Hb as (_ & -> & _). apply lookup_delete_is_Some. split; [|done].
        intros <-. by eapply (remove_doc_other_blob id (File_coll w) d g).
      * destruct Hb as (-> & _). done.
Qed.

Lemma stocked_world_consistent : consistent stocked_world.
Proof.
  split_and!.
  - by apply (bool_decide_unpack _).
  - by apply (bool_decide_unpack _).
  - repeat (constructor; [eexists; split; [reflexivity|by eexists]|]). constructor.
Defined.

Lemma consistent_preserved_witness :
  consistent (snd (deleteFile (id_request (ValidId 2)) stocked_world)).
Proof.
  destruct (consistent_preserved H_deleteFile (id_request (ValidId 2)) stocked_world
              deleted_response
              (snd (deleteFile (id_request (ValidId 2)) stocked_world))
              stocked_world_consistent eq_refl) as [H | (_ & H & _)].
  - exact H.
  - discriminate H.
Defined.

Lemma store_file_extends w0 options body f w r w' :
  store_file options body f w = (r, w') -> extends w0 w -> extends w0 w'.
Proof.
  intros Hs (Hp & Hu). apply store_file_spec in Hs.
  destruct r as [d|e].
  - destruct Hs as (b & blob & Hc & _ & _ & _ & _ & _ & _ & _ & _ & Hb & Hu' & _).
    split.
    + rewrite Hc. by apply prefix_app_r.
    + rewrite Hu'. etrans; [exact Hu|]. by apply insert_subseteq.
  - destruct Hs as (Hc & [(_ & Hu') | (b & blob & _ & Hb & Hu')]); split;
      rewrite ?Hc, ?Hu'; try done.
    etrans; [exact Hu|]. by apply insert_subseteq.
Qed.

Lemma find_doc_app id c ds d :
  find_doc id c = Some d -> find_doc id (c ++ ds) = Some d.
Proof.
  induction c as [|x c IH]; simpl; [done|]. by destruct (_id x =? id).
Qed.

(** X17.  Only DELETE removes anything.  After any other request, whatever
    its outcome, every record stored before is still stored, unchanged
    and in the same place of the natural order, and every blob of the
    bucket is still there with the same content; the uploads only
    append records and add blobs under new ids. *)
Theorem only_delete_removes h req w resp w' :
  is_delete h = false ->
  handler h req w = (Ok resp, w') ->
  extends w w' /\
  (forall id d, find_doc id (File_coll w) = Some d ->
                find_doc id (File_coll w') = Some d) /\
  (forall g blob, uploads w !! g = Some blob -> uploads w' !! g = Some blob) /\
  (forall id bytes, holds_file id bytes w -> holds_file id bytes w').
Proof.
  intros Hh Hrun.
  assert (Hext : extends w w').
  { eapply (handler_preserves (extends w)); eauto.
    - intros v v' a b. unfold extends. by rewrite a, b.
    - apply store_file_extends.
    - by split. }
  destruct Hext as ([ds Hc] & Hu).
  assert (Hfind : forall id d, find_doc id (File_coll w) = Some d ->
                               find_doc id (File_coll w') = Some d).
  { intros id d Hd. rewrite Hc. by apply find_doc_app. }
  assert (Hblob : forall g blob, uploads w !! g = Some blob ->
                                 uploads w' !! g = Some blob).
  { intros g blob Hl. by eapply lookup_weaken. }
  split_and!; try done.
  - split; [by exists ds|done].
  - intros id bytes (d & b & blob & Hd & Hg & Hl & Hbytes).
    exists d, b, blob. split_and!; auto.
Qed.

Lemma only_delete_removes_witness :
  let w' := snd (uploadFile (upload_request png_file (mkBody None None))
                            stocked_world) in
  find_doc 4 (File_coll w') = Some power_bill /\ uploads w' !! 3 = Some pdf_blob.
Proof.
  intros w'.
  destruct (only_delete_removes H_uploadFile
              (upload_request png_file (mkBody None None)) stocked_world
              match fst (uploadFile (upload_request png_file (mkBody None None))
                                    stocked_world) with
              | Ok resp => resp
              | Throw _ => not_found_response
              end w' eq_refl eq_refl) as (_ & Hf & Hb & _).
  split; [by apply Hf | by apply Hb].
Defined.

Lemma find_doc_unique c d :
  NoDup (map _id c) -> d ∈ c -> find_doc (_id d) c = Some d.
Proof.
  induction c as [|x c IH]; simpl; intros Hnd Hin; [by inversion Hin|].
  apply NoDup_cons in Hnd as [Hx Hnd].
  apply elem_of_cons in Hin as [-> | Hin]; [by rewrite Z.eqb_refl|].
  destruct (Z.eqb_spec (_id x) (_id d)) as [E|E]; [|by apply IH].
  exfalso. apply Hx. rewrite E. apply list_elem_of_In, in_map. by apply list_elem_of_In.
Qed.

(** X18.  With referential integrity and a reachable database, everything
    the listing shows can be fetched: for each record of the collection
    the download and the inline view of its id answer 200 with the
    content of the blob the record references, the fetch by id answers
    the view of that very record, and the delete removes it. *)
Theorem listed_files_are_retrievable w d :
  consistent w ->
  readyState w = 1 -> quiet w = true ->
  d ∈ File_coll w ->
  exists g blob,
    gridfsId d = Some g /\ uploads w !! g = Some blob /\
    (exists w', downloadFile (id_request (ValidId (_id d))) w
                = (Ok (sent_response "attachment" d (Buffer_concat (gf_chunks blob))),
                   w')) /\
    (exists w', viewFile (id_request (ValidId (_id d))) w
                = (Ok (sent_response "inline" d (Buffer_concat (gf_chunks blob))),
                   w')) /\
    (exists w', getFileById (id_request (ValidId (_id d))) w
                = (Ok (found_response d), w')) /\
    (exists w', deleteFile (id_request (ValidId (_id d))) w
                = (Ok deleted_response, w') /\ (d ∉ File_coll w') /\
                consistent w').
Proof.
  intros (Hids & Hrefs & Hall) Hr Hq Hin.
  pose proof (find_doc_unique _ _ Hids Hin) as Hd.
  rewrite Forall_forall in Hall. destruct (Hall d Hin) as (g & Hg & [blob Hl]).
  exists g, blob. split_and!; try done.
  - rewrite downloadFile_retrieve.
    destruct (retrieve_held_quiet "attachment" "Error downloading file" (_id d)
                (Buffer_concat (gf_chunks blob)) w) as (d' & w' & Hd' & Hrun);
      [by exists d, g, blob|done|done|].
    exists w'. congruence.
  - rewrite viewFile_retrieve.
    destruct (retrieve_held_quiet "inline" "Error viewing file" (_id d)
                (Buffer_concat (gf_chunks blob)) w) as (d' & w' & Hd' & Hrun);
      [by exists d, g, blob|done|done|].
    exists w'. congruence.
  - destruct (findById_quiet (_id d) w Hq) as (w2 & Hf & _).
    exists w2. unfold getFileById, try_catch, findById_select. simpl.
    unfold bind at 1. rewrite (ensureConnection_ready w Hr).
    unfold bind. by rewrite Hf, Hd.
  - destruct (findById_quiet (_id d) w Hq)
      as (w2 & Hf & Hq2 & (b1 & b2 & b3) & (_ & Hr2 & _)).
    rewrite Hd in Hf.
    destruct (deleteFromGridFS_quiet g w2) as (w3 & Hdel & Hq3 & Hr3 & c3 & c4);
      [congruence|done|rewrite b2; by eexists|].
    destruct (findByIdAndDelete_available (_id d) w3 Hq3)
      as (w4 & Hfd & Hq4 & Hr4 & d1 & d2).
    rewrite c3, b1, Hd in Hfd, d2.
    exists w4. split_and!.
    + unfold deleteFile, try_catch. simpl. unfold bind at 1.
      rewrite (ensureConnection_ready w Hr).
      unfold bind at 1. rewrite Hf, Hg. unfold bind at 1. rewrite Hdel.
      unfold bind at 1. by rewrite Hfd.
    + rewrite d2. intros Hin'.
      assert (Hnone : find_doc (_id d) (remove_doc (_id d) (File_coll w)) = None)
        by (by apply find_doc_remove_same).
      apply find_doc_None in Hnone. apply Hnone.
      apply list_elem_of_In, in_map. by apply list_elem_of_In.
    + unfold consistent. rewrite d2, d1, c4, b2. split_and!.
      * eapply sublist_NoDup; [exact Hids|apply remove_doc_ids].
      * eapply sublist_NoDup; [exact Hrefs|apply remove_doc_refs].
      * apply Forall_forall. intros d' Hin'.
        destruct (Hall d' (remove_doc_sub _ _ _ Hin')) as (g' & Hg' & Hsome).
        exists g'. split; [done|]. apply lookup_delete_is_Some. split; [|done].
        intros <-. by eapply (remove_doc_other_blob (_id d) (File_coll w) d g).
Qed.

Lemma listed_files_are_retrievable_witness :
  exists w', downloadFile (id_request (ValidId 4)) stocked_world
             = (Ok (sent_response "attachment" power_bill [x25; x50; x44; x46; x2d]),
                w').
Proof.
  destruct (listed_files_are_retrievable stocked_world power_bill
              stocked_world_consistent eq_refl eq_refl)
    as (g & blob & Hg & Hl & Hdl & _).
  { apply list_elem_of_further, list_elem_of_here. }
  injection Hg as <-. vm_compute in Hl. injection Hl as <-.
  exact Hdl.
Defined.

(** ** The multipart layer *)



(** ** The single upload, end to end *)

Lemma uploadToGridFS_blob fileBuffer name options w res w' :
  uploadToGridFS fileBuffer name options w = (Ok res, w') ->
  fileId res = next_oid w /\
  uploads w' !! fileId res
  = Some (mkGridFile name
            (or_default (contentType options) "application/octet-stream")
            (default [] (metadata options))
            (Z.of_nat (length fileBuffer)) chunkSizeBytes
            (split_chunks chunkSizeBytes fileBuffer)).
Proof.
  unfold uploadToGridFS.
  destruct (getGridFSBucket_spec w) as (b & Hb & _ & _).
  unfold bind at 1. rewrite Hb. destruct b; simpl; [|discriminate].
  unfold_prims. simpl. destruct (io _) as [[[]|e] w1]; [|discriminate].
  destruct (uploads w1 !! next_oid w); [discriminate|].
  intros H; inversion H; subst. simpl. split; [done|]. apply lookup_insert_eq.
Qed.

Lemma store_file_blob options body f w d w' :
  store_file options body f w = (Ok d, w') ->
  exists g,
    gridfsId d = Some g /\
    uploads w' !! g
    = Some (mkGridFile (originalname f)
              (or_default (contentType options) "application/octet-stream")
              (default [] (metadata options))
              (Z.of_nat (length (buffer f))) chunkSizeBytes
              (split_chunks chunkSizeBytes (buffer f))) /\
    isGridFS d = true /\ createdAt d = updatedAt d /\ is_Some (createdAt d).
Proof.
  unfold store_file. unfold bind at 1.
  destruct (uploadToGridFS _ _ _ w) as [[res|e] w1] eqn:Hu; [|discriminate].
  apply uploadToGridFS_blob in Hu as (_ & Hl).
  unfold bind at 1. rewrite new_File_spec.
  intros Hs. apply save_spec in Hs as (s1 & _ & _ & _ & _ & -> & _).
  exists (fileId res). simpl. split; [done|]. split; [by rewrite s1|].
  split; [done|]. split; [done|by eexists].
Qed.

Lemma allowed_mimetype p : allowed p = true -> part_mimetype p <> EmptyString.
Proof.
  unfold allowed. intros H Hempty. rewrite Hempty in H. discriminate H.
Qed.

(** X21.  POST /api/files/upload, from the multipart request to the stores.
    When none of at most ten file parts carries a file name the answer
    is 400 ['No file uploaded'] once the connection is ensured, and
    nothing is stored.  An answer of 201 means that exactly one file
    part carried a file name, in the field [file], of an allowed type
    and shorter than the size limit, and that the request appended one
    record and added one blob.  The bytes stored are those of the part,
    or none when the configured limit is negative: the record carries
    the trimmed file name, the declared MIME type and the number of
    bytes stored; the blob it references holds exactly these bytes
    under the untrimmed file name, the declared type and the same
    length, with the raw form fields as metadata. *)
Theorem single_upload_route rq w resp w' :
  POST SingleUpload rq w = (resp, w') ->
  (named_parts (parts rq) = [] -> (length (parts rq) <= 10)%nat ->
   stores_kept w w' /\
   (resp = no_file_response \/
    exists e, resp = failure_response "Error uploading file" e) /\
   (forall w1, ensureConnection w = (Ok tt, w1) ->
               resp = no_file_response /\ w' = w1)) /\
  (status resp = 201 ->
   exists p d g blob bytes,
     named_parts (parts rq) = [p] /\
     acceptable (fileSize_limit (env w)) "file" p /\
     (0 <= fileSize_limit (env w) -> bytes = part_data p) /\
     (fileSize_limit (env w) < 0 -> bytes = []) /\
     resp = created_response d /\
     File_coll w' = File_coll w ++ [d] /\
     originalName d = trim (part_filename p) /\
     mimeType d = part_mimetype p /\
     size d = Z.of_nat (length bytes) /\
     gridfsId d = Some g /\
     uploads w !! g = None /\
     uploads w' = <[g := blob]> (uploads w) /\
     gf_filename blob = part_filename p /\
     gf_contentType blob = part_mimetype p /\
     gf_length blob = size d /\
     Buffer_concat (gf_chunks blob) = bytes /\
     gf_metadata blob = [("category", body_category (fields rq));
                         ("description", body_description (fields rq))]).
Proof.
  intros Hpost. rewrite (POST_aborted SingleUpload) in Hpost. simpl in Hpost.
  split.
  - intros Hnil Hten.
    rewrite multer_parts_accepted in Hpost;
      [|unfold files_limit; simpl; lia|rewrite Hnil; simpl; lia
       |rewrite Hnil; constructor].
    rewrite Hnil in Hpost. simpl in Hpost.
    destruct (ensureConnection w) as [[[]|e] w1] eqn:Hc.
    + revert Hpost. unfold respond, uploadFile, try_catch. simpl.
      unfold bind at 1. rewrite Hc.
      intros H; inversion H; subst.
      apply ensureConnection_kept in Hc as (Hk & _).
      split_and!; [done|by left|].
      intros w1 [= <-]. done.
    + revert Hpost. unfold respond, uploadFile, try_catch. simpl.
      unfold bind at 1. rewrite Hc, failure_eq.
      intros H; inversion H; subst.
      apply ensureConnection_kept in Hc as (Hk & _).
      split_and!; [done|right; by eexists|]. discriminate.
  - intros H201.
    destruct (multer_parts (fileSize_limit (env w)) "file" 0 1 (parts rq))
      as [fs|err] eqn:Hm.
    2:{ inversion Hpost; subst.
        destruct (errorHandler_fails (env w') err) as [_ [H|[H|H]]];
          rewrite H in H201; discriminate. }
    apply multer_parts_Ok in Hm as (-> & _ & Hlen & Hall).
    unfold respond in Hpost.
    match type of Hpost with
    | context [uploadFile ?req w] =>
        destruct (proj1 (handlers_answer req w)) as (r & wr & Hrun)
    end.
    rewrite Hrun in Hpost.
    inversion Hpost; subst r wr. clear Hpost.
    apply uploadFile_cases in Hrun
      as [(e & _ & ->) | (w1 & Hc & [(_ & -> & _) | [(f & d & Hf & Hs & ->)
                                                   | (f & e & _ & _ & ->)]])];
      try discriminate H201.
    destruct (named_parts (parts rq)) as [|p [|q ps]] eqn:Hparts;
      simpl in Hf, Hlen; [discriminate| |lia].
    injection Hf as <-. simpl in Hs.
    apply Forall_cons in Hall as [Hp _].
    pose proof (store_file_blob _ _ _ _ _ _ Hs) as (g & Hg & Hl & _).
    apply store_file_spec in Hs
      as (b & blob & Hcoll & _ & _ & Hname & Hmime & Hsize & _ & _ & Hg' & Hfresh
          & Hup & _).
    rewrite Hg in Hg'. injection Hg' as <-.
    apply ensureConnection_kept in Hc as ((a1 & a2 & _) & _).
    rewrite Hup, lookup_insert_eq in Hl. injection Hl as ->.
    eexists p, d, g, _,
      (if fileSize_limit (env w) <? 0 then [] else part_data p).
    split_and!; try done; try congruence.
    + intros H0. by destruct (Z.ltb_spec (fileSize_limit (env w)) 0); [lia|].
    + intros H0. by destruct (Z.ltb_spec (fileSize_limit (env w)) 0); [|lia].
    + rewrite Hup, a2. reflexivity.
    + reflexivity.
    + simpl. destruct Hp as (_ & Hal & _). apply allowed_mimetype in Hal.
      destruct (String.eqb_spec (part_mimetype p) EmptyString); done.
    + simpl. by rewrite Hsize.
    + apply split_chunks_concat.
    + reflexivity.
Qed.

Lemma single_upload_route_witness :
  let rq := mkMultipart [passport_part; empty_input_part]
                        (mkBody (Some "passport") None) in
  exists d, fst (POST SingleUpload rq stocked_world) = created_response d /\
            size d = 4 /\ mimeType d = "image/png".
Proof.
  intros rq.
  destruct (single_upload_route rq stocked_world (fst (POST SingleUpload rq stocked_world))
              (snd (POST SingleUpload rq stocked_world)) eq_refl) as [_ H].
  destruct (H eq_refl)
    as (p & d & g & blob & bytes & Hp & _ & Hb & _ & Hr & _ & _ & Hm & Hs & _).
  injection Hp as <-. rewrite (Hb ltac:(by vm_compute)) in Hs.
  exists d. by split_and!.
Defined.

Lemma validate_upload_doc body f g w :
  validate (upload_doc body f g w) = [] <-> passes_validation body f.
Proof.
  rewrite validate_well_formed. unfold well_formed, passes_validation. simpl.
  split.
  - intros (a & b & c & d & e & _). by split_and!.
  - intros (a & b & c & d & e). by split_and!.
Qed.

Lemma uploadToGridFS_quiet fileBuffer name options w :
  readyState w = 1 -> quiet w = true -> uploads w !! next_oid w = None ->
  exists res w' blob,
    uploadToGridFS fileBuffer name options w = (Ok res, w') /\
    fileId res = next_oid w /\
    quiet w' = true /\ readyState w' = 1 /\
    next_oid w' = next_oid w + 1 /\ clock w' = clock w /\
    File_coll w' = File_coll w /\
    uploads w' = <[next_oid w := blob]> (uploads w) /\
    Buffer_concat (gf_chunks blob) = fileBuffer /\
    events w' = events w ++ [BlobWritten (next_oid w)].
Proof.
  intros Hr Hq Hfresh. unfold uploadToGridFS.
  unfold bind at 1. rewrite (getGridFSBucket_available w (or_intror Hr)). simpl.
  unfold_prims. simpl.
  assert (Hq' : quiet (set_next_oid (next_oid w + 1) (set_gridFSBucket true w)) = true)
    by exact Hq.
  destruct (io_quiet _ Hq') as (w1 & Hio & Hq1 & Hw1).
  rewrite Hio.
  pose proof (io_next_oid _ _ _ Hio) as Hn.
  destruct (io_kept _ _ _ Hio) as [(a1 & a2 & a3) (b1 & b2 & b3 & b4)].
  simpl in *. rewrite a2, Hfresh.
  do 3 eexists. split; [reflexivity|]. simpl.
  split; [done|]. split; [exact Hq1|]. split; [congruence|]. split; [done|].
  split; [done|]. split; [done|]. split; [reflexivity|].
  split; [apply split_chunks_concat|]. by rewrite a3.
Qed.

Lemma save_quiet d w :
  validate d = [] -> quiet w = true -> find_doc (_id d) (File_coll w) = None ->
  exists w',
    save d w = (Ok (with_timestamps (clock w) d), w') /\
    File_coll w' = File_coll w ++ [with_timestamps (clock w) d] /\
    uploads w' = uploads w /\
    events w' = events w ++ [RecordCreated (_id d)].
Proof.
  intros Hv Hq Hnew. unfold save. rewrite Hv. unfold_prims. simpl.
  destruct (io_quiet _ Hq) as (w1 & Hio & Hq1 & Hw1). rewrite Hio.
  destruct (io_kept _ _ _ Hio) as [(a1 & a2 & a3) (b1 & b2 & b3 & b4)].
  rewrite a1, Hnew. eexists. split; [reflexivity|]. simpl.
  split_and!; congruence.
Qed.

(** X22.  On a reachable database whose connection is down or up (no
    connect in flight) and whose id generator is fresh, a single upload
    first stores the bytes, then validates: the blob is written in any
    case; the answer is 201 with the new record exactly when the
    trimmed name, the type, the category and the trimmed description
    pass the validators, and otherwise 500 with the validation error,
    no record, and the blob left in the bucket without a record.
    Lengths are counted in code units, and trimming removes the white
    space of [String.prototype.trim], U+00A0 included. *)
Theorem upload_validates_after_blob req f w :
  settled w ->
  reachable w = true ->
  req_file req = Some f ->
  uploads w !! next_oid w = None ->
  find_doc (next_oid w + 1) (File_coll w) = None ->
  exists resp w' blob,
    uploadFile req w = (Ok resp, w') /\
    uploads w' = <[next_oid w := blob]> (uploads w) /\
    Buffer_concat (gf_chunks blob) = buffer f /\
    (passes_validation (req_body req) f ->
     exists d, resp = created_response d /\
               File_coll w' = File_coll w ++ [d] /\
               _id d = next_oid w + 1 /\ gridfsId d = Some (next_oid w) /\
               events w' = events w ++ [BlobWritten (next_oid w);
                                        RecordCreated (next_oid w + 1)]) /\
    (~ passes_validation (req_body req) f ->
     exists errs, errs <> [] /\
                  resp = failure_response "Error uploading file" (ValidationError errs) /\
                  File_coll w' = File_coll w /\
                  events w' = events w ++ [BlobWritten (next_oid w)]).
Proof.
  intros _ Hrw Hf Hfresh Hnew.
  destruct (ensureConnection_reachable w Hrw)
    as (w1 & Hc & Hq1 & Hr1 & (a1 & a2 & a3) & Hn1 & Hck1).
  destruct (uploadToGridFS_quiet (buffer f) (originalname f)
              (upload_options (req_body req) f) w1 Hr1 Hq1)
    as (res & w2 & blob & Hu & Hid & Hq2 & Hr2 & Hn2 & Hck2 & b1 & b2 & Hcat & b3);
    [congruence|].
  assert (Heq : uploadFile req w = uploadFile (upload_request f (req_body req)) w).
  { unfold uploadFile. by rewrite Hf. }
  rewrite Heq, (uploadFile_store_file f (req_body req) w w1 Hc).
  unfold store_file. unfold bind at 1. rewrite Hu. unfold bind at 1.
  rewrite new_File_spec.
  fold (upload_doc (req_body req) f (fileId res) w2).
  destruct (validate (upload_doc (req_body req) f (fileId res) w2)) as [|err errs]
    eqn:Hval.
  - pose proof (proj1 (validate_upload_doc _ _ _ _) Hval) as Hpass.
    destruct (save_quiet (upload_doc (req_body req) f (fileId res) w2)
                (set_next_oid (next_oid w2 + 1) w2) Hval Hq2)
      as (w3 & Hs & c1 & c2 & c3).
    { simpl. rewrite b1, a1, Hn2, Hn1. exact Hnew. }
    rewrite Hs. do 3 eexists. split; [reflexivity|].
    simpl in c1, c2, c3.
    split_and!.
    + rewrite c2, b2, a2, Hn1. reflexivity.
    + exact Hcat.
    + intros _. eexists. split; [reflexivity|].
      split_and!.
      * rewrite c1, b1, a1. reflexivity.
      * simpl. congruence.
      * simpl. congruence.
      * rewrite c3, b3, a3, <- app_assoc. simpl. congruence.
    + intros Hno. done.
  - assert (Hfail : ~ passes_validation (req_body req) f).
    { intros Hpass. apply (validate_upload_doc _ _ (fileId res) w2) in Hpass.
      congruence. }
    unfold save. rewrite Hval. unfold throw.
    do 3 eexists. split; [reflexivity|]. simpl.
    split_and!.
    + rewrite b2, a2, Hn1. reflexivity.
    + exact Hcat.
    + intros Hpass. done.
    + intros _. exists (err :: errs). split_and!; try done; congruence.
Qed.

Lemma upload_validates_after_blob_witness :
  exists resp w' blob,
    uploadFile (upload_request nameless_file (mkBody None None)) stocked_world
    = (Ok resp, w') /\
    status resp = 500 /\ File_coll w' = File_coll stocked_world /\
    uploads w' !! 5 = Some blob.
Proof.
  destruct (upload_validates_after_blob
              (upload_request nameless_file (mkBody None None)) nameless_file
              stocked_world (or_intror eq_refl) eq_refl eq_refl eq_refl eq_refl)
    as (resp & w' & blob & Hrun & Hu & _ & _ & Hbad).
  destruct Hbad as (errs & _ & -> & Hc & _).
  { intros (Hname & _). by apply Hname. }
  eexists _, w', blob. split; [exact Hrun|]. split; [reflexivity|].
  split; [exact Hc|]. rewrite Hu. apply lookup_insert_eq.
Defined.

(** ** The answers *)

Ltac in_list := repeat first [apply list_elem_of_here | apply list_elem_of_further].

Lemma failure_well_flagged label e : well_flagged (failure_response label e).
Proof.
  split_and!; [simpl; in_list|reflexivity|]. split; [by eexists|done].
Qed.

Lemma plain_well_flagged st kv :
  st = 200 \/ st = 201 \/ st = 400 \/ st = 404 ->
  assoc "success" kv = Some (JBool (st <? 400)) ->
  assoc "error" kv = None ->
  well_flagged (mkResponse st [] (SentJson (JObj kv))).
Proof.
  intros Hst Hs He. split_and!; [|exact Hs|].
  - simpl. destruct Hst as [-> | [-> | [-> | ->]]]; in_list.
  - simpl. rewrite He. split; [lia|]. by intros [msg ?].
Qed.

Ltac flagged :=
  first [apply failure_well_flagged
        | by (apply plain_well_flagged; [auto|reflexivity|reflexivity])].

(** X23.  No handler lets an error reach the error-handling middleware: every
    request that reaches a handler is answered by the handler itself.
    The answer is a file (status 200, download and view only) or a JSON
    object with status 200, 201, 400, 404 or 500 whose [success] flag
    is true exactly for the 2xx, and which carries the [error] message
    exactly on a 500, in production as elsewhere. *)
Theorem handlers_answer_flagged h req w :
  exists resp w',
    handler h req w = (Ok resp, w') /\
    respond (handler h req) w = (resp, w') /\
    well_flagged resp /\
    (forall b, payload resp = SentBuffer b -> h = H_downloadFile \/ h = H_viewFile).
Proof.
  destruct (handler_shape h req) as (body & Hshape).
  destruct (try_catch_failure (ensureConnection ;;; body) (handler_label h) w)
    as (resp & w' & Hrun).
  rewrite <- Hshape in Hrun. clear Hshape body.
  exists resp, w'. split; [exact Hrun|]. split; [unfold respond; by rewrite Hrun|].
  destruct h; simpl in Hrun.
  - apply uploadFile_cases in Hrun
      as [(e & _ & ->) | (w1 & _ & [(_ & -> & _) | [(f & d & _ & _ & ->)
                                                  | (f & e & _ & _ & ->)]])];
      (split; [flagged|discriminate]).
  - apply uploadMultipleFiles_inv in Hrun
      as [(e & _ & ->) | (w1 & _ & [(_ & -> & _) | (files & rs & _ & _ & _ & ->)])];
      (split; [|discriminate]); try flagged.
    unfold multi_response. destruct (failures files rs); flagged.
  - apply getAllFiles_effect in Hrun as (_ & [-> | [e ->]]);
      (split; [flagged|discriminate]).
  - apply getFileById_effect in Hrun as (_ & [[e ->] | (id & _ & ->)]).
    + split; [flagged|discriminate].
    + destruct (find_doc id (File_coll w)); (split; [flagged|discriminate]).
  - rewrite downloadFile_retrieve in Hrun.
    apply retrieve_effect in Hrun as (_ & [e -> | id _ -> _ | id d b blob _ -> _ _ _]);
      (split; [|auto]); try flagged. reflexivity.
  - rewrite viewFile_retrieve in Hrun.
    apply retrieve_effect in Hrun as (_ & [e -> | id _ -> _ | id d b blob _ -> _ _ _]);
      (split; [|auto]); try flagged. reflexivity.
  - apply deleteFile_any in Hrun as [(s & e & _ & _ & ->) | (id & _ & Hout)].
    + split; [flagged|discriminate].
    + destruct Hout as [e -> _ | -> _ _ | d g e -> _ _ _ _ _ _ | d -> _ _ _];
        (split; [flagged|discriminate]).
  - apply getFilesByCategory_effect in Hrun as (_ & [-> | [e ->]]);
      (split; [flagged|discriminate]).
Qed.

(** ** The formatted size *)

(** X24.  [formatFileSize] on the sizes an upload can have.  Below 1024 bytes
    the string is the byte count followed by ['Bytes'].  Below 1 TiB
    the unit is one of ['Bytes'], ['KB'], ['MB'], ['GB'] and the number
    shown lies between 1 and 1024, both included: rounding can show 1024
    of a unit, as in ['1024 KB'] for one byte less than a MiB.  From 1
    TiB on the list of units is exhausted and the string ends in
    ['undefined']. *)
Theorem formatFileSize_ranges bytes :
  (0 < bytes < 1024 -> formatFileSize bytes = Z_to_string bytes +:+ " Bytes") /\
  (0 < bytes < 1024 ^ 4 ->
   exists name,
     sizes !! Z.to_nat (unit_index bytes) = Some name /\
     formatFileSize bytes
     = show_hundredths (toFixed2 bytes (1024 ^ unit_index bytes)) +:+ " " +:+ name /\
     100 <= toFixed2 bytes (1024 ^ unit_index bytes) <= 102400) /\
  (1024 ^ 4 <= bytes -> exists s, formatFileSize bytes = s +:+ " undefined") /\
  formatFileSize (1024 * 1024 - 1) = "1024 KB".
Proof.
  assert (Hfmt : 0 < bytes ->
            formatFileSize bytes
            = show_hundredths (toFixed2 bytes (1024 ^ unit_index bytes)) +:+ " "
              +:+ default "undefined" (sizes !! Z.to_nat (unit_index bytes))).
  { intros Hpos. unfold formatFileSize.
    destruct (Z.eqb_spec bytes 0); [lia|].
    destruct (Z.ltb_spec bytes 0); [lia|]. reflexivity. }
  split_and!.
  - intros [Hpos Hlt]. rewrite Hfmt by done.
    assert (Hi : unit_index bytes = 0).
    { unfold unit_index. change (Z.log2 1024) with 10.
      apply Z.div_small. split; [apply Z.log2_nonneg|].
      apply Z.log2_lt_pow2; [done|]. change (2 ^ 10) with 1024. lia. }
    rewrite Hi. change (1024 ^ 0) with 1. simpl.
    assert (Hn : toFixed2 bytes 1 = 100 * bytes).
    { unfold toFixed2. replace (2 * 100 * bytes + 1) with (1 + (100 * bytes) * (2 * 1))
        by lia.
      rewrite Z.div_add by lia. change (1 / (2 * 1)) with 0. lia. }
    rewrite Hn. unfold show_hundredths.
    replace (100 * bytes) with (bytes * 100) by lia.
    rewrite Z.mod_mul, Z.div_mul by lia. reflexivity.
  - intros [Hpos Hlt]. rewrite Hfmt by done.
    destruct (unit_index_bounds bytes Hpos) as (Hi0 & Hlo & Hhi).
    set (i := unit_index bytes) in *.
    assert (Hi4 : i < 4).
    { apply (Z.pow_lt_mono_r_iff 1024); lia. }
    assert (Hden : 0 < 1024 ^ i) by (apply Z.pow_pos_nonneg; lia).
    pose proof (toFixed2_nearest bytes (1024 ^ i) Hden) as Hnear.
    assert (Hup : 1024 ^ (i + 1) = 1024 * 1024 ^ i)
      by (rewrite Z.pow_add_r by lia; lia).
    assert (Hcase : i = 0 \/ i = 1 \/ i = 2 \/ i = 3) by lia.
    assert (Hname : exists name, sizes !! Z.to_nat i = Some name).
    { destruct Hcase as [-> | [-> | [-> | ->]]]; by eexists. }
    destruct Hname as (name & Hname). exists name. rewrite Hname.
    split_and!; [done|done|nia|nia].
  - intros Hbig.
    assert (Hpos : 0 < bytes) by (change (1024 ^ 4) with 1099511627776 in Hbig; lia).
    rewrite Hfmt by done. eexists.
    assert (Hi : 4 <= unit_index bytes).
    { unfold unit_index. change (Z.log2 1024) with 10.
      apply Z.div_le_lower_bound; [lia|].
      change (10 * 4) with (Z.log2 (1024 ^ 4)). by apply Z.log2_le_mono. }
    rewrite (lookup_ge_None_2 sizes) by (simpl; lia). reflexivity.
  - reflexivity.
Qed.

Lemma formatFileSize_ranges_witness :
  formatFileSize 512 = "512 Bytes" /\
  exists s, formatFileSize (2 * 1024 ^ 4) = s +:+ " undefined".
Proof.
  destruct (formatFileSize_ranges 512) as (H & _).
  destruct (formatFileSize_ranges (2 * 1024 ^ 4)) as (_ & _ & H' & _).
  split; [apply H; lia|apply H'; lia].
Defined.

(** ** A category outside the enumeration *)

Lemma filter_nil_Forall {A} (P : A -> bool) (l : list A) :
  Forall (fun x => P x = false) l -> List.filter P l = [].
Proof.
  induction 1 as [|x l Hx _ IH]; [done|]. simpl. by rewrite Hx.
Qed.

(** X25.  The category of the listing route is not validated.  When every
    record passes the validators, a listing by a category outside the
    enumeration finds nothing and is still a success: it answers 200
    with [count: 0] and an empty list (or 500 when the database fails),
    never 400 or 404. *)
Theorem unknown_category_lists_nothing c w :
  schema_valid w ->
  c ∉ category_enum ->
  (forall resp w',
      getFilesByCategory (category_request c) w = (Ok resp, w') ->
      resp = category_response c [] \/
      exists e, resp = failure_response "Error fetching files" e) /\
  (reachable w = true ->
   exists w', getFilesByCategory (category_request c) w
              = (Ok (category_response c []), w')) /\
  status (category_response c []) = 200 /\
  prop "count" (sent_json (category_response c [])) = Some (JNum 0) /\
  prop "files" (sent_json (category_response c [])) = Some (JArr []).
Proof.
  intros Hv Hc.
  assert (Hnone : sort_uploadDate_desc
                    (List.filter (matches (Some c)) (File_coll w)) = []).
  { rewrite filter_nil_Forall; [reflexivity|].
    eapply Forall_impl; [exact Hv|]. intros d Hd. simpl.
    apply validate_well_formed in Hd as (_ & _ & _ & Hcat & _).
    destruct (String.eqb_spec (category d) c); [congruence|done]. }
  split_and!; try reflexivity.
  - intros resp w' Hrun.
    apply getFilesByCategory_effect in Hrun as (_ & [-> | He]); [|by right].
    left. simpl params_category. by rewrite Hnone.
  - intros Hrw.
    destruct (ensureConnection_reachable w Hrw) as (w1 & Hcn & Hq1 & _ & (a & _) & _).
    destruct (File_find_quiet (Some c) w1 Hq1) as (w2 & Hf & _).
    exists w2. unfold getFilesByCategory, try_catch. unfold bind at 1. rewrite Hcn.
    unfold bind at 1. simpl params_category.
    rewrite Hf, category_answer, a, Hnone. reflexivity.
Qed.

Lemma unknown_category_lists_nothing_witness :
  exists w', getFilesByCategory (category_request "selfie") stocked_world
             = (Ok (category_response "selfie" []), w').
Proof.
  destruct (unknown_category_lists_nothing "selfie" stocked_world) as (_ & H & _).
  - repeat constructor.
  - by apply (bool_decide_unpack _).
  - by apply H.
Defined.

(** ** A batch on a reachable database *)

Lemma save_available d w :
  quiet w = true -> find_doc (_id d) (File_coll w) = None ->
  exists r w',
    save d w = (r, w') /\
    quiet w' = true /\ readyState w' = readyState w /\ next_oid w' = next_oid w /\
    uploads w' = uploads w /\
    match validate d with
    | [] => r = Ok (with_timestamps (clock w) d) /\
            File_coll w' = File_coll w ++ [with_timestamps (clock w) d]
    | (_ :: _) as errs => r = Throw (ValidationError errs) /\
                          File_coll w' = File_coll w
    end.
Proof.
  intros Hq Hnew. unfold save. destruct (validate d) as [|err errs] eqn:Hv.
  - unfold_prims. simpl.
    destruct (io_quiet _ Hq) as (w1 & Hio & Hq1 & Hw1). rewrite Hio.
    pose proof (io_next_oid _ _ _ Hio) as Hn.
    destruct (io_kept _ _ _ Hio) as [(a1 & a2 & a3) (b1 & b2 & b3 & b4)].
    rewrite a1, Hnew. do 2 eexists. split; [reflexivity|]. simpl.
    split_and!; try done; congruence.
  - unfold throw. do 2 eexists. split; [reflexivity|]. by split_and!.
Qed.

Lemma find_doc_snoc_other k c d :
  find_doc k c = None -> _id d <> k -> find_doc k (c ++ [d]) = None.
Proof.
  intros Hc Hd. induction c as [|x c IH]; simpl in *.
  - by destruct (Z.eqb_spec (_id d) k).
  - destruct (_id x =? k); [done|auto].
Qed.

Lemma store_file_available options body f w :
  readyState w = 1 -> quiet w = true -> generator_fresh w ->
  exists r w',
    store_file options body f w = (r, w') /\
    readyState w' = 1 /\ quiet w' = true /\ generator_fresh w' /\
    (passes_validation body f -> exists d, r = Ok d) /\
    (~ passes_validation body f -> exists errs, r = Throw (ValidationError errs)).
Proof.
  intros Hr Hq Hfresh.
  destruct (Hfresh (next_oid w) ltac:(lia)) as [Hu0 _].
  destruct (uploadToGridFS_quiet (buffer f) (originalname f) options w Hr Hq Hu0)
    as (res & w2 & blob & Hu & Hid & Hq2 & Hr2 & Hn2 & Hck2 & b1 & b2 & Hcat & b3).
  unfold store_file. unfold bind at 1. rewrite Hu. unfold bind at 1.
  rewrite new_File_spec.
  fold (upload_doc body f (fileId res) w2).
  destruct (save_available (upload_doc body f (fileId res) w2)
              (set_next_oid (next_oid w2 + 1) w2) Hq2)
    as (r & w3 & Hs & Hq3 & Hr3 & Hn3 & c2 & Hv).
  { simpl. rewrite b1, Hn2. by apply Hfresh; lia. }
  rewrite Hs. exists r, w3. split; [done|].
  simpl in Hr3, Hn3, c2, Hv.
  assert (Hcoll : File_coll w3 = File_coll w \/
                  exists d, _id d = next_oid w + 1 /\
                            File_coll w3 = File_coll w ++ [d]).
  { destruct (validate _) as [|err errs]; destruct Hv as [_ ->]; rewrite b1;
      [right|by left].
    eexists. split; [|reflexivity]. simpl. congruence. }
  split_and!.
  - congruence.
  - exact Hq3.
  - intros k Hk. rewrite Hn3, Hn2 in Hk.
    destruct (Hfresh k ltac:(lia)) as [Hku Hkc]. split.
    + rewrite c2, b2. rewrite lookup_insert_ne by lia. exact Hku.
    + destruct Hcoll as [-> | (d & Hd & ->)]; [done|].
      apply find_doc_snoc_other; [done|lia].
  - intros Hpass. apply (validate_upload_doc body f (fileId res) w2) in Hpass.
    rewrite Hpass in Hv. destruct Hv as [-> _]. by eexists.
  - intros Hfail.
    destruct (validate (upload_doc body f (fileId res) w2)) as [|err errs] eqn:Hval.
    + exfalso. apply Hfail. by apply (validate_upload_doc body f (fileId res) w2).
    + destruct Hv as [-> _]. by eexists.
Qed.

Lemma items_run_available body files w :
  readyState w = 1 -> quiet w = true -> generator_fresh w ->
  exists rs w',
    items_run body w files rs w' /\
    Forall2 (fun f r => passes_validation body f <-> is_throw r = false) files rs /\
    Forall (fun r => forall e, r = Throw e -> exists errs, e = ValidationError errs) rs.
Proof.
  revert w. induction files as [|f files IH]; intros w Hr Hq Hfresh.
  - exists [], w. split_and!; constructor.
  - destruct (store_file_available (item_options body f) body f w Hr Hq Hfresh)
      as (r & w1 & Hs & Hr1 & Hq1 & Hf1 & Hok & Hbad).
    destruct (IH w1 Hr1 Hq1 Hf1) as (rs & w2 & Hrun & Hall & Herrs).
    assert (Hone : exists r', uploadOne body f w = (r', w1) /\
                              (is_throw r' = is_throw r) /\
                              (forall e, r' = Throw e -> r = Throw e)).
    { rewrite uploadOne_store_file, Hs.
      destruct r; eexists; split_and!; try reflexivity; intros ? [=]; congruence. }
    destruct Hone as (r' & Hone & Hsame & Hthrow).
    exists (r' :: rs), w2. split_and!.
    + by econstructor.
    + constructor; [|done]. rewrite Hsame. split.
      * intros Hpass. destruct (Hok Hpass) as (d & ->). done.
      * intros Hno. destruct r as [d|e]; [|discriminate].
        destruct (validate (upload_doc body f 0 w)) eqn:Hval.
        -- by apply (validate_upload_doc body f 0 w).
        -- exfalso. 
           assert (Hnp : ~ passes_validation body f).
           { intros Hp. apply (validate_upload_doc body f 0 w) in Hp. congruence. }
           destruct (Hbad Hnp) as (errs & [=]).
    + constructor; [|done]. intros e He. apply Hthrow in He. subst r.
      destruct (validate (upload_doc body f 0 w)) eqn:Hval.
      * apply (validate_upload_doc body f 0 w) in Hval.
        destruct (Hok Hval) as (d & [=]).
      * assert (Hnp : ~ passes_validation body f).
        { intros Hp. apply (validate_upload_doc body f 0 w) in Hp. congruence. }
        destruct (Hbad Hnp) as (errs & [= ->]). by eexists.
Qed.

Lemma all_succeeded files rs :
  length rs = length files ->
  Forall (fun r => is_throw r = false) rs ->
  failures files rs = [] /\ length (successes rs) = length files.
Proof.
  revert files. induction rs as [|r rs IH]; intros [|f files] Hlen Hall;
    try discriminate; [done|].
  apply Forall_cons in Hall as [Hr Hall]. destruct r as [v|e]; [|discriminate].
  simpl in *. destruct (IH files ltac:(lia) Hall) as [-> ->]. done.
Qed.

(** X26.  A batch on a reachable database whose connection is down or up (no
    connect in flight) and whose id generator is ahead of the ids in
    use: POST /api/files/upload-multiple stores every payload that
    passes the validators and reports every other one, each
    independently of the rest.  The payloads that succeed are exactly
    those whose trimmed name, type, category and trimmed description
    are valid; every failure is a validation error.  The records
    created are appended in request order, each with the trimmed name,
    the type, the size and the bytes of its payload, and [files] holds
    their views in that order; [errors] holds an entry with the file
    name and the message for every other payload.  When all payloads
    are valid the answer lists them all and has no [errors] property. *)
Theorem batch_stores_valid_files req files w :
  settled w ->
  reachable w = true ->
  generator_fresh w ->
  req_files req = Some files ->
  files <> [] ->
  exists resp w' os views errs,
    uploadMultipleFiles req w = (Ok resp, w') /\
    batch_answer views errs resp /\
    File_coll w' = File_coll w ++ records_of os /\
    batch_outcome (req_body req) w' files os views errs /\
    Forall2 (fun f o => passes_validation (req_body req) f <-> is_throw o = false)
            files os /\
    Forall (fun o => forall e, o = Throw e -> exists errs, e = ValidationError errs) os /\
    (Forall (passes_validation (req_body req)) files ->
     errs = [] /\
     length views = length files /\
     prop "errors" (sent_json resp) = None).
Proof.
  intros _ Hrw Hfresh Hfiles Hne.
  destruct (ensureConnection_reachable w Hrw)
    as (w1 & Hc & Hq1 & Hr1 & (a1 & a2 & a3) & Hn1 & _).
  assert (Hfresh1 : generator_fresh w1).
  { intros k Hk. rewrite a1, a2. apply Hfresh. lia. }
  destruct (items_run_available (req_body req) files w1 Hr1 Hq1 Hfresh1)
    as (rs & w' & Hrun & Hall & Herrs).
  destruct (items_run_batch _ _ _ _ _ Hrun) as (os & Hcoll & Hbatch & Hro).
  exists (multi_response (successes rs) (failures files rs)), w', os,
    (successes rs), (failures files rs).
  split_and!.
  - by apply (uploadMultipleFiles_connected req files w w1 rs w').
  - apply multi_response_answer.
  - by rewrite Hcoll, a1.
  - done.
  - clear -Hall Hro. revert os Hro.
    induction Hall as [|f r files rs Hfr _ IH]; intros os Hro;
      inversion Hro as [|? o ? os' [Ho _] Hro']; subst; constructor.
    + by rewrite <- Ho.
    + by apply IH.
  - clear -Herrs Hro. revert os Hro.
    induction Herrs as [|r rs Hr _ IH]; intros os Hro;
      inversion Hro as [|? o ? os' [Ho1 Ho2] Hro']; subst; constructor.
    + intros e ->. destruct r as [v|e']; [discriminate|].
      specialize (Ho2 e' eq_refl). injection Ho2 as <-. by apply Hr.
    + by apply IH.
  - intros Hvalid.
    assert (Hoks : Forall (fun r => is_throw r = false) rs).
    { clear -Hall Hvalid. induction Hall as [|f r files rs Hfr _ IH]; [constructor|].
      apply Forall_cons in Hvalid as [Hf Hvalid].
      constructor; [by apply Hfr|by apply IH]. }
    destruct (all_succeeded files rs) as [Hnone Hlen]; [|done|].
    { symmetry. by eapply Forall2_length. }
    rewrite Hnone. by split_and!.
Qed.

Lemma batch_stores_valid_files_witness :
  exists resp w' os,
    uploadMultipleFiles (files_request [pdf_file; nameless_file] (mkBody None None))
                        stocked_world
    = (Ok resp, w') /\
    status resp = 201 /\
    File_coll w' = File_coll stocked_world ++ records_of os /\
    Forall2 (fun f o => passes_validation (mkBody None None) f <-> is_throw o = false)
            [pdf_file; nameless_file] os.
Proof.
  destruct (batch_stores_valid_files
              (files_request [pdf_file; nameless_file] (mkBody None None))
              [pdf_file; nameless_file] stocked_world (or_intror eq_refl) eq_refl)
    as (resp & w' & os & views & errs & Hrun & (Hst & _) & Hcoll & _ & Hall & _);
    [|reflexivity|discriminate|by exists resp, w', os].
  intros k Hk. simpl in Hk. split.
  - change (uploads stocked_world)
      with (<[1 := png_blob]> (<[3 := pdf_blob]> (∅ : gmap Z GridFile))).
    rewrite !lookup_insert_ne by lia. reflexivity.
  - change (File_coll stocked_world) with [old_passport; power_bill].
    cbn [find_doc _id old_passport power_bill].
    destruct (Z.eqb_spec 2 k); [lia|]. destruct (Z.eqb_spec 4 k); [lia|done].
Defined.
